(** * Human-in-the-loop flight search workflows (LangGraph JS + Elasticsearch)

    A shallow embedding of the three workflow programs of the repository,

    - [Cyclic]  : [src/main.ts], the circular "show, ask, filter" graph;
    - [Linear]  : [src/unnamed/part_000], the linear graph written in TypeScript;
    - [MainJs]  : [src/main.js], the linear graph written in JavaScript;

    together with a model of the graph engine they are compiled for.  The
    engine ([StateGraph], [interrupt], [Command], [MemorySaver]) is imported
    by the sources from a package and is described by the specification only;
    the node handlers, the routers and the graph wiring are translated from
    the sources. *)

From Stdlib Require Import ZArith Ascii String List Lia DecimalString DecimalPos.
From stdpp Require Import base option list strings gmap.

Local Open Scope Z_scope.

(** ** JavaScript strings and numbers

    A JavaScript string is a sequence of UTF-16 code units.  It is modelled
    by [string], each [ascii] standing for one code unit below 256; the
    functions below are the ECMAScript ones restricted to such strings.

    A JavaScript number that results from [parseInt] is modelled by
    [option Z], [None] standing for [NaN].  [parseInt] rounds integers above
    2^53; the programs only compare its result with array lengths and use it
    as an index after the comparison succeeded, where the value is exact. *)

Module Js.

Definition Number : Type := option Z.
Definition NaN : Number := None.

Definition codeUnit (c : ascii) : Z := Z.of_N (N_of_ascii c).

(** WhiteSpace and LineTerminator code units (below 256): TAB, LF, VT, FF,
    CR, SP and NBSP. *)
Definition isWhiteSpace (c : ascii) : bool :=
  let n := codeUnit c in
  (n =? 9) || (n =? 10) || (n =? 11) || (n =? 12) || (n =? 13)
  || (n =? 32) || (n =? 160).

(** [\d] of a regular expression without the unicode flag. *)
Definition isDigit (c : ascii) : bool :=
  let n := codeUnit c in (48 <=? n) && (n <=? 57).

(** Value of a code unit read as a digit of a radix up to 36. *)
Definition digitValue (c : ascii) : option Z :=
  let n := codeUnit c in
  if (48 <=? n) && (n <=? 57) then Some (n - 48)
  else if (97 <=? n) && (n <=? 122) then Some (n - 87)
  else if (65 <=? n) && (n <=? 90) then Some (n - 55)
  else None.

Definition radixDigit (R : Z) (c : ascii) : option Z :=
  match digitValue c with
  | Some d => if d <? R then Some d else None
  | None => None
  end.

Fixpoint trimStart (s : string) : string :=
  match s with
  | String c s' => if isWhiteSpace c then trimStart s' else s
  | EmptyString => EmptyString
  end.

Fixpoint trimEnd (s : string) : string :=
  match s with
  | EmptyString => EmptyString
  | String c s' =>
      match trimEnd s' with
      | EmptyString => if isWhiteSpace c then EmptyString else String c EmptyString
      | r => String c r
      end
  end.

(** [String.prototype.trim]. *)
Definition trim (s : string) : string := trimEnd (trimStart s).

(** [String.prototype.split] with a separator of one code unit. *)
Fixpoint split (sep : ascii) (s : string) : list string :=
  match s with
  | EmptyString => [EmptyString]
  | String c s' =>
      if Ascii.eqb c sep then EmptyString :: split sep s'
      else match split sep s' with
           | h :: t => String c h :: t
           | [] => [String c EmptyString]
           end
  end.

(** Longest prefix of radix-[R] digits, read as an integer; [acc] is
    [None] as long as no digit was read. *)
Fixpoint parseDigits (R : Z) (acc : option Z) (s : string) : option Z :=
  match s with
  | String c s' =>
      match radixDigit R c with
      | Some d => parseDigits R (Some (default 0 acc * R + d)) s'
      | None => acc
      end
  | EmptyString => acc
  end.

Definition stripSign (s : string) : Z * string :=
  match s with
  | String "-"%char r => (-1, r)
  | String "+"%char r => (1, r)
  | _ => (1, s)
  end.

Definition stripHexPrefix (s : string) : option string :=
  match s with
  | String "0"%char (String "x"%char r) => Some r
  | String "0"%char (String "X"%char r) => Some r
  | _ => None
  end.

(** [parseInt(string, radix)] (ECMAScript 19.2.5); [radix = None] is the
    call with one argument, [Some r] a radix already converted by ToInt32. *)
Definition parseInt (s : string) (radix : option Z) : Number :=
  let '(sign, body) := stripSign (trimStart s) in
  let r := default 0 radix in
  if (r =? 0) || (r =? 16) then
    match stripHexPrefix body with
    | Some body' => Z.mul sign <$> parseDigits 16 None body'
    | None => Z.mul sign <$> parseDigits (if r =? 0 then 10 else r) None body
    end
  else if (r <? 2) || (36 <? r) then NaN
  else Z.mul sign <$> parseDigits r None body.

(** [x - 1] on numbers: [NaN - 1] is [NaN]. *)
Definition pred (x : Number) : Number := (fun z => z - 1) <$> x.

(** [i >= 0 && i < len]: every comparison with [NaN] is false. *)
Definition inRange (len : nat) (i : Number) : bool :=
  match i with
  | Some z => (0 <=? z) && (z <? Z.of_nat len)
  | None => false
  end.

(** [array[i]]: [None] is [undefined]. *)
Definition index {A} (l : list A) (i : Number) : option A :=
  match i with
  | Some z => if 0 <=? z then l !! Z.to_nat z else None
  | None => None
  end.

(** [/^\d+$/.exec(s)] succeeds: [s] is a non-empty run of decimal digits. *)
Fixpoint allDigits (s : string) : bool :=
  match s with
  | EmptyString => true
  | String c s' => isDigit c && allDigits s'
  end.

Definition numberRegex (s : string) : bool :=
  match s with
  | EmptyString => false
  | _ => allDigits s
  end.

(** The number a run of decimal digits denotes. *)
Fixpoint decimalFrom (acc : Z) (s : string) : Z :=
  match s with
  | EmptyString => acc
  | String c s' => decimalFrom (acc * 10 + (codeUnit c - 48)) s'
  end.

Definition decimalValue (s : string) : Z := decimalFrom 0 s.

(** Truthiness of an optional string: [undefined] and [""] are falsy. *)
Definition truthy (s : option string) : bool :=
  match s with
  | Some (String _ _) => true
  | _ => false
  end.

(** [s || d] for an optional string. *)
Definition orElse (s : option string) (d : string) : string :=
  match s with
  | Some (String c r) => String c r
  | _ => d
  end.

(** [String.prototype.slice(0, n)]. *)
Fixpoint slice0 (n : nat) (s : string) : string :=
  match n, s with
  | S n', String c s' => String c (slice0 n' s')
  | _, _ => EmptyString
  end.

(** [String.prototype.toUpperCase] on the letters a-z; other code units
    are kept. *)
Definition upperChar (c : ascii) : ascii :=
  let n := codeUnit c in
  if (97 <=? n) && (n <=? 122) then ascii_of_N (Z.to_N (n - 32)) else c.

Fixpoint toUpperCase (s : string) : string :=
  match s with
  | EmptyString => EmptyString
  | String c s' => String (upperChar c) (toUpperCase s')
  end.

(** Decimal rendering of an integer, as a template literal does for an
    integral number below 10^21 in absolute value. *)
Definition numberToString (z : Z) : string :=
  match z with
  | Z0 => "0"
  | Zpos p => NilEmpty.string_of_uint (Pos.to_uint p)
  | Zneg p => String "-"%char (NilEmpty.string_of_uint (Pos.to_uint p))
  end.

End Js.

(** ** Documents ([Document] and [DocumentMetadata] of [dataIngestion.ts])

    The optional fields of the metadata are [option]s, [None] standing for
    [undefined]; [country] is read through the index signature by
    [src/main.ts].  Prices are integral numbers. *)

Record DocumentMetadata := {
  title : option string;
  airline : option string;
  from_city : option string;
  to_city : option string;
  airport_code : option string;
  airport_name : option string;
  price : option Z;
  time_approx : option string;
  date : option string;
  country : option string;
}.

Record Document := {
  pageContent : string;
  metadata : DocumentMetadata;
}.

(** ** Node handlers

    A node handler is a JavaScript function of the state.  Its effects are
    kept as the constructors of a tree: the call of [interrupt], the two
    awaited collaborators (the vector store and the chat model), the lines
    written with [console.log], and a thrown error. *)

Record InterruptPayload := { question : string }.

Inductive JsError :=
| TypeError (message : string).

(** One constructor for each [console.log] of the sources, carrying the
    values interpolated into its template. *)
Inductive LogLine :=
| LogRetrieved (n : nat)                       (* Retrieved n flights from database *)
| LogFoundUnique                               (* Found unique flight! *)
| LogAvailableFlights                          (* Available flights: *)
| LogFlightTitle (i : nat) (m : DocumentMetadata)
| LogFlightRoute (m : DocumentMetadata)
| LogFlightPrice (m : DocumentMetadata)
| LogSelectedNumber (userInput : string)       (* Selected flight #userInput *)
| LogFiltered (n : nat)                        (* Filtered to n flight(s) *)
| LogNoFlightFound                             (* No flight found matching your selection. *)
| LogFinalResult (m : DocumentMetadata)        (* Final result: ... *)
| LogFound (n : nat)                           (* Found n different flights *)
| LogFlightsFound (candidates : list Document) (* Flights found: ... *)
| LogSearching (question : string)             (* SEARCHING USER QUESTION *)
| LogPaused                                    (* APPLICATION PAUSED WAITING FOR USER INPUT... *)
| LogFinal (final : option string).            (* Final result: final *)

Inductive Node (A : Type) : Type :=
| Ret (a : A)
| Interrupt (payload : InterruptPayload) (k : string -> Node A)
| SimilaritySearch (query : option string) (limit : nat) (k : list Document -> Node A)
| LlmInvoke (userInput : string) (docs : list Document) (k : string -> Node A)
| ConsoleLog (line : LogLine) (k : Node A)
| Throw (e : JsError).

Arguments Ret {A} a.
Arguments Interrupt {A} payload k.
Arguments SimilaritySearch {A} query limit k.
Arguments LlmInvoke {A} userInput docs k.
Arguments ConsoleLog {A} line k.
Arguments Throw {A} e.

Fixpoint nodeBind {A B} (f : A -> Node B) (t : Node A) : Node B :=
  match t with
  | Ret a => f a
  | Interrupt p k => Interrupt p (fun v => nodeBind f (k v))
  | SimilaritySearch q n k => SimilaritySearch q n (fun r => nodeBind f (k r))
  | LlmInvoke u d k => LlmInvoke u d (fun r => nodeBind f (k r))
  | ConsoleLog l k => ConsoleLog l (nodeBind f k)
  | Throw e => Throw e
  end.

#[global] Instance node_ret : MRet Node := @Ret.
#[global] Instance node_bind : MBind Node := @nodeBind.

(** [interrupt(payload)] *)
Definition interrupt (payload : InterruptPayload) : Node string :=
  Interrupt payload Ret.
(** [await vectorStore.similaritySearch(query, limit)] *)
Definition similaritySearch (query : option string) (limit : nat) : Node (list Document) :=
  SimilaritySearch query limit Ret.
(** [(await llm.invoke(messages)).content]; the messages are determined by
    the user input and the documents interpolated into the prompt. *)
Definition llmInvoke (userInput : string) (docs : list Document) : Node string :=
  LlmInvoke userInput docs Ret.
(** [console.log(line)] *)
Definition consoleLog (line : LogLine) : Node () :=
  ConsoleLog line (Ret ()).

(** The collaborators behind the two awaited calls.  The chat model is an
    oracle that may answer differently at each call: its reply depends on
    the number of earlier calls as well as on the prompt. *)
Record Collaborators := {
  vectorStore : option string -> nat -> list Document;
  llm : nat -> string -> list Document -> string;
}.

(** What a run has done to the outside: the calls made to the chat model,
    the console, and the nodes whose handler was entered from its
    beginning, in order. *)
Record World := {
  llmCalls : nat;
  console : list LogLine;
  entered : list string;
}.

Definition newWorld : World := {| llmCalls := 0; console := []; entered := [] |}.

Definition enter (node : string) (w : World) : World :=
  {| llmCalls := llmCalls w; console := console w; entered := entered w ++ [node] |}.
Definition logged (l : LogLine) (w : World) : World :=
  {| llmCalls := llmCalls w; console := console w ++ [l]; entered := entered w |}.
Definition loggedAll (ls : list LogLine) (w : World) : World :=
  {| llmCalls := llmCalls w; console := console w ++ ls; entered := entered w |}.
Definition called (w : World) : World :=
  {| llmCalls := S (llmCalls w); console := console w; entered := entered w |}.

Inductive NodeRun (A : Type) : Type :=
| Finished (update : A) (w : World)
| Paused (payload : InterruptPayload) (k : string -> Node A) (w : World)
| Crashed (e : JsError) (w : World).

Arguments Finished {A} update w.
Arguments Paused {A} payload k w.
Arguments Crashed {A} e w.

(** Running a handler.  [answers] are values handed to [interrupt] without
    pausing (none in the engine proper: a node then pauses at its first
    [interrupt]); what is left of them is returned. *)
Fixpoint runNode {A} (env : Collaborators) (t : Node A) (answers : list string)
    (w : World) : NodeRun A * list string :=
  match t with
  | Ret a => (Finished a w, answers)
  | Interrupt p k =>
      match answers with
      | v :: rest => runNode env (k v) rest w
      | [] => (Paused p k w, [])
      end
  | SimilaritySearch q n k => runNode env (k (vectorStore env q n)) answers w
  | LlmInvoke u d k => runNode env (k (llm env (llmCalls w) u d)) answers (called w)
  | ConsoleLog l k => runNode env k answers (logged l w)
  | Throw e => (Crashed e w, answers)
  end.

(** ** The graph engine

    The sources build their graphs with [StateGraph], compile them with a
    [MemorySaver] checkpointer and drive them with [invoke] and [Command];
    none of these is defined in the repository.  The engine below follows
    the specification (sections 3, 4 and 6). *)

Module Engine.

(** Modelled from the spec: the start marker of a graph (section 3), under
    the name the sources wire it with. *)
Definition START : string := "__start__".

(** Modelled from the spec: the end marker of a graph (section 3), under
    the name the sources wire it with. *)
Definition END : string := "__end__".

(** Modelled from the spec: lookup by identifier in the adjacency
    structure of a graph (section 9); the first entry of a key counts. *)
Fixpoint assoc {V} (key : string) (l : list (string * V)) : option V :=
  match l with
  | [] => None
  | (k, v) :: rest => if String.eqb k key then Some v else assoc key rest
  end.

(** Modelled from the spec: the channels of a state (section 4.3).
    [merge old update] replaces the channels present in [update], the
    reducer of every channel declared with [Annotation<T>()] being
    overwrite; a partial update is a state whose other channels are absent.
    [emptyState] has no channel set. *)
Class Channels (State : Type) := {
  merge : State -> State -> State;
  emptyState : State;
}.

(** Modelled from the spec: the graph model (section 3): the handlers
    registered with [addNode], the edges of [addEdge], and for
    [addConditionalEdges] the routing function with its mapping from
    labels to destinations. *)
Record StateGraph (State : Type) := {
  nodes : list (string * (State -> Node State));
  edges : list (string * string);
  conditionalEdges : list (string * ((State -> string) * list (string * string)));
}.
Arguments nodes {State} _.
Arguments edges {State} _.
Arguments conditionalEdges {State} _.

(** Modelled from the spec: [new StateGraph(...)] of the sources, the graph
    model with nothing in it. *)
Definition newStateGraph {State} : StateGraph State :=
  {| nodes := []; edges := []; conditionalEdges := [] |}.

(** Modelled from the spec: [addNode] of the sources adds a node and its
    handler to the graph model. *)
Definition addNode {State} (name : string) (handler : State -> Node State)
    (g : StateGraph State) : StateGraph State :=
  {| nodes := nodes g ++ [(name, handler)]; edges := edges g;
     conditionalEdges := conditionalEdges g |}.

(** Modelled from the spec: [addEdge] of the sources adds an edge to the
    graph model. *)
Definition addEdge {State} (source target : string)
    (g : StateGraph State) : StateGraph State :=
  {| nodes := nodes g; edges := edges g ++ [(source, target)];
     conditionalEdges := conditionalEdges g |}.

(** Modelled from the spec: [addConditionalEdges] of the sources adds a
    conditional edge set to the graph model. *)
Definition addConditionalEdges {State} (source : string) (router : State -> string)
    (mapping : list (string * string)) (g : StateGraph State) : StateGraph State :=
  {| nodes := nodes g; edges := edges g;
     conditionalEdges := conditionalEdges g ++ [(source, (router, mapping))] |}.

(** Modelled from the spec: build-time validation (section 4.1).  A graph
    is rejected when a node id is duplicated, an edge names an unknown
    node, the mapping of a conditional edge misses a label its routing
    function can return, or the start or the end marker is not wired. *)
Record valid {State} (g : StateGraph State) : Prop := {
  valid_ids : NoDup (nodes g).*1;
  valid_edges : ∀ s d, (s, d) ∈ edges g →
    (s = START ∨ s ∈ (nodes g).*1) ∧ (d = END ∨ d ∈ (nodes g).*1);
  valid_targets : ∀ s r m l d, (s, (r, m)) ∈ conditionalEdges g → (l, d) ∈ m →
    s ∈ (nodes g).*1 ∧ (d = END ∨ d ∈ (nodes g).*1);
  valid_labels : ∀ s r m st, (s, (r, m)) ∈ conditionalEdges g →
    is_Some (assoc (r st) m);
  valid_start : is_Some (assoc START (edges g));
  valid_end : END ∈ (edges g).*2 ∨
    ∃ s r m l, (s, (r, m)) ∈ conditionalEdges g ∧ (l, END) ∈ m;
}.

(** Modelled from the spec: the checkpoint of a session (section 3): the
    state snapshot, the cursor and the pending interrupt.  The pending
    interrupt holds the payload and the resume slot, the rest of the
    interrupted handler to which the resume value is delivered. *)
Record Checkpoint (State : Type) := {
  state : State;
  cursor : string;
  pending : option (InterruptPayload * (string -> Node State));
}.
Arguments state {State} _.
Arguments cursor {State} _.
Arguments pending {State} _.

(** Modelled from the spec: the errors of the engine (section 7). *)
Inductive EngineError :=
| GraphDefinitionError
| NoPendingInterruptError
| ResumeRequiredError
| NodeExecutionError (e : JsError).

(** Modelled from the spec: the outcome of a call (section 4.2), or the
    error it is rejected with (section 7). *)
Inductive Outcome (State : Type) :=
| Completed (finalState : State)
| Suspended (payload : InterruptPayload)
| Failed (e : EngineError).
Arguments Completed {State} finalState.
Arguments Suspended {State} payload.
Arguments Failed {State} e.

(** Modelled from the spec: a resume command (section 3). *)
Record Command := { sessionId : string; value : string }.

(** Modelled from the spec: what a call leaves: its outcome, the
    checkpoint store (section 4.4) and the world. *)
Record Result (State : Type) := {
  outcome : Outcome State;
  checkpoints : gmap string (Checkpoint State);
  world : World;
}.
Arguments outcome {State} _.
Arguments checkpoints {State} _.
Arguments world {State} _.

Section Run.
Context {State : Type} `{!Channels State}.
Context (env : Collaborators) (g : StateGraph State).

(** Modelled from the spec: the successor of a node (section 4.2, step
    3): through the routing function and its mapping, evaluated on the
    merged state, when the node has conditional edges, along its edge
    otherwise. *)
Definition nextCursor (node : string) (s : State) : option string :=
  match assoc node (conditionalEdges g) with
  | Some (router, mapping) => assoc (router s) mapping
  | None => assoc node (edges g)
  end.

(** Modelled from the spec: the tree a superstep runs at cursor [c] and the
    world it runs in: the resume slot of a resumed call, or the handler of
    [c] entered from its beginning (section 4.5: a resumed node is not
    executed again from its beginning). *)
Definition treeAt (slot : option (Node State)) (s : State) (c : string) (w : World)
    : option (Node State * World) :=
  match slot with
  | Some t => Some (t, w)
  | None => (fun h => (h s, enter c w)) <$> assoc c (nodes g)
  end.

(** Modelled from the spec: what one superstep leaves: the next
    configuration, or the result of the call. *)
Inductive Step :=
| Continue (s : State) (c : string) (answers : list string)
    (store : gmap string (Checkpoint State)) (w : World)
| Stop (r : Result State).

(** Modelled from the spec: one superstep (section 4.2, steps 3 to 6) for
    session [sid], with the cursor at [c] and the running state [s].  A
    checkpoint is written after a node that completed, and at an interrupt;
    a failing node writes none. *)
Definition superstep (sid : string) (slot : option (Node State))
    (s : State) (c : string) (answers : list string)
    (store : gmap string (Checkpoint State)) (w : World) : Step :=
  if String.eqb c END then
    Stop {| outcome := Completed s;
            checkpoints := <[sid := {| state := s; cursor := END; pending := None |}]> store;
            world := w |}
  else
    match treeAt slot s c w with
    | None =>
        Stop {| outcome := Failed GraphDefinitionError; checkpoints := store; world := w |}
    | Some (t, w1) =>
        match runNode env t answers w1 with
        | (Finished update w2, answers') =>
            let s' := merge s update in
            match nextCursor c s' with
            | None =>
                Stop {| outcome := Failed GraphDefinitionError;
                        checkpoints := store; world := w2 |}
            | Some c' =>
                Continue s' c' answers'
                  (<[sid := {| state := s'; cursor := c'; pending := None |}]> store) w2
            end
        | (Paused p k w2, _) =>
            Stop {| outcome := Suspended p;
                    checkpoints :=
                      <[sid := {| state := s; cursor := c; pending := Some (p, k) |}]> store;
                    world := w2 |}
        | (Crashed e w2, _) =>
            Stop {| outcome := Failed (NodeExecutionError e);
                    checkpoints := store; world := w2 |}
        end
    end.

(** Modelled from the spec: the superstep loop (section 4.2).  The spec
    sets no step limit: [fuel] bounds the supersteps, and [None] is a loop
    that has not ended within it. *)
Fixpoint run (fuel : nat) (sid : string) (slot : option (Node State))
    (s : State) (c : string) (answers : list string)
    (store : gmap string (Checkpoint State)) (w : World)
    : option (Result State) :=
  match fuel with
  | O => None
  | S fuel' =>
      match superstep sid slot s c answers store w with
      | Stop r => Some r
      | Continue s' c' answers' store' w' => run fuel' sid None s' c' answers' store' w'
      end
  end.

(** Modelled from the spec: a rejected call mutates nothing (section 7). *)
Definition reject (e : EngineError)
    (store : gmap string (Checkpoint State)) (w : World) : option (Result State) :=
  Some {| outcome := Failed e; checkpoints := store; world := w |}.

(** Modelled from the spec: [invoke(initialInput, sessionId)] (sections
    4.2 and 6).  Without a checkpoint the state is initialised from the
    input and the cursor is the successor of the start marker; with a
    pending interrupt the call is rejected; otherwise the session
    continues from its checkpoint. *)
Definition invoke (fuel : nat) (input : State) (sid : string)
    (store : gmap string (Checkpoint State)) (w : World) : option (Result State) :=
  match store !! sid with
  | None =>
      match assoc START (edges g) with
      | Some c => run fuel sid None (merge emptyState input) c [] store w
      | None => reject GraphDefinitionError store w
      end
  | Some ck =>
      match pending ck with
      | Some _ => reject ResumeRequiredError store w
      | None => run fuel sid None (state ck) (cursor ck) [] store w
      end
  end.

(** Modelled from the spec: [resume(command)] (sections 4.5 and 6): the
    value is delivered to the resume slot of the pending interrupt. *)
Definition resume (fuel : nat) (cmd : Command)
    (store : gmap string (Checkpoint State)) (w : World) : option (Result State) :=
  match store !! sessionId cmd with
  | Some ck =>
      match pending ck with
      | Some (_, k) =>
          run fuel (sessionId cmd) (Some (k (value cmd))) (state ck) (cursor ck) [] store w
      | None => reject NoPendingInterruptError store w
      end
  | None => reject NoPendingInterruptError store w
  end.

End Run.

End Engine.

Notation "g |> f" := (f g) (at level 45, left associativity, only parsing).

(** [old] overwritten by [new] when [new] is present. *)
Definition overwrite {A} (old new : option A) : option A :=
  match new with
  | Some v => Some v
  | None => old
  end.

(** The value of a channel, whatever its type. *)
Inductive Value :=
| VString (s : string)
| VStrings (l : list string)
| VDocuments (l : list Document)
| VDocument (d : Document).

(** ** [src/main.ts]: the circular workflow *)

Module Cyclic.
Import Engine.

(** [SupportState]: every channel is declared with [Annotation<T>()]. *)
Record SupportState := {
  input : option string;
  filteredFlights : option (list Document);
  options : option (list string);
  selectedCountry : option string;
  selectedCity : option string;
  selectedAirport : option string;
  userChoice : option string;
}.

(** The object literals [{}], [{ input }], [{ filteredFlights }] and
    [{ userChoice }]. *)
Definition obj : SupportState :=
  {| input := None; filteredFlights := None; options := None;
     selectedCountry := None; selectedCity := None; selectedAirport := None;
     userChoice := None |}.
Definition obj_input (v : string) : SupportState :=
  {| input := Some v; filteredFlights := None; options := None;
     selectedCountry := None; selectedCity := None; selectedAirport := None;
     userChoice := None |}.
Definition obj_filteredFlights (v : list Document) : SupportState :=
  {| input := None; filteredFlights := Some v; options := None;
     selectedCountry := None; selectedCity := None; selectedAirport := None;
     userChoice := None |}.
Definition obj_userChoice (v : string) : SupportState :=
  {| input := None; filteredFlights := None; options := None;
     selectedCountry := None; selectedCity := None; selectedAirport := None;
     userChoice := Some v |}.

#[global] Instance channels : Channels SupportState := {|
  merge old new :=
    {| input := overwrite (input old) (input new);
       filteredFlights := overwrite (filteredFlights old) (filteredFlights new);
       options := overwrite (options old) (options new);
       selectedCountry := overwrite (selectedCountry old) (selectedCountry new);
       selectedCity := overwrite (selectedCity old) (selectedCity new);
       selectedAirport := overwrite (selectedAirport old) (selectedAirport new);
       userChoice := overwrite (userChoice old) (userChoice new) |};
  emptyState := obj;
|}.

(** Node 1: [initialize]. *)
Definition initialize (state : SupportState) : Node SupportState :=
  results ← similaritySearch (input state) 10;
  let filteredFlights := (fun d : Document => d) <$> results in
  consoleLog (LogRetrieved (length filteredFlights));;
  mret (obj_filteredFlights filteredFlights).

(** The [for] loop of [showFlights], from index [i] on. *)
Fixpoint showFlightsLoop (i : nat) (flights : list Document) : Node () :=
  match flights with
  | [] => mret ()
  | flight :: rest =>
      let m := metadata flight in
      consoleLog (LogFlightTitle (i + 1)%nat m);;
      consoleLog (LogFlightRoute m);;
      consoleLog (LogFlightPrice m);;
      showFlightsLoop (S i) rest
  end.

(** Node 2: [showFlights]. *)
Definition showFlights (state : SupportState) : Node SupportState :=
  let flights := default [] (filteredFlights state) in
  if decide (length flights = 1%nat) then
    consoleLog LogFoundUnique;;
    mret (obj_filteredFlights flights)
  else
    consoleLog LogAvailableFlights;;
    showFlightsLoop 0 flights;;
    mret (obj_filteredFlights flights).

(** The [question] of [requestChoice]. *)
Definition refineQuestion : string :=
  "Refine your search (e.g., 'I want flights to Japan', 'Show me the cheapest', or select by number):".

(** Node 3: [requestChoice]. *)
Definition requestChoice (state : SupportState) : Node SupportState :=
  let question := refineQuestion in
  userChoice ← interrupt {| question := question |};
  mret (obj_userChoice userChoice).

(** The indices read from the reply of the chat model:
    [content.trim().split(",").map(n => Number.parseInt(n.trim(), 10) - 1)
     .filter(i => i >= 0 && i < flights.length)]. *)
Definition selectedNumbers (content : string) (flights : list Document) : list Js.Number :=
  base.filter (fun i => Is_true (Js.inRange (length flights) i))
    ((fun n => Js.pred (Js.parseInt (Js.trim n) (Some 10)))
       <$> Js.split ","%char (Js.trim content)).

(** Node 4: [disambiguateSelection].  [viaLlm] is the code after the
    test of a selection by number, reached when that test does not return. *)
Definition disambiguateSelection (state : SupportState) : Node SupportState :=
  let flights := default [] (filteredFlights state) in
  let userInput := Js.orElse (userChoice state) "" in
  let viaLlm :=
    content ← llmInvoke userInput flights;
    let filteredFlights := omap (Js.index flights) (selectedNumbers content flights) in
    consoleLog (LogFiltered (length filteredFlights));;
    mret (obj_filteredFlights filteredFlights) in
  if Js.numberRegex userInput then
    let selectedIndex := Js.pred (Js.parseInt userInput (Some 10)) in
    if Js.inRange (length flights) selectedIndex then
      consoleLog (LogSelectedNumber userInput);;
      mret (obj_filteredFlights (option_list (Js.index flights selectedIndex)))
    else viaLlm
  else viaLlm.

(** Node 5: [showFinalFlight]. *)
Definition showFinalFlight (state : SupportState) : Node SupportState :=
  let flights := default [] (filteredFlights state) in
  match flights !! 0%nat with
  | None =>
      consoleLog LogNoFlightFound;;
      mret obj
  | Some flight =>
      let m := metadata flight in
      consoleLog (LogFinalResult m);;
      mret obj
  end.

(** The routing function of the conditional edges of [showFlights]. *)
Definition showFlightsRouter (state : SupportState) : string :=
  let flights := default [] (filteredFlights state) in
  if decide (length flights = 1%nat) then "final" else "continue".

Definition showFlightsMapping : list (string * string) :=
  [("final", "showFinalFlight"); ("continue", "requestChoice")].

Definition workflow : StateGraph SupportState :=
  newStateGraph
  |> addNode "initialize" initialize
  |> addNode "showFlights" showFlights
  |> addNode "requestChoice" requestChoice
  |> addNode "disambiguateSelection" disambiguateSelection
  |> addNode "showFinalFlight" showFinalFlight
  |> addEdge "__start__" "initialize"
  |> addEdge "initialize" "showFlights"
  |> addConditionalEdges "showFlights" showFlightsRouter showFlightsMapping
  |> addEdge "requestChoice" "disambiguateSelection"
  |> addEdge "disambiguateSelection" "showFlights"
  |> addEdge "showFinalFlight" "__end__".

Definition thread_id : string := "hitl-circular-thread".
Definition userQuestion : string := "Flights to Asia".

(** The [while] loop of [main]: as long as the last call was interrupted,
    read a line from the operator ([getUserInput] trims it) and resume.
    [stdin] holds the lines the operator types: when they are used up the
    program waits at the prompt, in the interrupted state that is returned.
    [resumes] counts the resume calls made so far. *)
Fixpoint mainLoop (env : Collaborators) (fuel : nat) (stdin : list string)
    (resumes : nat) (currentState : Result SupportState)
    : option (Result SupportState * nat) :=
  match outcome currentState with
  | Suspended _ =>
      match stdin with
      | [] => Some (currentState, resumes)
      | line :: rest =>
          let userChoice := Js.trim line in
          r ← resume env workflow fuel
                {| sessionId := thread_id; value := userChoice |}
                (checkpoints currentState) (logged LogPaused (world currentState));
          mainLoop env fuel rest (S resumes) r
      end
  | _ => Some (currentState, resumes)
  end.

(** [main], after the ingestion and the drawing of the graph. *)
Definition main (env : Collaborators) (fuel : nat) (stdin : list string)
    : option (Result SupportState * nat) :=
  r ← invoke env workflow fuel (obj_input userQuestion) thread_id ∅
        (logged (LogSearching userQuestion) newWorld);
  mainLoop env fuel stdin 0%nat r.

(** The channels of [SupportState], by name. *)
Inductive Channel :=
| Input | FilteredFlights | Options | SelectedCountry | SelectedCity
| SelectedAirport | UserChoice.

Definition channel (ch : Channel) (s : SupportState) : option Value :=
  match ch with
  | Input => VString <$> input s
  | FilteredFlights => VDocuments <$> filteredFlights s
  | Options => VStrings <$> options s
  | SelectedCountry => VString <$> selectedCountry s
  | SelectedCity => VString <$> selectedCity s
  | SelectedAirport => VString <$> selectedAirport s
  | UserChoice => VString <$> userChoice s
  end.

(** The lines [showFlightsLoop] writes. *)
Fixpoint flightLines (i : nat) (flights : list Document) : list LogLine :=
  match flights with
  | [] => []
  | flight :: rest =>
      let m := metadata flight in
      LogFlightTitle (i + 1)%nat m :: LogFlightRoute m :: LogFlightPrice m
        :: flightLines (S i) rest
  end.

(** The lines [showFlights] writes. *)
Definition showFlightsLines (flights : list Document) : list LogLine :=
  if decide (length flights = 1%nat) then [LogFoundUnique]
  else LogAvailableFlights :: flightLines 0 flights.

(** [disambiguateSelection] in direct style: the flights it leaves in
    [filteredFlights] and the world after it. *)
Definition selection (env : Collaborators) (state : SupportState) (w : World)
    : list Document * World :=
  let flights := default [] (filteredFlights state) in
  let userInput := Js.orElse (userChoice state) "" in
  let selectedIndex := Js.pred (Js.parseInt userInput (Some 10)) in
  if Js.numberRegex userInput && Js.inRange (length flights) selectedIndex then
    (option_list (Js.index flights selectedIndex),
     logged (LogSelectedNumber userInput) w)
  else
    let content := llm env (llmCalls w) userInput flights in
    let filteredFlights := omap (Js.index flights) (selectedNumbers content flights) in
    (filteredFlights, logged (LogFiltered (length filteredFlights)) (called w)).

(** The configurations (running state and cursor) a session of the
    workflow can be in: the one a call starts a new session with, and those
    a superstep leads to, whatever the session, the store, the console and
    the resume value delivered. *)
Inductive reachable (env : Collaborators) : SupportState -> string -> Prop :=
| reachable_start input c :
    assoc START (edges workflow) = Some c ->
    reachable env (merge emptyState input) c
| reachable_step sid slot s c answers store w s' c' answers' store' w' :
    reachable env s c ->
    superstep env workflow sid slot s c answers store w
      = Continue s' c' answers' store' w' ->
    reachable env s' c'.

End Cyclic.

(** ** Template literals of the linear workflows *)

Definition nl : string := String (ascii_of_nat 10) EmptyString.

(** [${x}] for an optional string and for an optional number. *)
Definition interpolate (x : option string) : string := default "undefined" x.
Definition interpolateNumber (x : option Z) : string :=
  default "undefined" (Js.numberToString <$> x).

(** [from_city?.slice(0, 3).toUpperCase() || "N/A"] *)
Definition cityCode (from_city : option string) : string :=
  Js.orElse ((fun c => Js.toUpperCase (Js.slice0 3 c)) <$> from_city) "N/A".

(** The template of the final answer; [indent] is the indentation of its
    continuation lines in the source file. *)
Definition flightDetails (indent : string) (metadata : DocumentMetadata) : string :=
  "Selected flight: " +:+ interpolate (title metadata) +:+ " - "
    +:+ interpolate (airline metadata) +:+ nl
  +:+ indent +:+ "From: " +:+ interpolate (from_city metadata)
    +:+ " (" +:+ cityCode (from_city metadata) +:+ ")" +:+ nl
  +:+ indent +:+ "To: " +:+ interpolate (to_city metadata)
    +:+ " (" +:+ interpolate (airport_code metadata) +:+ ")" +:+ nl
  +:+ indent +:+ "Airport: " +:+ interpolate (airport_name metadata) +:+ nl
  +:+ indent +:+ "Price: $" +:+ interpolateNumber (price metadata) +:+ nl
  +:+ indent +:+ "Duration: " +:+ interpolate (time_approx metadata) +:+ nl
  +:+ indent +:+ "Date: " +:+ interpolate (date metadata).

(** ** [src/unnamed/part_000]: the linear workflow in TypeScript *)

Module Linear.
Import Engine.

(** [SupportStateType] *)
Record SupportState := {
  input : option string;
  candidates : option (list Document);
  userChoice : option string;
  selected : option Document;
  final : option string;
}.

(** The object literals [{}], [{ input }], [{ candidates }],
    [{ userChoice }] and [{ selected, final }]. *)
Definition obj : SupportState :=
  {| input := None; candidates := None; userChoice := None;
     selected := None; final := None |}.
Definition obj_input (v : string) : SupportState :=
  {| input := Some v; candidates := None; userChoice := None;
     selected := None; final := None |}.
Definition obj_candidates (v : list Document) : SupportState :=
  {| input := None; candidates := Some v; userChoice := None;
     selected := None; final := None |}.
Definition obj_userChoice (v : string) : SupportState :=
  {| input := None; candidates := None; userChoice := Some v;
     selected := None; final := None |}.
Definition obj_selected_final (d : Document) (f : string) : SupportState :=
  {| input := None; candidates := None; userChoice := None;
     selected := Some d; final := Some f |}.

#[global] Instance channels : Channels SupportState := {|
  merge old new :=
    {| input := overwrite (input old) (input new);
       candidates := overwrite (candidates old) (candidates new);
       userChoice := overwrite (userChoice old) (userChoice new);
       selected := overwrite (selected old) (selected new);
       final := overwrite (final old) (final new) |};
  emptyState := obj;
|}.

(** The [for ... of] loop of [retrieveFlights]: push, then break once two
    candidates are held. *)
Fixpoint retrieveLoop (results candidates : list Document) : list Document :=
  match results with
  | [] => candidates
  | d :: rest =>
      let candidates := candidates ++ [d] in
      if (2 <=? length candidates)%nat then candidates
      else retrieveLoop rest candidates
  end.

(** Node 1: [retrieveFlights]. *)
Definition retrieveFlights (state : SupportState) : Node SupportState :=
  results ← similaritySearch (input state) 5;
  let candidates := retrieveLoop results [] in
  consoleLog (LogFound (length candidates));;
  mret (obj_candidates candidates).

(** [formatFlightDetails] *)
Definition formatFlightDetails (metadata : DocumentMetadata) : string :=
  flightDetails "    " metadata.

Definition undefinedMetadata : JsError :=
  TypeError "Cannot read properties of undefined (reading 'metadata')".

(** Node 2: [evaluateResults].  Reading [.metadata] of [candidates[0]]
    throws when that element is [undefined]. *)
Definition evaluateResults (state : SupportState) : Node SupportState :=
  let candidates := default [] (candidates state) in
  if decide (length candidates = 1%nat) then
    match candidates !! 0%nat with
    | Some first =>
        let metadata := metadata first in
        mret (obj_selected_final first (formatFlightDetails metadata))
    | None => Throw undefinedMetadata
    end
  else mret (obj_candidates candidates).

(** Node 3: [showResults]; it returns the state it was given. *)
Definition showResults (state : SupportState) : Node SupportState :=
  let candidates := default [] (candidates state) in
  consoleLog (LogFlightsFound candidates);;
  mret state.

(** Node 4: [requestUserChoice]. *)
Definition requestUserChoice (_ : SupportState) : Node SupportState :=
  userChoice ← interrupt {| question := "Which flight do you prefer?:" |};
  mret (obj_userChoice userChoice).

(** The flight picked from the reply of the chat model, [undefined] when
    the fallback [candidates[0]] does not exist. *)
Definition selectedFlight (selectedNumber : Js.Number) (candidates : list Document)
    : option Document :=
  if Js.inRange (length candidates) selectedNumber
  then Js.index candidates selectedNumber
  else candidates !! 0%nat.

(** Node 5: [disambiguateAndAnswer]. *)
Definition disambiguateAndAnswer (state : SupportState) : Node SupportState :=
  let candidates := default [] (candidates state) in
  let userInput := Js.orElse (userChoice state) "" in
  content ← llmInvoke userInput candidates;
  let selectedNumber := Js.pred (Js.parseInt content (Some 10)) in
  match selectedFlight selectedNumber candidates with
  | Some flight =>
      let metadata := metadata flight in
      mret (obj_selected_final flight (formatFlightDetails metadata))
  | None => Throw undefinedMetadata
  end.

(** The routing function of the conditional edges of [evaluateResults]. *)
Definition evaluateResultsRouter (state : SupportState) : string :=
  if Js.truthy (final state) then "complete" else "multiple".

Definition evaluateResultsMapping : list (string * string) :=
  [("complete", "__end__"); ("multiple", "showResults")].

Definition workflow : StateGraph SupportState :=
  newStateGraph
  |> addNode "retrieveFlights" retrieveFlights
  |> addNode "evaluateResults" evaluateResults
  |> addNode "showResults" showResults
  |> addNode "requestUserChoice" requestUserChoice
  |> addNode "disambiguateAndAnswer" disambiguateAndAnswer
  |> addEdge "__start__" "retrieveFlights"
  |> addEdge "retrieveFlights" "evaluateResults"
  |> addConditionalEdges "evaluateResults" evaluateResultsRouter evaluateResultsMapping
  |> addEdge "showResults" "requestUserChoice"
  |> addEdge "requestUserChoice" "disambiguateAndAnswer"
  |> addEdge "disambiguateAndAnswer" "__end__".

Definition thread_id : string := "hitl-thread".
Definition userQuestion : string := "Flights to Tokyo".

(** [currentState.final] of the value a call returned: the state values
    of the session. *)
Definition currentFinal (r : Result SupportState) : option string :=
  match outcome r with
  | Completed s => final s
  | _ => ck ← checkpoints r !! thread_id; final (state ck)
  end.

(** The last statement of [main]: the final result is written, unless the
    call threw. *)
Definition printFinal (r : Result SupportState) : Result SupportState :=
  match outcome r with
  | Failed _ => r
  | _ =>
      {| outcome := outcome r; checkpoints := checkpoints r;
         world := logged (LogFinal (currentFinal r)) (world r) |}
  end.

(** The calls of [main] on a compiled graph, after the ingestion and the
    drawing of the graph: one call, one resume when the call was
    interrupted, and the final result.  [stdin] holds the lines the
    operator types: without one the program waits at the prompt, in the
    interrupted state that is returned. *)
Definition mainOn (app : StateGraph SupportState) (env : Collaborators) (fuel : nat)
    (stdin : list string) : option (Result SupportState) :=
  r ← invoke env app fuel (obj_input userQuestion) thread_id ∅
        (logged (LogSearching userQuestion) newWorld);
  match outcome r with
  | Suspended _ =>
      match stdin with
      | [] => Some r
      | line :: _ =>
          let userChoice := Js.trim line in
          printFinal <$>
            resume env app fuel {| sessionId := thread_id; value := userChoice |}
              (checkpoints r) (logged LogPaused (world r))
      end
  | _ => Some (printFinal r)
  end.

(** [main] *)
Definition main : Collaborators -> nat -> list string -> option (Result SupportState) :=
  mainOn workflow.

(** The channels of [SupportStateType], by name. *)
Inductive Channel :=
| Input | Candidates | UserChoice | Selected | Final.

Definition channel (ch : Channel) (s : SupportState) : option Value :=
  match ch with
  | Input => VString <$> input s
  | Candidates => VDocuments <$> candidates s
  | UserChoice => VString <$> userChoice s
  | Selected => VDocument <$> selected s
  | Final => VString <$> final s
  end.

End Linear.

(** ** [src/main.js]: the linear workflow in JavaScript

    The state, [retrieveFlights], [showResults], [requestUserChoice], the
    routing function and the wiring are statement for statement those of
    [Linear].  The final answer is an inline template in both nodes that
    build it, and [parseInt] is called on the trimmed reply without a
    radix. *)

Module MainJs.
Import Engine.

Definition SupportState : Type := Linear.SupportState.

Definition retrieveFlights : SupportState -> Node SupportState := Linear.retrieveFlights.
Definition showResults : SupportState -> Node SupportState := Linear.showResults.
Definition requestUserChoice : SupportState -> Node SupportState := Linear.requestUserChoice.

Definition evaluateResults (state : SupportState) : Node SupportState :=
  let candidates := default [] (Linear.candidates state) in
  if decide (length candidates = 1%nat) then
    match candidates !! 0%nat with
    | Some first =>
        let metadata := metadata first in
        mret (Linear.obj_selected_final first (flightDetails "      " metadata))
    | None => Throw Linear.undefinedMetadata
    end
  else mret (Linear.obj_candidates candidates).

Definition disambiguateAndAnswer (state : SupportState) : Node SupportState :=
  let candidates := default [] (Linear.candidates state) in
  let userInput := Js.orElse (Linear.userChoice state) "" in
  content ← llmInvoke userInput candidates;
  let selectedNumber := Js.pred (Js.parseInt (Js.trim content) None) in
  match Linear.selectedFlight selectedNumber candidates with
  | Some flight =>
      let metadata := metadata flight in
      mret (Linear.obj_selected_final flight (flightDetails "    " metadata))
  | None => Throw Linear.undefinedMetadata
  end.

Definition workflow : StateGraph SupportState :=
  newStateGraph
  |> addNode "retrieveFlights" retrieveFlights
  |> addNode "evaluateResults" evaluateResults
  |> addNode "showResults" showResults
  |> addNode "requestUserChoice" requestUserChoice
  |> addNode "disambiguateAndAnswer" disambiguateAndAnswer
  |> addEdge "__start__" "retrieveFlights"
  |> addEdge "retrieveFlights" "evaluateResults"
  |> addConditionalEdges "evaluateResults" Linear.evaluateResultsRouter
       Linear.evaluateResultsMapping
  |> addEdge "showResults" "requestUserChoice"
  |> addEdge "requestUserChoice" "disambiguateAndAnswer"
  |> addEdge "disambiguateAndAnswer" "__end__".

(** The statements at the end of the script, those of [main] in
    [src/unnamed/part_000]. *)
Definition script : Collaborators -> nat -> list string -> option (Result SupportState) :=
  Linear.mainOn workflow.

End MainJs.

(** ** The session of [src/workflow-result.md]

    The ten flights retrieved for "Flights to Asia", the three lines the
    operator typed, and replies of the chat model that filter as the
    recorded session did: to five flights, to two, to one.  (The arrow and
    the accented letter of the recorded titles are written in ASCII.) *)

Module Scenario.

Definition flight (t a c k n : string) (code : string) (p : Z) (dur day : string)
    : Document :=
  {| pageContent := t;
     metadata := {| title := Some t; airline := Some a;
                    from_city := Some "Medellin"; to_city := Some c;
                    airport_code := Some code; airport_name := Some n;
                    price := Some p; time_approx := Some dur; date := Some day;
                    country := Some k |} |}.

Definition flights : list Document :=
  [ flight "MDE -> KIX (AndeanSky)" "AndeanSky" "Osaka" "Japan"
      "Kansai International" "KIX" 1350 "24h 15m" "2025-11-08";
    flight "MDE -> SIN (CoffeeAir)" "CoffeeAir" "Singapore" "Singapore"
      "Changi Airport" "SIN" 1520 "27h 45m" "2025-11-25";
    flight "MDE -> PVG (AndeanSky)" "AndeanSky" "Shanghai" "China"
      "Pudong International" "PVG" 1450 "25h 50m" "2025-11-28";
    flight "MDE -> UKY (CoffeeAir)" "CoffeeAir" "Kyoto" "Japan"
      "Kyoto Airport" "UKY" 1320 "23h 45m" "2025-11-12";
    flight "MDE -> BKK (CondorJet)" "CondorJet" "Bangkok" "Thailand"
      "Suvarnabhumi" "BKK" 1480 "26h 30m" "2025-11-22";
    flight "MDE -> CTS (CondorJet)" "CondorJet" "Sapporo" "Japan"
      "New Chitose Airport" "CTS" 1450 "26h 10m" "2025-11-20";
    flight "MDE -> NRT (CaribeWings)" "CaribeWings" "Tokyo" "Japan"
      "Narita" "NRT" 1215 "23h 30m" "2025-11-05";
    flight "MDE -> ICN (CoffeeAir)" "CoffeeAir" "Seoul" "South Korea"
      "Incheon International" "ICN" 1380 "24h 40m" "2025-11-18";
    flight "MDE -> BOM (CoffeeAir)" "CoffeeAir" "Mumbai" "India"
      "Chhatrapati Shivaji Maharaj International" "BOM" 1550 "28h 20m" "2025-12-05";
    flight "MDE -> HND (CondorJet)" "CondorJet" "Tokyo" "Japan"
      "Haneda" "HND" 1290 "22h 10m" "2025-11-05" ].

Definition haneda : Document :=
  flight "MDE -> HND (CondorJet)" "CondorJet" "Tokyo" "Japan"
    "Haneda" "HND" 1290 "22h 10m" "2025-11-05".

Definition replies (call : nat) : string :=
  match call with
  | 0%nat => "1,4,6,7,10"
  | 1%nat => "4, 5"
  | _ => "2"
  end.

Definition env : Collaborators :=
  {| vectorStore := fun _ limit => take limit flights;
     llm := fun call _ _ => replies call |}.

Definition lines : list string :=
  [ "I'm looking for flights to Japan";
    "Show me only the Tokyo options";
    "I'll take the Haneda flight" ].

(** The state of the recorded session once the flights are retrieved. *)
Definition retrieved : Cyclic.SupportState :=
  {| Cyclic.input := Some Cyclic.userQuestion;
     Cyclic.filteredFlights := Some flights;
     Cyclic.options := None; Cyclic.selectedCountry := None;
     Cyclic.selectedCity := None; Cyclic.selectedAirport := None;
     Cyclic.userChoice := None |}.

(** Its checkpoint at the first pause. *)
Definition asked : Engine.Checkpoint Cyclic.SupportState :=
  {| Engine.state := retrieved; Engine.cursor := "requestChoice";
     Engine.pending :=
       Some ({| question := Cyclic.refineQuestion |},
             fun v => Ret (Cyclic.obj_userChoice v)) |}.

(** The state of a session for which the Haneda flight alone was
    retrieved. *)
Definition found : Cyclic.SupportState :=
  {| Cyclic.input := Some Cyclic.userQuestion;
     Cyclic.filteredFlights := Some [haneda];
     Cyclic.options := None; Cyclic.selectedCountry := None;
     Cyclic.selectedCity := None; Cyclic.selectedAirport := None;
     Cyclic.userChoice := None |}.

(** A vector store that holds the Haneda flight only. *)
Definition single : Collaborators :=
  {| vectorStore := fun _ _ => [haneda];
     llm := fun call _ _ => replies call |}.

(** The numbers of flights the console reports, in order. *)
Definition counts (console : list LogLine) : list nat :=
  omap (fun l => match l with
                 | LogRetrieved n => Some n
                 | LogFiltered n => Some n
                 | _ => None
                 end) console.

End Scenario.

(** ** [dataIngestion.ts] (the second file of [src/unnamed/part_000]) and the
    ingestion of [src/main.js]

    The Elasticsearch client and the file system are collaborators.  A
    call to the cluster is a function of the cluster that may be rejected
    ([None]); [readFile] followed by [JSON.parse] is a function of the path,
    [None] when either fails. *)

Module Ingestion.

Definition VECTOR_INDEX : string := "test-index".
Definition datasetPath : string := "./dataset.json".

(** [RawDocument] *)
Record RawDocument := {
  rawPageContent : option string;
  rawText : option string;
  rawMetadata : option DocumentMetadata;
}.

(** The object [{}] as a [DocumentMetadata]. *)
Definition emptyMetadata : DocumentMetadata :=
  {| title := None; airline := None; from_city := None; to_city := None;
     airport_code := None; airport_name := None; price := None;
     time_approx := None; date := None; country := None |}.

(** [a ?? b] *)
Definition nullish {A} (a b : option A) : option A :=
  match a with
  | Some v => Some v
  | None => b
  end.

(** The function mapped over the parsed data by [loadDataset]. *)
Definition toDocument (d : RawDocument) : Document :=
  {| pageContent := default "" (nullish (rawPageContent d) (rawText d));
     metadata := default emptyMetadata (rawMetadata d) |}.

(** [loadDataset]: [None] is a rejected promise. *)
Definition loadDataset (fs : string -> option (list RawDocument)) (path : string)
    : option (list Document) :=
  match fs path with
  | Some data => Some (toDocument <$> data)
  | None => None
  end.

(** The [mappings] given to [esClient.indices.create]. *)
Record Mappings := {
  textType : string;
  embeddingType : string;
  dims : nat;
  embeddingIndex : bool;
  similarity : string;
  metadataType : string;
  metadataEnabled : bool;
}.

Definition vectorMappings : Mappings :=
  {| textType := "text"; embeddingType := "dense_vector"; dims := 1536;
     embeddingIndex := true; similarity := "cosine";
     metadataType := "object"; metadataEnabled := true |}.

(** The calls made to the cluster: [esClient.indices.exists],
    [esClient.indices.create], [esClient.count] (its [count] field) and
    [vectorStore.addDocuments], each on the index named. *)
Record Elastic (Cluster : Type) := {
  indicesExists : string -> Cluster -> option bool;
  indicesCreate : string -> Mappings -> Cluster -> option Cluster;
  count : string -> Cluster -> option nat;
  addDocuments : string -> list Document -> Cluster -> option Cluster;
}.
Arguments indicesExists {Cluster} _ _ _.
Arguments indicesCreate {Cluster} _ _ _ _.
Arguments count {Cluster} _ _ _.
Arguments addDocuments {Cluster} _ _ _ _.

(** One constructor for each [console.log] of [ingestData]. *)
Inductive IngestLine :=
| CreatingVectorIndex                   (* CREATING VECTOR INDEX... *)
| AlreadyContains (documentCount : nat) (* Index already contains n documents. Skipping ingestion. *)
| IngestingDataset                      (* INGESTING DATASET... *)
| Ingested (n : nat).                   (* Successfully ingested n documents *)

(** An asynchronous function over the cluster and the console: its value,
    or [None] when it rejects, with the cluster and the console it
    leaves. *)
Definition Io (Cluster A : Type) : Type :=
  Cluster * list IngestLine -> option A * (Cluster * list IngestLine).

Definition ioRet {Cluster A} (a : A) : Io Cluster A := fun st => (Some a, st).

Definition ioBind {Cluster A B} (f : A -> Io Cluster B) (m : Io Cluster A) : Io Cluster B :=
  fun st =>
    match m st with
    | (Some a, st') => f a st'
    | (None, st') => (None, st')
    end.

#[global] Instance io_ret {Cluster} : MRet (Io Cluster) := @ioRet Cluster.
#[global] Instance io_bind {Cluster} : MBind (Io Cluster) := @ioBind Cluster.

(** An awaited call that reads the cluster. *)
Definition ask {Cluster A} (call : Cluster -> option A) : Io Cluster A :=
  fun st => (call st.1, st).

(** An awaited call that changes the cluster. *)
Definition tell {Cluster} (call : Cluster -> option Cluster) : Io Cluster () :=
  fun st =>
    match call st.1 with
    | Some c => (Some (), (c, st.2))
    | None => (None, st)
    end.

(** [console.log(line)] *)
Definition say {Cluster} (line : IngestLine) : Io Cluster () :=
  fun st => (Some (), (st.1, st.2 ++ [line])).

Section IngestData.
Context {Cluster : Type} (es : Elastic Cluster).
Context (fs : string -> option (list RawDocument)).

(** [loadDataset(datasetPath).catch(() => [])] *)
Definition initialDocs : list Document := default [] (loadDataset fs datasetPath).

(** [ingestData] of [dataIngestion.ts]. *)
Definition ingestData : Io Cluster () :=
  ask (indicesExists es VECTOR_INDEX) ≫= fun vectorExists : bool =>
  (if negb vectorExists
   then (say CreatingVectorIndex;;
         tell (indicesCreate es VECTOR_INDEX vectorMappings) : Io Cluster ())
   else mret ());;
  ask (indicesExists es VECTOR_INDEX) ≫= fun indexExists : bool =>
  if indexExists then
    ask (count es VECTOR_INDEX) ≫= fun documentCount : nat =>
    if (0 <? documentCount)%nat
    then (say (AlreadyContains documentCount) : Io Cluster ())
    else
      say IngestingDataset;;
      tell (addDocuments es VECTOR_INDEX initialDocs);;
      say (Ingested (length initialDocs))
  else mret ().

(** [ingestData] of [src/main.js]: it writes neither the line of the
    skipped ingestion nor the line of the documents ingested. *)
Definition ingestDataJs : Io Cluster () :=
  ask (indicesExists es VECTOR_INDEX) ≫= fun vectorExists : bool =>
  (if negb vectorExists
   then (say CreatingVectorIndex;;
         tell (indicesCreate es VECTOR_INDEX vectorMappings) : Io Cluster ())
   else mret ());;
  ask (indicesExists es VECTOR_INDEX) ≫= fun indexExists : bool =>
  if indexExists then
    ask (count es VECTOR_INDEX) ≫= fun documentCount : nat =>
    if (0 <? documentCount)%nat
    then (mret () : Io Cluster ())
    else
      say IngestingDataset;;
      tell (addDocuments es VECTOR_INDEX initialDocs)
  else mret ().

(** What the calls that change the cluster leave, as far as [ingestData]
    can see: a created index exists and is empty; documents added to an
    index that exists leave it in existence, its count raised by their
    number. *)
Definition createLaw : Prop :=
  ∀ c c', indicesCreate es VECTOR_INDEX vectorMappings c = Some c' ->
          indicesExists es VECTOR_INDEX c' = Some true
          ∧ count es VECTOR_INDEX c' = Some 0%nat.

Definition addLaw : Prop :=
  ∀ c c' docs n, addDocuments es VECTOR_INDEX docs c = Some c' ->
                 indicesExists es VECTOR_INDEX c = Some true ->
                 count es VECTOR_INDEX c = Some n ->
                 indicesExists es VECTOR_INDEX c' = Some true
                 ∧ count es VECTOR_INDEX c' = Some (n + length docs)%nat.

End IngestData.

(** A cluster held in memory: the documents of each index.  Creating an
    index that exists and counting in one that does not are rejected;
    adding documents creates the index when it is missing. *)
Definition memory : Elastic (gmap string (list Document)) :=
  {| indicesExists index c := Some (bool_decide (is_Some (c !! index)));
     indicesCreate index _ c :=
       match c !! index with
       | Some _ => None
       | None => Some (<[index := []]> c)
       end;
     count index c := length <$> c !! index;
     addDocuments index docs c :=
       Some (<[index := default [] (c !! index) ++ docs]> c) |}.

(** A dataset of two entries: one with its text under [text] and no
    metadata, one with an empty [pageContent]. *)
Definition sampleFiles (path : string) : option (list RawDocument) :=
  if String.eqb path datasetPath then
    Some [ {| rawPageContent := None; rawText := Some "MDE to HND";
              rawMetadata := None |};
           {| rawPageContent := Some ""; rawText := Some "MDE to NRT";
              rawMetadata := Some (metadata Scenario.haneda) |} ]
  else None.

End Ingestion.

(** ** Sessions of the circular workflow between two calls *)

Module Session.
Import Engine.

(** The session of [main] waits at [requestChoice] for an answer, in a
    state that satisfies [P]. *)
Definition waiting (P : Cyclic.SupportState -> Prop) (r : Result Cyclic.SupportState)
    : Prop :=
  ∃ ck p k,
    checkpoints r !! Cyclic.thread_id = Some ck
    ∧ cursor ck = "requestChoice"
    ∧ pending ck = Some (p, k)
    ∧ (∀ v, k v = Ret (Cyclic.obj_userChoice v))
    ∧ P (state ck).

(** Every flight of the state is one of [retrieved]. *)
Definition drawnFrom (retrieved : list Document) (s : Cyclic.SupportState) : Prop :=
  ∀ flight, flight ∈ default [] (Cyclic.filteredFlights s) -> flight ∈ retrieved.

(** What a call of the session of [main] has returned: it completed with
    one of the flights [retrieved], or it waits at [requestChoice] with
    flights drawn from them. *)
Definition sound (retrieved : list Document) (r : Result Cyclic.SupportState) : Prop :=
  match outcome r with
  | Completed s => ∃ flight, Cyclic.filteredFlights s = Some [flight] ∧ flight ∈ retrieved
  | Suspended _ => waiting (drawnFrom retrieved) r
  | Failed _ => False
  end.

(** The state holds no flight. *)
Definition noFlight (s : Cyclic.SupportState) : Prop :=
  default [] (Cyclic.filteredFlights s) = [].

End Session.

(** ** [main] of [src/main.ts] from its first statement

    [main] awaits [ingestData] of [dataIngestion.ts], compiles the
    workflow with a new [MemorySaver], awaits [saveGraphImage], and then
    makes the calls of [Cyclic.main].  When [ingestData] rejects, so does
    [main], before it searches. *)

Module Program.
Import Engine.

(** The line [saveGraphImage] writes. *)
Inductive GraphLine :=
| GraphSaved (filePath : string)      (* Workflow graph saved as: filePath *)
| GraphNotSaved (message : string).   (* Could not save graph image: message *)

(** [saveGraphImage(app)]: it catches what drawing the graph or writing
    the file throws; [drawing] is the message of that error, if any. *)
Definition saveGraphImage (drawing : option string) : GraphLine :=
  match drawing with
  | None => GraphSaved "./workflow_graph.png"
  | Some message => GraphNotSaved message
  end.

(** What a call of [main] has done: the cluster and the lines
    [ingestData] left, and, unless [ingestData] rejected, the line of
    [saveGraphImage] and what the calls of the session returned. *)
Inductive MainRun (Cluster : Type) :=
| IngestionRejected (cluster : Cluster) (ingestion : list Ingestion.IngestLine)
| Searched (cluster : Cluster) (ingestion : list Ingestion.IngestLine)
    (graph : GraphLine) (session : option (Result Cyclic.SupportState * nat)).
Arguments IngestionRejected {Cluster} cluster ingestion.
Arguments Searched {Cluster} cluster ingestion graph session.

(** [main] *)
Definition main {Cluster} (es : Ingestion.Elastic Cluster)
    (fs : string -> option (list Ingestion.RawDocument)) (drawing : option string)
    (env : Collaborators) (fuel : nat) (stdin : list string) (cluster : Cluster)
    : MainRun Cluster :=
  match Ingestion.ingestData es fs (cluster, []) with
  | (Some _, (cluster', lines)) =>
      Searched cluster' lines (saveGraphImage drawing) (Cyclic.main env fuel stdin)
  | (None, (cluster', lines)) => IngestionRejected cluster' lines
  end.

End Program.

(** A reply of the chat model that names the first flight [n + 1] times. *)
Fixpoint ones (n : nat) : string :=
  match n with
  | O => "1"
  | S n' => String "1"%char (String ","%char (ones n'))
  end.

(** ** States and collaborators of the examples *)

Module Sample.

(** The recorded session paused at [requestChoice] and answered [v]. *)
Definition answered (v : string) : Cyclic.SupportState :=
  {| Cyclic.input := Some Cyclic.userQuestion;
     Cyclic.filteredFlights := Some Scenario.flights;
     Cyclic.options := None; Cyclic.selectedCountry := None;
     Cyclic.selectedCity := None; Cyclic.selectedAirport := None;
     Cyclic.userChoice := Some v |}.

(** A chat model that names the first flight three times. *)
Definition repeating : Collaborators :=
  {| vectorStore := fun _ limit => take limit Scenario.flights;
     llm := fun _ _ _ => ones 2 |}.

(** A state of the linear workflow with two candidates and an answer. *)
Definition pair : Linear.SupportState :=
  {| Linear.input := Some Linear.userQuestion;
     Linear.candidates := Some (take 2 Scenario.flights);
     Linear.userChoice := Some "the second one";
     Linear.selected := None; Linear.final := None |}.

(** A cluster whose index holds one document, and one whose index is
    empty. *)
Definition populated : gmap string (list Document) :=
  {[ Ingestion.VECTOR_INDEX := [Scenario.haneda] ]}.

Definition created : gmap string (list Document) :=
  {[ Ingestion.VECTOR_INDEX := [] ]}.

(** A chat model that always replies 3. *)
Definition third : Collaborators :=
  {| vectorStore := fun _ limit => take limit Scenario.flights;
     llm := fun _ _ _ => "3" |}.

(** A session of the linear workflow paused at [requestUserChoice] with
    three candidates in its state. *)
Definition three : Engine.Checkpoint Linear.SupportState :=
  {| Engine.state :=
       {| Linear.input := Some Linear.userQuestion;
          Linear.candidates := Some (take 3 Scenario.flights);
          Linear.userChoice := None; Linear.selected := None; Linear.final := None |};
     Engine.cursor := "requestUserChoice";
     Engine.pending :=
       Some ({| question := "Which flight do you prefer?:" |},
             fun v => Ret (Linear.obj_userChoice v)) |}.

(** A cluster that answers no call. *)
Definition unreachable : Ingestion.Elastic () :=
  {| Ingestion.indicesExists _ _ := None;
     Ingestion.indicesCreate _ _ _ := None;
     Ingestion.count _ _ := None;
     Ingestion.addDocuments _ _ _ := None |}.

End Sample.

(** * Properties *)

Example linear_main_single :
  (fun r => (Engine.outcome r, console (Engine.world r)))
    <$> Linear.main Scenario.single 3 []
  = Some (Engine.Completed
            {| Linear.input := Some "Flights to Tokyo";
               Linear.candidates := Some [Scenario.haneda];
               Linear.userChoice := None;
               Linear.selected := Some Scenario.haneda;
               Linear.final :=
                 Some (Linear.formatFlightDetails (metadata Scenario.haneda)) |},
          [LogSearching "Flights to Tokyo"; LogFound 1;
           LogFinal (Some (Linear.formatFlightDetails (metadata Scenario.haneda)))]).
Proof. by vm_compute. Qed.

Example formatFlightDetails_haneda :
  Linear.formatFlightDetails (metadata Scenario.haneda)
  = "Selected flight: MDE -> HND (CondorJet) - CondorJet" +:+ nl
    +:+ "    From: Medellin (MED)" +:+ nl
    +:+ "    To: Tokyo (HND)" +:+ nl
    +:+ "    Airport: Haneda" +:+ nl
    +:+ "    Price: $1290" +:+ nl
    +:+ "    Duration: 22h 10m" +:+ nl
    +:+ "    Date: 2025-11-05".
Proof. reflexivity. Qed.

Example parseInt_examples :
  Js.parseInt "3" (Some 10) = Some 3 /\
  Js.parseInt "  42abc" (Some 10) = Some 42 /\
  Js.parseInt "-7" (Some 10) = Some (-7) /\
  Js.parseInt "abc" (Some 10) = None /\
  Js.parseInt "" (Some 10) = None /\
  Js.parseInt "0x1f" None = Some 31 /\
  Js.parseInt "0x1f" (Some 10) = Some 0 /\
  Js.split "," "1, 3,5" = ["1"; " 3"; "5"] /\
  Js.split "," "" = [""] /\
  Js.trim "  2 " = "2" /\
  Js.numberToString 1350 = "1350".
Proof. repeat split; reflexivity. Qed.


(** ** Running handlers *)

Section RunNode.
Context (env : Collaborators).

(** Running [t ≫= f] is running [t], then [f] on what it returned; a
    pause of [t] keeps [f] in the resume slot. *)
Lemma runNode_bind {A B} (f : A -> Node B) (t : Node A) answers w :
  runNode env (t ≫= f) answers w =
    match runNode env t answers w with
    | (Finished a w', answers') => runNode env (f a) answers' w'
    | (Paused p k w', answers') => (Paused p (fun v => k v ≫= f) w', answers')
    | (Crashed e w', answers') => (Crashed e w', answers')
    end.
Proof.
  revert answers w.
  induction t as [a|p k IH|q n k IH|u d k IH|l k IH|e]; intros answers w.
  - reflexivity.
  - destruct answers as [|v rest]; [reflexivity|]. apply IH.
  - apply IH.
  - apply IH.
  - apply IH.
  - reflexivity.
Qed.

(** A handler that pauses without an answer continues, when the answer is
    there, exactly where it paused. *)
Lemma runNode_answer {A} (t : Node A) w p k w1 rest v answers :
  runNode env t [] w = (Paused p k w1, rest) ->
  runNode env t (v :: answers) w = runNode env (k v) answers w1.
Proof.
  revert w.
  induction t as [a|p0 k0 IH|q n k0 IH|u d k0 IH|l k0 IH|e]; intros w H;
    simpl in *; try discriminate; eauto.
  by inversion H; subst.
Qed.

Lemma runNode_consoleLog {A} line (f : () -> Node A) answers w :
  runNode env (consoleLog line ≫= f) answers w = runNode env (f ()) answers (logged line w).
Proof. reflexivity. Qed.

End RunNode.

(** ** The engine *)

Section EngineFacts.
Context {State : Type} `{!Engine.Channels State}.
Context (env : Collaborators) (g : Engine.StateGraph State).
Import Engine.

Lemma run_S fuel sid slot s c answers store w :
  run env g (S fuel) sid slot s c answers store w =
    match superstep env g sid slot s c answers store w with
    | Stop r => Some r
    | Continue s' c' answers' store' w' => run env g fuel sid None s' c' answers' store' w'
    end.
Proof. reflexivity. Qed.

Lemma superstep_finished sid slot s c answers store w t w1 u w2 answers' c' :
  String.eqb c END = false ->
  treeAt g slot s c w = Some (t, w1) ->
  runNode env t answers w1 = (Finished u w2, answers') ->
  nextCursor g c (merge s u) = Some c' ->
  superstep env g sid slot s c answers store w
    = Continue (merge s u) c' answers'
        (<[sid := {| state := merge s u; cursor := c'; pending := None |}]> store) w2.
Proof. intros Hc Ht Hrun Hnext. unfold superstep. by rewrite Hc, Ht, Hrun, Hnext. Qed.

Lemma superstep_paused sid slot s c answers store w t w1 p k w2 answers' :
  String.eqb c END = false ->
  treeAt g slot s c w = Some (t, w1) ->
  runNode env t answers w1 = (Paused p k w2, answers') ->
  superstep env g sid slot s c answers store w
    = Stop {| outcome := Suspended p;
              checkpoints :=
                <[sid := {| state := s; cursor := c; pending := Some (p, k) |}]> store;
              world := w2 |}.
Proof. intros Hc Ht Hrun. unfold superstep. by rewrite Hc, Ht, Hrun. Qed.

Lemma superstep_crashed sid slot s c answers store w t w1 e w2 answers' :
  String.eqb c END = false ->
  treeAt g slot s c w = Some (t, w1) ->
  runNode env t answers w1 = (Crashed e w2, answers') ->
  superstep env g sid slot s c answers store w
    = Stop {| outcome := Failed (NodeExecutionError e);
              checkpoints := store; world := w2 |}.
Proof. intros Hc Ht Hrun. unfold superstep. by rewrite Hc, Ht, Hrun. Qed.

Lemma superstep_end sid slot s answers store w :
  superstep env g sid slot s END answers store w
    = Stop {| outcome := Completed s;
              checkpoints :=
                <[sid := {| state := s; cursor := END; pending := None |}]> store;
              world := w |}.
Proof. reflexivity. Qed.

(** A superstep that continues has merged an update into the state. *)
Lemma superstep_merges sid slot s c answers store w s' c' answers' store' w' :
  superstep env g sid slot s c answers store w = Continue s' c' answers' store' w' ->
  ∃ u, s' = merge s u ∧ nextCursor g c s' = Some c'.
Proof.
  unfold superstep. destruct (String.eqb c END); [done|].
  destruct (treeAt g slot s c w) as [[t w1]|]; [|done].
  destruct (runNode env t answers w1) as [[u w2|p k w2|e w2] a]; [|done..].
  destruct (nextCursor g c (merge s u)) as [c2|] eqn:Hn; [|done].
  intros [= <- <- <- <- <-]. eauto.
Qed.

(** A call that ends with [Completed] leaves the session at the end marker
    with no pending interrupt. *)
Lemma run_completed fuel sid slot s c answers store w r final :
  run env g fuel sid slot s c answers store w = Some r ->
  outcome r = Completed final ->
  checkpoints r !! sid = Some {| state := final; cursor := END; pending := None |}.
Proof.
  revert slot s c answers store w.
  induction fuel as [|fuel IH]; intros slot s c answers store w; [done|].
  rewrite run_S. unfold superstep.
  destruct (String.eqb c END).
  { intros [= <-] [= <-]. simpl. apply lookup_insert_eq. }
  destruct (treeAt g slot s c w) as [[t w1]|];
    [|by intros [= <-]].
  destruct (runNode env t answers w1) as [[u w2|p k w2|e w2] answers'].
  - destruct (nextCursor g c (merge s u)); [|by intros [= <-]]. apply IH.
  - by intros [= <-].
  - by intros [= <-].
Qed.

(** A resumed call that ends with [Completed] leaves its session at the
    end marker. *)
Lemma resume_completed fuel cmd store w r final :
  resume env g fuel cmd store w = Some r ->
  outcome r = Completed final ->
  checkpoints r !! sessionId cmd
    = Some {| state := final; cursor := END; pending := None |}.
Proof.
  unfold resume. intros Hres Hout.
  destruct (store !! sessionId cmd) as [ck|];
    [|injection Hres as <-; discriminate Hout].
  destruct (pending ck) as [[p k]|];
    [|injection Hres as <-; discriminate Hout].
  exact (run_completed _ _ _ _ _ _ _ _ _ _ Hres Hout).
Qed.

(** A call that ends with [Suspended] leaves a pending interrupt with the
    payload it returned. *)
Lemma run_suspended fuel sid slot s c answers store w r payload :
  run env g fuel sid slot s c answers store w = Some r ->
  outcome r = Suspended payload ->
  ∃ ck k, checkpoints r !! sid = Some ck ∧ pending ck = Some (payload, k).
Proof.
  revert slot s c answers store w.
  induction fuel as [|fuel IH]; intros slot s c answers store w; [done|].
  rewrite run_S. unfold superstep.
  destruct (String.eqb c END); [by intros [= <-]|].
  destruct (treeAt g slot s c w) as [[t w1]|];
    [|by intros [= <-]].
  destruct (runNode env t answers w1) as [[u w2|p k w2|e w2] answers'].
  - destruct (nextCursor g c (merge s u)); [|by intros [= <-]]. apply IH.
  - intros [= <-] [= <-]. simpl. eexists _, k. split; [apply lookup_insert_eq|done].
  - by intros [= <-].
Qed.

(** The checkpoints of the other sessions are those the call found. *)
Lemma run_other_sessions fuel sid slot s c answers store w r sid' :
  run env g fuel sid slot s c answers store w = Some r ->
  sid ≠ sid' ->
  checkpoints r !! sid' = store !! sid'.
Proof.
  intros Hrun Hne. revert slot s c answers store w Hrun.
  induction fuel as [|fuel IH]; intros slot s c answers store w; [done|].
  rewrite run_S. unfold superstep.
  destruct (String.eqb c END).
  { intros [= <-]. simpl. by apply lookup_insert_ne. }
  destruct (treeAt g slot s c w) as [[t w1]|];
    [|by intros [= <-]].
  destruct (runNode env t answers w1) as [[u w2|p k w2|e w2] answers'].
  - destruct (nextCursor g c (merge s u)); [|by intros [= <-]].
    intros Hrun. rewrite (IH _ _ _ _ _ _ Hrun). by apply lookup_insert_ne.
  - intros [= <-]. simpl. by apply lookup_insert_ne.
  - by intros [= <-].
Qed.

(** Suspending and resuming in any graph.  Take a session whose superstep
    at cursor [c] pauses at an [interrupt], leaving the payload [p] and the
    resume slot [k] in its checkpoint.  Resuming it with [v] gives the
    outcome and the world (chat model calls, console, nodes entered) of the
    run in which that [interrupt] returned [v] at once, for every fuel;
    unless the call fails, the checkpoints agree as well. *)
Lemma resume_at_slot fuel sid slot s c t w w0 p k w1 rest store v :
  String.eqb c END = false ->
  treeAt g slot s c w = Some (t, w0) ->
  runNode env t [] w0 = (Paused p k w1, rest) ->
  let suspended := <[sid := {| state := s; cursor := c; pending := Some (p, k) |}]> store in
  let resumed := resume env g fuel {| sessionId := sid; value := v |} suspended w1 in
  let synchronous := run env g fuel sid slot s c [v] store w in
  run env g (S fuel) sid slot s c [] store w
    = Some {| outcome := Suspended p; checkpoints := suspended; world := w1 |}
  ∧ outcome <$> resumed = outcome <$> synchronous
  ∧ world <$> resumed = world <$> synchronous
  ∧ (∀ r, resumed = Some r -> (∀ e, outcome r ≠ Failed e) -> synchronous = Some r).
Proof.
  intros Hc Ht Hpause suspended resumed synchronous.
  split.
  { rewrite run_S. unfold superstep. by rewrite Hc, Ht, Hpause. }
  assert (Hl : suspended !! sid
            = Some {| state := s; cursor := c; pending := Some (p, k) |})
    by apply lookup_insert_eq.
  unfold resumed, resume, synchronous. simpl. rewrite Hl. simpl.
  destruct fuel as [|fuel]; [done|].
  rewrite !run_S. unfold superstep. rewrite Hc, Ht. simpl.
  rewrite (runNode_answer env t w0 p k w1 rest v [] Hpause).
  destruct (runNode env (k v) [] w1) as [[u w2|p' k' w2|e w2] answers'].
  - destruct (nextCursor g c (merge s u)) as [c'|].
    + unfold suspended. by rewrite insert_insert_eq.
    + repeat split; try done. intros r [= <-] Hr. by destruct (Hr GraphDefinitionError).
  - unfold suspended. by rewrite insert_insert_eq.
  - repeat split; try done. intros r [= <-] Hr. by destruct (Hr (NodeExecutionError e)).
Qed.

(** The superstep loop rejects no call: the errors of misuse come from
    [invoke] and [resume] alone. *)
Lemma run_not_misuse fuel sid slot s c answers store w r :
  run env g fuel sid slot s c answers store w = Some r ->
  outcome r ≠ Failed NoPendingInterruptError
  ∧ outcome r ≠ Failed ResumeRequiredError.
Proof.
  revert slot s c answers store w.
  induction fuel as [|fuel IH]; intros slot s c answers store w; [done|].
  rewrite run_S. unfold superstep.
  destruct (String.eqb c END); [by intros [= <-]|].
  destruct (treeAt g slot s c w) as [[t w1]|];
    [|by intros [= <-]].
  destruct (runNode env t answers w1) as [[u w2|p k w2|e w2] answers'].
  - destruct (nextCursor g c (merge s u)); [|by intros [= <-]]. apply IH.
  - by intros [= <-].
  - by intros [= <-].
Qed.

(** C6. Misuse is rejected and changes nothing.  A resume for a session
    without a pending interrupt (no checkpoint, or a checkpoint with none)
    fails with [NoPendingInterruptError]; so does a second resume with the
    same command after a resume that completed the session; an invoke for a
    session with a pending interrupt fails with [ResumeRequiredError].
    Each leaves the checkpoints and the world as they were.  A command
    holds the session and the value only: after a resume that paused again,
    at a new interrupt, the session has a pending interrupt, and a second
    resume with the same command is not rejected: its value is delivered to
    the resume slot of the new interrupt. *)
Theorem misuse_is_rejected :
  (∀ fuel cmd store w,
     (∀ ck, store !! sessionId cmd = Some ck -> pending ck = None) ->
     resume env g fuel cmd store w
       = Some {| outcome := Failed NoPendingInterruptError;
                 checkpoints := store; world := w |})
  ∧ (∀ fuel fuel' cmd store w r final,
       resume env g fuel cmd store w = Some r ->
       outcome r = Completed final ->
       resume env g fuel' cmd (checkpoints r) (world r)
         = Some {| outcome := Failed NoPendingInterruptError;
                   checkpoints := checkpoints r; world := world r |})
  ∧ (∀ fuel input sid store w ck pk,
       store !! sid = Some ck -> pending ck = Some pk ->
       invoke env g fuel input sid store w
         = Some {| outcome := Failed ResumeRequiredError;
                   checkpoints := store; world := w |})
  ∧ (∀ fuel fuel' cmd store w r p,
       resume env g fuel cmd store w = Some r ->
       outcome r = Suspended p ->
       ∃ ck k,
         checkpoints r !! sessionId cmd = Some ck
         ∧ pending ck = Some (p, k)
         ∧ resume env g fuel' cmd (checkpoints r) (world r)
           = run env g fuel' (sessionId cmd) (Some (k (value cmd))) (state ck) (cursor ck)
               [] (checkpoints r) (world r)
         ∧ ∀ r', resume env g fuel' cmd (checkpoints r) (world r) = Some r' ->
                 outcome r' ≠ Failed NoPendingInterruptError).
Proof.
  assert (Hnone : ∀ fuel cmd store w,
     (∀ ck, store !! sessionId cmd = Some ck -> pending ck = None) ->
     resume env g fuel cmd store w
       = Some {| outcome := Failed NoPendingInterruptError;
                 checkpoints := store; world := w |}).
  { intros fuel cmd store w Hno. unfold resume.
    destruct (store !! sessionId cmd) as [ck|] eqn:Hck; [|done].
    by rewrite (Hno ck eq_refl). }
  split; [exact Hnone|]. split; [|split].
  - intros fuel fuel' cmd store w r final Hres Hout.
    apply Hnone. intros ck Hck.
    unfold resume in Hres.
    destruct (store !! sessionId cmd) as [ck0|]; [|by injection Hres as <-].
    destruct (pending ck0) as [[p k]|]; [|by injection Hres as <-].
    rewrite (run_completed _ _ _ _ _ _ _ _ _ _ Hres Hout) in Hck.
    by injection Hck as <-.
  - intros fuel input sid store w ck pk Hck Hpk. unfold invoke.
    by rewrite Hck, Hpk.
  - intros fuel fuel' cmd store w r p Hres Hout.
    assert (Hpending : ∃ ck k, checkpoints r !! sessionId cmd = Some ck
                               ∧ pending ck = Some (p, k)).
    { unfold resume in Hres.
      destruct (store !! sessionId cmd) as [ck0|];
        [|injection Hres as <-; discriminate Hout].
      destruct (pending ck0) as [[p0 k0]|];
        [|injection Hres as <-; discriminate Hout].
      exact (run_suspended _ _ _ _ _ _ _ _ _ _ Hres Hout). }
    destruct Hpending as (ck & k & Hck & Hk).
    exists ck, k. split; [exact Hck|]. split; [exact Hk|].
    assert (Heq : resume env g fuel' cmd (checkpoints r) (world r)
                  = run env g fuel' (sessionId cmd) (Some (k (value cmd))) (state ck)
                      (cursor ck) [] (checkpoints r) (world r))
      by (unfold resume; by rewrite Hck, Hk).
    split; [exact Heq|].
    intros r' Hr'. rewrite Heq in Hr'.
    exact (proj1 (run_not_misuse _ _ _ _ _ _ _ _ _ Hr')).
Qed.

End EngineFacts.

(** ** The linear workflows: node handlers *)

Lemma retrieveLoop_take results acc :
  (length acc < 2)%nat ->
  Linear.retrieveLoop results acc = take 2 (acc ++ results).
Proof.
  revert acc. induction results as [|d rest IH]; intros acc Hacc;
    cbn [Linear.retrieveLoop].
  - rewrite app_nil_r, take_ge; [done|lia].
  - assert (Hlen : length (acc ++ [d]) = S (length acc))
      by (rewrite length_app; simpl; lia).
    rewrite (cons_middle d acc rest), app_assoc.
    destruct (Nat.leb_spec 2 (length (acc ++ [d]))) as [Hle|Hlt].
    + rewrite take_app_le by lia. rewrite take_ge; [done|lia].
    + apply IH. lia.
Qed.

Lemma runNode_retrieveFlights env state answers w :
  let candidates := take 2 (vectorStore env (Linear.input state) 5) in
  runNode env (Linear.retrieveFlights state) answers w
    = (Finished (Linear.obj_candidates candidates)
         (logged (LogFound (length candidates)) w), answers).
Proof.
  intros candidates. unfold Linear.retrieveFlights. simpl.
  by rewrite (retrieveLoop_take _ []) by (simpl; lia).
Qed.

(** C9. [retrieveFlights] asks the vector store for five results and keeps
    the first two: the candidates are the results cut after the second,
    min(|results|, 2) of them, in [src/unnamed/part_000] and in
    [src/main.js] alike. *)
Theorem retrieveFlights_at_most_two env state answers w :
  let results := vectorStore env (Linear.input state) 5 in
  ∃ candidates,
    runNode env (Linear.retrieveFlights state) answers w
      = (Finished (Linear.obj_candidates candidates)
           (logged (LogFound (length candidates)) w), answers)
    ∧ runNode env (MainJs.retrieveFlights state) answers w
      = (Finished (Linear.obj_candidates candidates)
           (logged (LogFound (length candidates)) w), answers)
    ∧ candidates = take 2 results
    ∧ length candidates = Nat.min (length results) 2.
Proof.
  intros results. exists (take 2 results). repeat split.
  - apply runNode_retrieveFlights.
  - apply runNode_retrieveFlights.
  - rewrite length_take. lia.
Qed.

(** ** Routing functions and validation *)

Lemma showFlightsRouter_final st :
  Cyclic.showFlightsRouter st = "final"
  ↔ length (default [] (Cyclic.filteredFlights st)) = 1%nat.
Proof. unfold Cyclic.showFlightsRouter. by case_decide. Qed.

Lemma showFlightsRouter_continue st :
  Cyclic.showFlightsRouter st = "continue"
  ↔ length (default [] (Cyclic.filteredFlights st)) ≠ 1%nat.
Proof. unfold Cyclic.showFlightsRouter. by case_decide. Qed.

Lemma showFlightsRouter_range l :
  (∃ st, Cyclic.showFlightsRouter st = l) ↔ l = "final" ∨ l = "continue".
Proof.
  split.
  - intros [st <-]. unfold Cyclic.showFlightsRouter. case_decide; auto.
  - intros [->| ->].
    + by exists (Cyclic.obj_filteredFlights
        [{| pageContent := ""; metadata := {| title := None; airline := None;
            from_city := None; to_city := None; airport_code := None;
            airport_name := None; price := None; time_approx := None;
            date := None; country := None |} |}]).
    + by exists Cyclic.obj.
Qed.

Lemma evaluateResultsRouter_range l :
  (∃ st, Linear.evaluateResultsRouter st = l) ↔ l = "complete" ∨ l = "multiple".
Proof.
  split.
  - intros [st <-]. unfold Linear.evaluateResultsRouter.
    destruct (Js.truthy (Linear.final st)); auto.
  - intros [->| ->].
    + by exists {| Linear.input := None; Linear.candidates := None;
                   Linear.userChoice := None; Linear.selected := None;
                   Linear.final := Some "x" |}.
    + by exists Linear.obj.
Qed.

Lemma showFlights_label st :
  is_Some (Engine.assoc (Cyclic.showFlightsRouter st) Cyclic.showFlightsMapping).
Proof. unfold Cyclic.showFlightsRouter. case_decide; by eexists. Qed.

Lemma evaluateResults_label st :
  is_Some (Engine.assoc (Linear.evaluateResultsRouter st) Linear.evaluateResultsMapping).
Proof.
  unfold Linear.evaluateResultsRouter.
  destruct (Js.truthy (Linear.final st)); by eexists.
Qed.

(** Membership in a list written out, one element at a time. *)
Ltac each_member H :=
  repeat (apply elem_of_cons in H as [H|H]; [simplify_eq|]);
  try (by apply elem_of_nil in H).

Ltac decide_closed := apply (bool_decide_unpack _); vm_compute; exact I.

Lemma valid_cyclic : Engine.valid Cyclic.workflow.
Proof.
  split.
  - decide_closed.
  - intros s d H. cbn in H. each_member H; decide_closed.
  - intros s r m l d H Hm. cbn in H. each_member H.
    unfold Cyclic.showFlightsMapping in Hm.
    each_member Hm; decide_closed.
  - intros s r m st H. cbn in H. each_member H.
    apply showFlights_label.
  - by eexists.
  - left. decide_closed.
Qed.

Lemma valid_linear : Engine.valid Linear.workflow.
Proof.
  split.
  - decide_closed.
  - intros s d H. cbn in H. each_member H; decide_closed.
  - intros s r m l d H Hm. cbn in H. each_member H.
    unfold Linear.evaluateResultsMapping in Hm.
    each_member Hm; decide_closed.
  - intros s r m st H. cbn in H. each_member H.
    apply evaluateResults_label.
  - by eexists.
  - left. decide_closed.
Qed.

Lemma valid_mainjs : Engine.valid MainJs.workflow.
Proof.
  split.
  - decide_closed.
  - intros s d H. cbn in H. each_member H; decide_closed.
  - intros s r m l d H Hm. cbn in H. each_member H.
    unfold Linear.evaluateResultsMapping in Hm.
    each_member Hm; decide_closed.
  - intros s r m st H. cbn in H. each_member H.
    apply evaluateResults_label.
  - by eexists.
  - left. decide_closed.
Qed.

(** C7. Every label a routing function returns is in its mapping.  The
    routing function of [showFlights] returns exactly the labels "final" and
    "continue", that of [evaluateResults] exactly "complete" and "multiple";
    the lookup of the destination succeeds in every state, and the three
    graphs pass validation. *)
Theorem routers_are_total :
  (∀ l, (∃ st, Cyclic.showFlightsRouter st = l) ↔ l = "final" ∨ l = "continue")
  ∧ (∀ l, (∃ st, Linear.evaluateResultsRouter st = l) ↔ l = "complete" ∨ l = "multiple")
  ∧ (∀ st, is_Some (Engine.assoc (Cyclic.showFlightsRouter st) Cyclic.showFlightsMapping))
  ∧ (∀ st, is_Some (Engine.assoc (Linear.evaluateResultsRouter st)
                      Linear.evaluateResultsMapping))
  ∧ Engine.valid Cyclic.workflow
  ∧ Engine.valid Linear.workflow
  ∧ Engine.valid MainJs.workflow.
Proof.
  split; [exact showFlightsRouter_range|].
  split; [exact evaluateResultsRouter_range|].
  split; [exact showFlights_label|].
  split; [exact evaluateResults_label|].
  split; [exact valid_cyclic|].
  split; [exact valid_linear|exact valid_mainjs].
Qed.

(** ** The linear workflows: runs *)

Lemma evaluateResults_single s d :
  Linear.candidates s = Some [d] ->
  Linear.evaluateResults s
    = Ret (Linear.obj_selected_final d (Linear.formatFlightDetails (metadata d))).
Proof. intros H. unfold Linear.evaluateResults. by rewrite H. Qed.

Lemma evaluateResults_other s :
  length (default [] (Linear.candidates s)) ≠ 1%nat ->
  Linear.evaluateResults s = Ret (Linear.obj_candidates (default [] (Linear.candidates s))).
Proof. intros H. unfold Linear.evaluateResults. by case_decide. Qed.

Lemma flightDetails_truthy indent m : Js.truthy (Some (flightDetails indent m)) = true.
Proof. reflexivity. Qed.

(** One superstep of a run whose node finishes. *)
Ltac superstep_finishes lem :=
  rewrite run_S;
  erewrite superstep_finished; [ | reflexivity | reflexivity | lem | reflexivity ].

(** The world after a run, as the lines and node names it added. *)
Ltac world_lines :=
  unfold enter, logged, called; cbn [llmCalls console entered length];
  rewrite <- ?app_assoc; cbn [app].

(** Unfolding of the merges and object literals of the linear workflows. *)
Ltac linear_state :=
  cbn [Engine.merge Engine.emptyState Linear.channels overwrite
       Linear.obj Linear.obj_input Linear.obj_candidates Linear.obj_userChoice
       Linear.obj_selected_final
       Linear.input Linear.candidates Linear.userChoice Linear.selected Linear.final].

(** C4. A query for which the vector store returns one candidate: the
    first call of a new session on the linear graph returns [Completed],
    with that candidate selected and the final answer set by
    [evaluateResults].  Only [retrieveFlights] and [evaluateResults] are
    entered, the chat model is not called, and the checkpoint holds no
    pending interrupt.  Three supersteps are enough. *)
Theorem single_candidate_completes env fuel sid store w q d :
  store !! sid = None ->
  vectorStore env (Some q) 5 = [d] ->
  let final :=
    {| Linear.input := Some q; Linear.candidates := Some [d];
       Linear.userChoice := None; Linear.selected := Some d;
       Linear.final := Some (Linear.formatFlightDetails (metadata d)) |} in
  Engine.invoke env Linear.workflow (3 + fuel) (Linear.obj_input q) sid store w
    = Some {| Engine.outcome := Engine.Completed final;
              Engine.checkpoints :=
                <[sid := {| Engine.state := final; Engine.cursor := Engine.END;
                            Engine.pending := None |}]> store;
              Engine.world :=
                {| llmCalls := llmCalls w;
                   console := console w ++ [LogFound 1];
                   entered := entered w ++ ["retrieveFlights"; "evaluateResults"] |} |}
  ∧ Linear.evaluateResultsRouter final = "complete"
  ∧ Engine.assoc "complete" Linear.evaluateResultsMapping = Some Engine.END.
Proof.
  intros Hs Hv final. split; [|done]. unfold Engine.invoke. rewrite Hs.
  change (Engine.assoc Engine.START (Engine.edges Linear.workflow))
    with (Some "retrieveFlights").
  change (3 + fuel)%nat with (S (S (S fuel))). cbv iota beta.
  superstep_finishes ltac:(apply runNode_retrieveFlights).
  linear_state. rewrite Hv. change (take 2 [d]) with [d].
  superstep_finishes ltac:(by erewrite evaluateResults_single by reflexivity).
  linear_state.
  rewrite run_S, superstep_end, !insert_insert_eq.
  by world_lines.
Qed.

(** ** Selections *)

Lemma index_inRange {A} (l : list A) i :
  Js.inRange (length l) i = true -> ∃ x, Js.index l i = Some x ∧ x ∈ l.
Proof.
  destruct i as [z|]; [|done]. simpl. intros [H0 Hlt]%andb_prop.
  rewrite H0. apply Z.leb_le in H0. apply Z.ltb_lt in Hlt.
  destruct (lookup_lt_is_Some_2 l (Z.to_nat z)) as [x Hx]; [lia|].
  exists x. split; [done|]. by eapply list_elem_of_lookup_2.
Qed.

Lemma inRange_nil i : Js.inRange 0 i = false.
Proof. by destruct i as [[|z|z]|]. Qed.

(** [disambiguateAndAnswer] with candidates: it returns one of them. *)
Lemma disambiguateAndAnswer_selects env s c0 rest answers w :
  Linear.candidates s = Some (c0 :: rest) ->
  ∃ flight,
    runNode env (Linear.disambiguateAndAnswer s) answers w
      = (Finished (Linear.obj_selected_final flight
                     (Linear.formatFlightDetails (metadata flight)))
           (called w), answers)
    ∧ flight ∈ c0 :: rest.
Proof.
  intros Hc. unfold Linear.disambiguateAndAnswer. rewrite Hc. simpl.
  set (n := Js.pred _). unfold Linear.selectedFlight.
  destruct (Js.inRange (length (c0 :: rest)) n) eqn:Hr.
  - destruct (index_inRange (c0 :: rest) n Hr) as (x & -> & Hx). eauto.
  - exists c0. split; [done|]. apply elem_of_cons. by left.
Qed.

(** [disambiguateAndAnswer] without a candidate: it throws, whatever the
    chat model replies. *)
Lemma disambiguateAndAnswer_throws env s answers w :
  default [] (Linear.candidates s) = [] ->
  runNode env (Linear.disambiguateAndAnswer s) answers w
    = (Crashed Linear.undefinedMetadata (called w), answers)
  ∧ runNode env (MainJs.disambiguateAndAnswer s) answers w
    = (Crashed Linear.undefinedMetadata (called w), answers).
Proof.
  intros Hc. unfold MainJs.disambiguateAndAnswer, Linear.disambiguateAndAnswer.
  rewrite Hc. simpl. unfold Linear.selectedFlight.
  by rewrite !inRange_nil.
Qed.

Lemma mainjs_evaluateResults_other s :
  length (default [] (Linear.candidates s)) ≠ 1%nat ->
  MainJs.evaluateResults s = Ret (Linear.obj_candidates (default [] (Linear.candidates s))).
Proof. intros H. unfold MainJs.evaluateResults. by case_decide. Qed.

(** One superstep of a run whose node pauses, and one whose node throws. *)
Ltac superstep_pauses :=
  rewrite run_S;
  erewrite superstep_paused; [ | reflexivity | reflexivity | reflexivity ].
Ltac superstep_crashes lem :=
  rewrite run_S;
  erewrite superstep_crashed; [ | reflexivity | reflexivity | lem ].

(** The resumed call of a session whose checkpoint was just written. *)
Ltac resume_checkpoint :=
  unfold Engine.resume; cbn [Engine.sessionId Engine.value Engine.checkpoints Engine.world];
  rewrite lookup_insert_eq; cbn [Engine.pending Engine.state Engine.cursor].

Lemma linear_no_candidate env fuel sid store w q v :
  store !! sid = None ->
  vectorStore env (Some q) 5 = [] ->
  ∃ r,
    Engine.invoke env Linear.workflow (4 + fuel) (Linear.obj_input q) sid store w = Some r
    ∧ Engine.outcome r = Engine.Suspended {| question := "Which flight do you prefer?:" |}
    ∧ Engine.outcome <$>
        Engine.resume env Linear.workflow (2 + fuel)
          {| Engine.sessionId := sid; Engine.value := v |}
          (Engine.checkpoints r) (Engine.world r)
      = Some (Engine.Failed (Engine.NodeExecutionError Linear.undefinedMetadata)).
Proof.
  intros Hs Hv. eexists. split; [|split].
  - unfold Engine.invoke. rewrite Hs.
    change (Engine.assoc Engine.START (Engine.edges Linear.workflow))
      with (Some "retrieveFlights").
    change (4 + fuel)%nat with (S (S (S (S fuel)))). cbv iota beta.
    superstep_finishes ltac:(apply runNode_retrieveFlights).
    linear_state. rewrite Hv. change (take 2 []) with (@nil Document).
    superstep_finishes ltac:(by rewrite evaluateResults_other).
    linear_state.
    superstep_finishes ltac:(reflexivity).
    linear_state.
    superstep_pauses. reflexivity.
  - reflexivity.
  - resume_checkpoint.
    change (2 + fuel)%nat with (S (S fuel)).
    superstep_finishes ltac:(reflexivity).
    linear_state.
    superstep_crashes ltac:(by apply disambiguateAndAnswer_throws).
    reflexivity.
Qed.

Lemma mainjs_no_candidate env fuel sid store w q v :
  store !! sid = None ->
  vectorStore env (Some q) 5 = [] ->
  ∃ r,
    Engine.invoke env MainJs.workflow (4 + fuel) (Linear.obj_input q) sid store w = Some r
    ∧ Engine.outcome r = Engine.Suspended {| question := "Which flight do you prefer?:" |}
    ∧ Engine.outcome <$>
        Engine.resume env MainJs.workflow (2 + fuel)
          {| Engine.sessionId := sid; Engine.value := v |}
          (Engine.checkpoints r) (Engine.world r)
      = Some (Engine.Failed (Engine.NodeExecutionError Linear.undefinedMetadata)).
Proof.
  intros Hs Hv. eexists. split; [|split].
  - unfold Engine.invoke. rewrite Hs.
    change (Engine.assoc Engine.START (Engine.edges MainJs.workflow))
      with (Some "retrieveFlights").
    change (4 + fuel)%nat with (S (S (S (S fuel)))). cbv iota beta.
    superstep_finishes ltac:(apply runNode_retrieveFlights).
    linear_state. rewrite Hv. change (take 2 []) with (@nil Document).
    superstep_finishes ltac:(by rewrite mainjs_evaluateResults_other).
    linear_state.
    superstep_finishes ltac:(reflexivity).
    linear_state.
    superstep_pauses. reflexivity.
  - reflexivity.
  - resume_checkpoint.
    change (2 + fuel)%nat with (S (S fuel)).
    superstep_finishes ltac:(reflexivity).
    linear_state.
    superstep_crashes ltac:(by apply disambiguateAndAnswer_throws).
    reflexivity.
Qed.

(** The first call of a new session on the linear graph pauses unless one
    candidate was kept, and the paused session holds the candidates cut
    after the second: never three. *)
Lemma linear_invoke_suspends env fuel sid store w q :
  store !! sid = None ->
  let candidates := take 2 (vectorStore env (Some q) 5) in
  length candidates ≠ 1%nat ->
  ∃ k w1,
    Engine.invoke env Linear.workflow (4 + fuel) (Linear.obj_input q) sid store w
      = Some {| Engine.outcome :=
                  Engine.Suspended {| question := "Which flight do you prefer?:" |};
                Engine.checkpoints :=
                  <[sid := {| Engine.state :=
                                {| Linear.input := Some q;
                                   Linear.candidates := Some candidates;
                                   Linear.userChoice := None; Linear.selected := None;
                                   Linear.final := None |};
                              Engine.cursor := "requestUserChoice";
                              Engine.pending :=
                                Some ({| question := "Which flight do you prefer?:" |}, k)
                           |}]> store;
                Engine.world := w1 |}
    ∧ (length candidates <= 2)%nat.
Proof.
  intros Hs candidates Hlen. eexists _, _. split.
  - unfold Engine.invoke. rewrite Hs.
    change (Engine.assoc Engine.START (Engine.edges Linear.workflow))
      with (Some "retrieveFlights").
    change (4 + fuel)%nat with (S (S (S (S fuel)))). cbv iota beta.
    superstep_finishes ltac:(apply runNode_retrieveFlights).
    linear_state. fold candidates.
    superstep_finishes ltac:(by rewrite evaluateResults_other).
    linear_state.
    superstep_finishes ltac:(reflexivity).
    linear_state.
    superstep_pauses. by rewrite !insert_insert_eq.
  - unfold candidates. rewrite length_take. lia.
Qed.

(** C3 (the code departs from it).  A query for which the vector store
    returns no candidate, on the linear graphs: the first call pauses at
    [requestUserChoice], and the resumed call fails in
    [disambiguateAndAnswer], which reads [metadata] of the missing first
    candidate, whatever the operator answers and the chat model replies. *)
Theorem no_candidate_is_fatal (reply : nat -> string -> list Document -> string)
    (fuel : nat) (q v : string) :
  let env := {| vectorStore := fun _ _ => []; llm := reply |} in
  let failed := Some (Engine.Failed (Engine.NodeExecutionError Linear.undefinedMetadata)) in
  (∃ r,
    Engine.invoke env Linear.workflow (4 + fuel) (Linear.obj_input q) "hitl-thread"
      ∅ newWorld = Some r
    ∧ Engine.outcome r = Engine.Suspended {| question := "Which flight do you prefer?:" |}
    ∧ Engine.outcome <$>
        Engine.resume env Linear.workflow (2 + fuel)
          {| Engine.sessionId := "hitl-thread"; Engine.value := v |}
          (Engine.checkpoints r) (Engine.world r) = failed)
  ∧ (∃ r,
    Engine.invoke env MainJs.workflow (4 + fuel) (Linear.obj_input q) "hitl-thread"
      ∅ newWorld = Some r
    ∧ Engine.outcome r = Engine.Suspended {| question := "Which flight do you prefer?:" |}
    ∧ Engine.outcome <$>
        Engine.resume env MainJs.workflow (2 + fuel)
          {| Engine.sessionId := "hitl-thread"; Engine.value := v |}
          (Engine.checkpoints r) (Engine.world r) = failed).
Proof.
  intros env failed. split.
  - by apply linear_no_candidate.
  - by apply mainjs_no_candidate.
Qed.

(** ** The circular workflow: node handlers *)

Lemma loggedAll_logged l ls w : loggedAll ls (logged l w) = loggedAll (l :: ls) w.
Proof. unfold loggedAll, logged. simpl. by rewrite <- app_assoc. Qed.

Lemma loggedAll_nil w : loggedAll [] w = w.
Proof. destruct w. unfold loggedAll. simpl. by rewrite app_nil_r. Qed.

Lemma runNode_showFlightsLoop {A} env (f : () -> Node A) i flights answers w :
  runNode env (Cyclic.showFlightsLoop i flights ≫= f) answers w
    = runNode env (f ()) answers (loggedAll (Cyclic.flightLines i flights) w).
Proof.
  revert i w. induction flights as [|flight rest IH]; intros i w.
  - by rewrite loggedAll_nil.
  - simpl. rewrite <- !loggedAll_logged. apply IH.
Qed.

Lemma runNode_showFlights env s answers w :
  let flights := default [] (Cyclic.filteredFlights s) in
  runNode env (Cyclic.showFlights s) answers w
    = (Finished (Cyclic.obj_filteredFlights flights)
         (loggedAll (Cyclic.showFlightsLines flights) w), answers).
Proof.
  intros flights. unfold Cyclic.showFlights, Cyclic.showFlightsLines. fold flights.
  case_decide.
  - simpl. by rewrite <- loggedAll_logged, loggedAll_nil.
  - rewrite runNode_consoleLog.
    rewrite (runNode_showFlightsLoop env _ 0 flights). simpl.
    by rewrite loggedAll_logged.
Qed.

Lemma runNode_disambiguateSelection env s answers w :
  runNode env (Cyclic.disambiguateSelection s) answers w
    = (Finished (Cyclic.obj_filteredFlights (Cyclic.selection env s w).1)
         (Cyclic.selection env s w).2, answers).
Proof.
  unfold Cyclic.disambiguateSelection, Cyclic.selection.
  destruct (Js.numberRegex _); [|done].
  by destruct (Js.inRange _ _).
Qed.

Lemma runNode_initialize env s answers w :
  let flights := vectorStore env (Cyclic.input s) 10 in
  runNode env (Cyclic.initialize s) answers w
    = (Finished (Cyclic.obj_filteredFlights flights)
         (logged (LogRetrieved (length flights)) w), answers).
Proof.
  intros flights. unfold Cyclic.initialize. simpl. fold flights.
  by rewrite list_fmap_id.
Qed.

Lemma runNode_showFinalFlight env s flight answers w :
  default [] (Cyclic.filteredFlights s) !! 0%nat = Some flight ->
  runNode env (Cyclic.showFinalFlight s) answers w
    = (Finished Cyclic.obj (logged (LogFinalResult (metadata flight)) w), answers).
Proof. intros H. unfold Cyclic.showFinalFlight. by rewrite H. Qed.

(** Every index kept from the reply of the chat model is the index of a
    flight: [flights[i]] is never [undefined] in the array
    [disambiguateSelection] returns. *)
Lemma selectedNumbers_defined content flights :
  length (omap (Js.index flights) (Cyclic.selectedNumbers content flights))
    = length (Cyclic.selectedNumbers content flights).
Proof.
  unfold Cyclic.selectedNumbers.
  induction (_ <$> Js.split _ _) as [|i l IH]; [done|].
  rewrite filter_cons. case_decide as Hi; [|done].
  apply Is_true_true in Hi.
  destruct (index_inRange flights i Hi) as (x & Hx & _).
  cbn [omap list_omap]. rewrite Hx. cbn [length]. by rewrite <- IH.
Qed.

(** Every flight [disambiguateSelection] keeps is one of the flights it
    was given. *)
Lemma selection_drawn env s w flight :
  flight ∈ (Cyclic.selection env s w).1 ->
  flight ∈ default [] (Cyclic.filteredFlights s).
Proof.
  unfold Cyclic.selection.
  set (flights := default [] (Cyclic.filteredFlights s)).
  destruct (Js.numberRegex _ && Js.inRange _ _) eqn:Hn; simpl.
  - apply andb_prop in Hn as [_ Hr].
    destruct (index_inRange flights _ Hr) as (x & -> & Hx).
    simpl. by intros ->%list_elem_of_singleton.
  - intros (i & Hi & Hx)%list_elem_of_omap.
    unfold Cyclic.selectedNumbers in Hi. apply list_elem_of_filter in Hi as [Hr _].
    apply Is_true_true in Hr.
    destruct (index_inRange flights i Hr) as (x & Hx' & Hin). congruence.
Qed.

Lemma selection_entered env s w : entered (Cyclic.selection env s w).2 = entered w.
Proof. unfold Cyclic.selection. by destruct (_ && _). Qed.

Lemma loggedAll_entered ls w : entered (loggedAll ls w) = entered w.
Proof. reflexivity. Qed.

(** ** The circular workflow: runs *)

Ltac cyclic_state :=
  cbn [Engine.merge Engine.emptyState Cyclic.channels overwrite
       Cyclic.obj Cyclic.obj_input Cyclic.obj_filteredFlights Cyclic.obj_userChoice
       Cyclic.input Cyclic.filteredFlights Cyclic.options Cyclic.selectedCountry
       Cyclic.selectedCity Cyclic.selectedAirport Cyclic.userChoice].

Ltac superstep_routes lem next :=
  rewrite run_S;
  erewrite superstep_finished; [ | reflexivity | reflexivity | lem | next ].

Lemma nextCursor_showFlights s :
  Engine.nextCursor Cyclic.workflow "showFlights" s
    = Some (if decide (length (default [] (Cyclic.filteredFlights s)) = 1%nat)
            then "showFinalFlight" else "requestChoice").
Proof.
  unfold Engine.nextCursor. cbn. unfold Cyclic.showFlightsRouter.
  by case_decide.
Qed.

(** The first call of a new session: it pauses at [requestChoice] unless
    the vector store returned exactly one flight. *)
Lemma cyclic_invoke_suspends env fuel sid store w q :
  store !! sid = None ->
  let flights := vectorStore env (Some q) 10 in
  let s := {| Cyclic.input := Some q; Cyclic.filteredFlights := Some flights;
              Cyclic.options := None; Cyclic.selectedCountry := None;
              Cyclic.selectedCity := None; Cyclic.selectedAirport := None;
              Cyclic.userChoice := None |} in
  length flights ≠ 1%nat ->
  ∃ k w1,
    (∀ v, k v = Ret (Cyclic.obj_userChoice v))
    ∧ entered w1 = entered w ++ ["initialize"; "showFlights"; "requestChoice"]
    ∧ llmCalls w1 = llmCalls w
    ∧ Engine.invoke env Cyclic.workflow (3 + fuel) (Cyclic.obj_input q) sid store w
      = Some {| Engine.outcome := Engine.Suspended {| question := Cyclic.refineQuestion |};
                Engine.checkpoints :=
                  <[sid := {| Engine.state := s; Engine.cursor := "requestChoice";
                              Engine.pending :=
                                Some ({| question := Cyclic.refineQuestion |}, k) |}]> store;
                Engine.world := w1 |}.
Proof.
  intros Hs flights s Hlen. eexists _, _. split; [|split; [|split]]; cycle 3.
  - unfold Engine.invoke. rewrite Hs.
    change (Engine.assoc Engine.START (Engine.edges Cyclic.workflow))
      with (Some "initialize").
    change (3 + fuel)%nat with (S (S (S fuel))). cbv iota beta.
    superstep_finishes ltac:(apply runNode_initialize).
    cyclic_state. fold flights.
    superstep_routes ltac:(apply runNode_showFlights) ltac:(apply nextCursor_showFlights).
    cyclic_state. rewrite decide_False by done.
    superstep_pauses. rewrite !insert_insert_eq. reflexivity.
  - done.
  - unfold enter, logged, loggedAll. simpl. by rewrite <- !app_assoc.
  - reflexivity.
Qed.

(** The resumed call of a session paused at [requestChoice]: the answer
    is merged, [disambiguateSelection] filters, and [showFlights] routes
    to the final flight when one flight is left, back to [requestChoice]
    otherwise. *)
Lemma cyclic_resume_refines env fuel sid store w ck p k v :
  store !! sid = Some ck ->
  Engine.cursor ck = "requestChoice" ->
  Engine.pending ck = Some (p, k) ->
  (∀ v, k v = Ret (Cyclic.obj_userChoice v)) ->
  let s1 := Engine.merge (Engine.state ck) (Cyclic.obj_userChoice v) in
  let flights := (Cyclic.selection env s1 (enter "disambiguateSelection" w)).1 in
  let s2 := Engine.merge s1 (Cyclic.obj_filteredFlights flights) in
  ∃ r,
    Engine.resume env Cyclic.workflow (5 + fuel)
      {| Engine.sessionId := sid; Engine.value := v |} store w = Some r
    ∧ llmCalls (Engine.world r)
      = llmCalls (Cyclic.selection env s1 (enter "disambiguateSelection" w)).2
    ∧ (length flights = 1%nat ->
         Engine.outcome r = Engine.Completed s2
         ∧ entered (Engine.world r)
           = entered w ++ ["disambiguateSelection"; "showFlights"; "showFinalFlight"])
    ∧ (length flights ≠ 1%nat ->
         Engine.outcome r = Engine.Suspended {| question := Cyclic.refineQuestion |}
         ∧ entered (Engine.world r)
           = entered w ++ ["disambiguateSelection"; "showFlights"; "requestChoice"]
         ∧ ∃ k', (∀ v, k' v = Ret (Cyclic.obj_userChoice v))
             ∧ Engine.checkpoints r !! sid
               = Some {| Engine.state := s2; Engine.cursor := "requestChoice";
                         Engine.pending :=
                           Some ({| question := Cyclic.refineQuestion |}, k') |}).
Proof.
  intros Hck Hc Hp Hk s1 flights s2.
  unfold Engine.resume. cbn [Engine.sessionId Engine.value]. rewrite Hck, Hp, Hc, Hk.
  change (5 + fuel)%nat with (S (S (S (S (S fuel))))).
  superstep_finishes ltac:(reflexivity).
  fold s1.
  superstep_finishes ltac:(apply runNode_disambiguateSelection).
  fold flights. fold s2.
  superstep_routes ltac:(apply runNode_showFlights) ltac:(apply nextCursor_showFlights).
  assert (Hfl : default [] (Cyclic.filteredFlights s2) = flights) by done.
  assert (Hs2 : Engine.merge s2 (Cyclic.obj_filteredFlights
                   (default [] (Cyclic.filteredFlights s2))) = s2)
    by (rewrite Hfl; by destruct (Engine.state ck)).
  rewrite Hs2, Hfl.
  destruct (decide (length flights = 1%nat)) as [Hone|Hmany].
  - destruct flights as [|flight [|? ?]] eqn:Hflights; try done.
    superstep_finishes ltac:(by apply (runNode_showFinalFlight env s2 flight)).
    assert (Hobj : Engine.merge s2 Cyclic.obj = s2) by (by destruct (Engine.state ck)).
    rewrite Hobj, run_S, superstep_end.
    eexists. split; [reflexivity|]. split; [done|]. split; [|done].
    intros _. split; [done|].
    cbn [Engine.world]. unfold enter, logged. cbn [entered].
    rewrite loggedAll_entered. cbn [entered].
    rewrite selection_entered. cbn [entered]. by rewrite <- !app_assoc.
  - superstep_pauses.
    eexists. split; [reflexivity|]. split; [done|]. split; [done|].
    intros _. split; [done|]. split.
    + cbn [Engine.world]. unfold enter. cbn [entered].
      rewrite loggedAll_entered. cbn [entered].
      rewrite selection_entered. cbn [entered]. by rewrite <- !app_assoc.
    + eexists. split; [|apply lookup_insert_eq]. done.
Qed.

(** ** Selecting by number *)

Lemma digit_is_plain c :
  Js.isDigit c = true ->
  Js.isWhiteSpace c = false
  ∧ Js.radixDigit 10 c = Some (Js.codeUnit c - 48)
  ∧ ∀ s, Js.stripSign (String c s) = (1, String c s).
Proof.
  destruct c as [[] [] [] [] [] [] [] []]; intros H; try discriminate H;
    by vm_compute.
Qed.

Lemma parseDigits_allDigits acc s :
  Js.allDigits s = true ->
  Js.parseDigits 10 (Some acc) s = Some (Js.decimalFrom acc s).
Proof.
  revert acc. induction s as [|c s IH]; intros acc H; [done|].
  simpl in H. apply andb_prop in H as [Hc Hs].
  destruct (digit_is_plain c Hc) as (_ & Hd & _).
  cbn [Js.parseDigits Js.decimalFrom]. rewrite Hd. by apply IH.
Qed.

(** A string the pattern [/^\d+$/] matches is read by [parseInt] as the
    number it denotes. *)
Lemma parseInt_numberRegex u :
  Js.numberRegex u = true ->
  Js.parseInt u (Some 10) = Some (Js.decimalValue u).
Proof.
  destruct u as [|c s]; [done|]. intros H.
  simpl in H. apply andb_prop in H as [Hc Hs].
  destruct (digit_is_plain c Hc) as (Hw & Hd & Hsign).
  unfold Js.parseInt. cbn [Js.trimStart]. rewrite Hw, Hsign.
  change (Z.mul 1 <$> Js.parseDigits 10 None (String c s)
          = Some (Js.decimalValue (String c s))).
  cbn [Js.parseDigits]. rewrite Hd.
  rewrite parseDigits_allDigits by done.
  unfold Js.decimalValue. cbn [Js.decimalFrom default fmap option_fmap option_map].
  f_equal. lia.
Qed.

(** A reply that is a number [k] between 1 and the number of flights
    selects the flight of index [k - 1]; the handler then holds no call of
    the chat model. *)
Lemma disambiguateSelection_by_number state u :
  Cyclic.userChoice state = Some u ->
  Js.numberRegex u = true ->
  let flights := default [] (Cyclic.filteredFlights state) in
  1 <= Js.decimalValue u <= Z.of_nat (length flights) ->
  ∃ flight,
    flights !! Z.to_nat (Js.decimalValue u - 1) = Some flight
    ∧ Cyclic.disambiguateSelection state
      = ConsoleLog (LogSelectedNumber u) (Ret (Cyclic.obj_filteredFlights [flight])).
Proof.
  intros Hu Hre flights Hk.
  assert (Horelse : Js.orElse (Some u) "" = u) by (by destruct u).
  assert (Hrange : Js.inRange (length flights) (Js.pred (Js.parseInt u (Some 10))) = true).
  { rewrite parseInt_numberRegex by done. simpl.
    apply andb_true_intro. split; [apply Z.leb_le|apply Z.ltb_lt]; lia. }
  destruct (lookup_lt_is_Some_2 flights (Z.to_nat (Js.decimalValue u - 1)))
    as [flight Hf]; [lia|].
  exists flight. split; [done|].
  unfold Cyclic.disambiguateSelection. fold flights.
  rewrite Hu, Horelse, Hre, Hrange.
  rewrite parseInt_numberRegex by done. simpl.
  destruct (Z.leb_spec 0 (Js.decimalValue u - 1)); [|lia].
  by rewrite Hf.
Qed.

Lemma selection_by_number env state w u flight :
  Cyclic.userChoice state = Some u ->
  Js.numberRegex u = true ->
  1 <= Js.decimalValue u ->
  default [] (Cyclic.filteredFlights state) !! Z.to_nat (Js.decimalValue u - 1)
    = Some flight ->
  Cyclic.selection env state w = ([flight], logged (LogSelectedNumber u) w).
Proof.
  intros Hu Hre Hk Hf. unfold Cyclic.selection.
  set (flights := default [] (Cyclic.filteredFlights state)) in *.
  assert (Horelse : Js.orElse (Some u) "" = u) by (by destruct u).
  apply lookup_lt_Some in Hf as Hlt.
  rewrite Hu, Horelse, Hre, parseInt_numberRegex by done. simpl.
  destruct (Z.leb_spec 0 (Js.decimalValue u - 1)); [|lia].
  destruct (Z.ltb_spec (Js.decimalValue u - 1) (Z.of_nat (length flights))); [|lia].
  simpl. by rewrite Hf.
Qed.

(** ** The circular workflow: the claims *)

(** The circular workflow selects by number.  With at least three flights
    retrieved, the first call of a new session pauses with the question of
    [requestChoice], and resuming with "3" completes the session with
    exactly the third flight in [filteredFlights], the chat model not
    being called.  The same holds of every session paused at
    [requestChoice] whose state holds at least three flights.  In general
    a reply matched by [/^\d+$/] whose number [k] is between 1 and the
    number of flights makes [disambiguateSelection] return the flight of
    index [k - 1], by a handler that holds no call of the chat model. *)
Lemma cyclic_third_flight :
  (∀ env fuel sid store w q,
     store !! sid = None ->
     (3 <= length (vectorStore env (Some q) 10))%nat ->
     ∃ third r1 r2,
       vectorStore env (Some q) 10 !! 2%nat = Some third
       ∧ Engine.invoke env Cyclic.workflow (3 + fuel) (Cyclic.obj_input q) sid store w
         = Some r1
       ∧ Engine.outcome r1 = Engine.Suspended {| question := Cyclic.refineQuestion |}
       ∧ Engine.resume env Cyclic.workflow (5 + fuel)
           {| Engine.sessionId := sid; Engine.value := "3" |}
           (Engine.checkpoints r1) (Engine.world r1) = Some r2
       ∧ Engine.outcome r2
         = Engine.Completed
             {| Cyclic.input := Some q; Cyclic.filteredFlights := Some [third];
                Cyclic.options := None; Cyclic.selectedCountry := None;
                Cyclic.selectedCity := None; Cyclic.selectedAirport := None;
                Cyclic.userChoice := Some "3" |}
       ∧ llmCalls (Engine.world r2) = llmCalls w)
  ∧ (∀ env fuel sid store w ck p k,
       store !! sid = Some ck ->
       Engine.cursor ck = "requestChoice" ->
       Engine.pending ck = Some (p, k) ->
       (∀ v, k v = Ret (Cyclic.obj_userChoice v)) ->
       (3 <= length (default [] (Cyclic.filteredFlights (Engine.state ck))))%nat ->
       ∃ third r,
         default [] (Cyclic.filteredFlights (Engine.state ck)) !! 2%nat = Some third
         ∧ Engine.resume env Cyclic.workflow (5 + fuel)
             {| Engine.sessionId := sid; Engine.value := "3" |} store w = Some r
         ∧ Engine.outcome r
           = Engine.Completed
               (Engine.merge (Engine.merge (Engine.state ck) (Cyclic.obj_userChoice "3"))
                  (Cyclic.obj_filteredFlights [third]))
         ∧ llmCalls (Engine.world r) = llmCalls w)
  ∧ (∀ state u,
       Cyclic.userChoice state = Some u ->
       Js.numberRegex u = true ->
       1 <= Js.decimalValue u
         <= Z.of_nat (length (default [] (Cyclic.filteredFlights state))) ->
       ∃ flight,
         default [] (Cyclic.filteredFlights state) !! Z.to_nat (Js.decimalValue u - 1)
           = Some flight
         ∧ Cyclic.disambiguateSelection state
           = ConsoleLog (LogSelectedNumber u)
               (Ret (Cyclic.obj_filteredFlights [flight]))).
Proof.
  assert (Hpaused : ∀ env fuel sid store w ck p k,
       store !! sid = Some ck ->
       Engine.cursor ck = "requestChoice" ->
       Engine.pending ck = Some (p, k) ->
       (∀ v, k v = Ret (Cyclic.obj_userChoice v)) ->
       (3 <= length (default [] (Cyclic.filteredFlights (Engine.state ck))))%nat ->
       ∃ third r,
         default [] (Cyclic.filteredFlights (Engine.state ck)) !! 2%nat = Some third
         ∧ Engine.resume env Cyclic.workflow (5 + fuel)
             {| Engine.sessionId := sid; Engine.value := "3" |} store w = Some r
         ∧ Engine.outcome r
           = Engine.Completed
               (Engine.merge (Engine.merge (Engine.state ck) (Cyclic.obj_userChoice "3"))
                  (Cyclic.obj_filteredFlights [third]))
         ∧ llmCalls (Engine.world r) = llmCalls w).
  { intros env fuel sid store w ck p k Hck Hc Hp Hk Hlen.
    destruct (lookup_lt_is_Some_2 (default [] (Cyclic.filteredFlights (Engine.state ck))) 2)
      as [third Hthird]; [lia|].
    destruct (cyclic_resume_refines env fuel sid store w ck p k "3" Hck Hc Hp Hk)
      as (r & Hresume & Hllm & Hone & _).
    rewrite (selection_by_number env _ _ "3" third) in Hone, Hllm by done.
    destruct Hone as [Hout _]; [done|].
    by exists third, r. }
  split; [|split; [exact Hpaused|exact disambiguateSelection_by_number]].
  intros env fuel sid store w q Hs Hlen.
  destruct (cyclic_invoke_suspends env fuel sid store w q Hs)
    as (k & w1 & Hk & Hentered & Hcalls & Hinvoke); [lia|].
  set (ck := {| Engine.state := _; Engine.cursor := "requestChoice";
                Engine.pending := Some (_, k) |}) in Hinvoke.
  destruct (Hpaused env fuel sid (<[sid := ck]> store) w1 ck
              {| question := Cyclic.refineQuestion |} k)
    as (third & r2 & Hthird & Hresume & Hout & Hllm);
    [apply lookup_insert_eq|done|done|done|done|].
  eexists third, _, r2. split; [done|]. split; [exact Hinvoke|].
  split; [done|]. split; [exact Hresume|]. split; [exact Hout|].
  by rewrite Hllm.
Qed.

(** C2. The show, ask, filter cycle.  The routing function of
    [showFlights] returns "final" exactly when [filteredFlights] holds one
    flight and "continue" otherwise; "final" leads to [showFinalFlight] and
    from there to the end, "continue" to [requestChoice], and
    [disambiguateSelection] leads back to [showFlights].  So a resumed call
    passes [disambiguateSelection] and [showFlights] and then completes
    through [showFinalFlight] when one flight is left, and pauses again at
    [requestChoice] otherwise.  In the recorded session the ten flights
    are filtered to five, two and one: [main] pauses after the first and
    the second answer and completes at the third resume call. *)
Theorem show_ask_filter_cycle :
  (∀ st, Cyclic.showFlightsRouter st = "final"
         ↔ length (default [] (Cyclic.filteredFlights st)) = 1%nat)
  ∧ (∀ st, Cyclic.showFlightsRouter st = "continue"
           ↔ length (default [] (Cyclic.filteredFlights st)) ≠ 1%nat)
  ∧ (∀ st, Engine.nextCursor Cyclic.workflow "showFlights" st
           = Some (if decide (length (default [] (Cyclic.filteredFlights st)) = 1%nat)
                   then "showFinalFlight" else "requestChoice"))
  ∧ (∀ st, Engine.nextCursor Cyclic.workflow "requestChoice" st
           = Some "disambiguateSelection"
         ∧ Engine.nextCursor Cyclic.workflow "disambiguateSelection" st
           = Some "showFlights"
         ∧ Engine.nextCursor Cyclic.workflow "showFinalFlight" st = Some Engine.END)
  ∧ (∀ env fuel sid store w ck p k v,
       store !! sid = Some ck ->
       Engine.cursor ck = "requestChoice" ->
       Engine.pending ck = Some (p, k) ->
       (∀ v, k v = Ret (Cyclic.obj_userChoice v)) ->
       let s1 := Engine.merge (Engine.state ck) (Cyclic.obj_userChoice v) in
       let flights := (Cyclic.selection env s1 (enter "disambiguateSelection" w)).1 in
       let s2 := Engine.merge s1 (Cyclic.obj_filteredFlights flights) in
       ∃ r,
         Engine.resume env Cyclic.workflow (5 + fuel)
           {| Engine.sessionId := sid; Engine.value := v |} store w = Some r
         ∧ (length flights = 1%nat ->
              Engine.outcome r = Engine.Completed s2
              ∧ entered (Engine.world r)
                = entered w ++ ["disambiguateSelection"; "showFlights"; "showFinalFlight"])
         ∧ (length flights ≠ 1%nat ->
              Engine.outcome r = Engine.Suspended {| question := Cyclic.refineQuestion |}
              ∧ entered (Engine.world r)
                = entered w ++ ["disambiguateSelection"; "showFlights"; "requestChoice"]
              ∧ ∃ k', (∀ v, k' v = Ret (Cyclic.obj_userChoice v))
                  ∧ Engine.checkpoints r !! sid
                    = Some {| Engine.state := s2; Engine.cursor := "requestChoice";
                              Engine.pending :=
                                Some ({| question := Cyclic.refineQuestion |}, k') |}))
  ∧ (∀ fuel n,
       (fun '(r, resumes) =>
          (Engine.outcome r, resumes, Scenario.counts (console (Engine.world r))))
         <$> Cyclic.main Scenario.env (5 + fuel) (take n Scenario.lines)
       = Some
           match n with
           | 0%nat =>
               (Engine.Suspended {| question := Cyclic.refineQuestion |}, 0%nat, [10%nat])
           | 1%nat =>
               (Engine.Suspended {| question := Cyclic.refineQuestion |}, 1%nat,
                [10%nat; 5%nat])
           | 2%nat =>
               (Engine.Suspended {| question := Cyclic.refineQuestion |}, 2%nat,
                [10%nat; 5%nat; 2%nat])
           | _ =>
               (Engine.Completed
                  {| Cyclic.input := Some Cyclic.userQuestion;
                     Cyclic.filteredFlights := Some [Scenario.haneda];
                     Cyclic.options := None; Cyclic.selectedCountry := None;
                     Cyclic.selectedCity := None; Cyclic.selectedAirport := None;
                     Cyclic.userChoice := Some "I'll take the Haneda flight" |},
                3%nat, [10%nat; 5%nat; 2%nat; 1%nat])
           end).
Proof.
  split; [exact showFlightsRouter_final|].
  split; [exact showFlightsRouter_continue|].
  split; [exact nextCursor_showFlights|].
  split; [done|].
  split.
  - intros env fuel sid store w ck p k v Hck Hc Hp Hk s1 flights s2.
    destruct (cyclic_resume_refines env fuel sid store w ck p k v Hck Hc Hp Hk)
      as (r & Hr & _ & Hone & Hmany).
    by exists r.
  - intros fuel n.
    destruct n as [|[|[|n]]]; [by vm_compute..|].
    rewrite take_ge by (simpl; lia). by vm_compute.
Qed.

(** ** Frame of a partial update *)

Lemma cyclic_merge_frame ch (old new : Cyclic.SupportState) :
  Cyclic.channel ch new = None ->
  Cyclic.channel ch (Engine.merge old new) = Cyclic.channel ch old.
Proof.
  destruct new, ch; simpl; intros H;
    match type of H with _ <$> ?x = None => destruct x; [done|reflexivity] end.
Qed.

Lemma cyclic_merge_write ch (old new : Cyclic.SupportState) v :
  Cyclic.channel ch new = Some v ->
  Cyclic.channel ch (Engine.merge old new) = Some v.
Proof.
  destruct new, ch; simpl; intros H;
    match type of H with _ <$> ?x = Some _ => destruct x; [exact H|done] end.
Qed.

Lemma linear_merge_frame ch (old new : Linear.SupportState) :
  Linear.channel ch new = None ->
  Linear.channel ch (Engine.merge old new) = Linear.channel ch old.
Proof.
  destruct new, ch; simpl; intros H;
    match type of H with _ <$> ?x = None => destruct x; [done|reflexivity] end.
Qed.

Lemma linear_merge_write ch (old new : Linear.SupportState) v :
  Linear.channel ch new = Some v ->
  Linear.channel ch (Engine.merge old new) = Some v.
Proof.
  destruct new, ch; simpl; intros H;
    match type of H with _ <$> ?x = Some _ => destruct x; [exact H|done] end.
Qed.

(** C8. A channel that is absent from the partial update a node returns
    keeps its value in the merge, and a channel that is present takes the
    new one.  [requestChoice] pauses with the state it was given in the
    checkpoint, untouched; resumed with [v], it sets [userChoice] to [v]
    and leaves every other channel, [input] and [filteredFlights] among
    them, as it was before the pause.  [retrieveFlights] sets [candidates]
    and leaves every other channel, [input] among them. *)
Theorem absent_channels_are_kept :
  (∀ ch (old new : Cyclic.SupportState),
     (Cyclic.channel ch new = None ->
      Cyclic.channel ch (Engine.merge old new) = Cyclic.channel ch old)
     ∧ (∀ v, Cyclic.channel ch new = Some v ->
             Cyclic.channel ch (Engine.merge old new) = Some v))
  ∧ (∀ ch (old new : Linear.SupportState),
       (Linear.channel ch new = None ->
        Linear.channel ch (Engine.merge old new) = Linear.channel ch old)
       ∧ (∀ v, Linear.channel ch new = Some v ->
               Linear.channel ch (Engine.merge old new) = Some v))
  ∧ (∀ env sid s store w,
       ∃ k,
         Engine.superstep env Cyclic.workflow sid None s "requestChoice" [] store w
           = Engine.Stop
               {| Engine.outcome := Engine.Suspended {| question := Cyclic.refineQuestion |};
                  Engine.checkpoints :=
                    <[sid := {| Engine.state := s; Engine.cursor := "requestChoice";
                                Engine.pending :=
                                  Some ({| question := Cyclic.refineQuestion |}, k) |}]> store;
                  Engine.world := enter "requestChoice" w |}
         ∧ ∀ v store' w',
             ∃ s',
               Engine.superstep env Cyclic.workflow sid (Some (k v)) s "requestChoice" []
                 store' w'
                 = Engine.Continue s' "disambiguateSelection" []
                     (<[sid := {| Engine.state := s'; Engine.cursor := "disambiguateSelection";
                                  Engine.pending := None |}]> store') w'
               ∧ Cyclic.userChoice s' = Some v
               ∧ Cyclic.input s' = Cyclic.input s
               ∧ Cyclic.filteredFlights s' = Cyclic.filteredFlights s
               ∧ ∀ ch, ch ≠ Cyclic.UserChoice ->
                       Cyclic.channel ch s' = Cyclic.channel ch s)
  ∧ (∀ env sid s answers store w,
       ∃ s' w',
         Engine.superstep env Linear.workflow sid None s "retrieveFlights" answers store w
           = Engine.Continue s' "evaluateResults" answers
               (<[sid := {| Engine.state := s'; Engine.cursor := "evaluateResults";
                            Engine.pending := None |}]> store) w'
         ∧ Linear.candidates s' = Some (take 2 (vectorStore env (Linear.input s) 5))
         ∧ Linear.input s' = Linear.input s
         ∧ ∀ ch, ch ≠ Linear.Candidates ->
                 Linear.channel ch s' = Linear.channel ch s).
Proof.
  split; [|split; [|split]].
  - intros ch old new. split; [apply cyclic_merge_frame|].
    intros v. apply cyclic_merge_write.
  - intros ch old new. split; [apply linear_merge_frame|].
    intros v. apply linear_merge_write.
  - intros env sid s store w. eexists. split.
    + erewrite superstep_paused; [reflexivity|reflexivity|reflexivity|reflexivity].
    + intros v store' w'. eexists. split.
      * erewrite superstep_finished;
          [reflexivity|reflexivity|reflexivity|reflexivity|reflexivity].
      * destruct s. repeat split; try done. by intros [].
  - intros env sid s answers store w. eexists _, _. split.
    + erewrite superstep_finished;
        [reflexivity|reflexivity|reflexivity|apply runNode_retrieveFlights|reflexivity].
    + destruct s. repeat split; try done. by intros [].
Qed.

(** ** Reaching [showFinalFlight] *)

Lemma nextCursor_showFinalFlight c s :
  Engine.nextCursor Cyclic.workflow c s = Some "showFinalFlight" ->
  c = "showFlights" ∧ length (default [] (Cyclic.filteredFlights s)) = 1%nat.
Proof.
  cbv [Engine.nextCursor Cyclic.workflow Engine.addNode Engine.addEdge
       Engine.addConditionalEdges Engine.newStateGraph Engine.conditionalEdges
       Engine.edges Engine.nodes app Engine.assoc].
  destruct (String.eqb_spec "showFlights" c) as [<-|_].
  - unfold Cyclic.showFlightsRouter. by case_decide.
  - repeat (destruct (String.eqb _ c); [done|]). done.
Qed.

(** C10. Whenever the cursor of the circular workflow is at
    [showFinalFlight], [filteredFlights] holds exactly one flight: the
    cursor got there from [showFlights] on the label "final".  So
    [flights[0]] is that flight, and [showFinalFlight] writes the final
    result, not the line of its "No flight found" branch. *)
Theorem showFinalFlight_has_one_flight env s :
  Cyclic.reachable env s "showFinalFlight" ->
  ∃ flight,
    Cyclic.filteredFlights s = Some [flight]
    ∧ default [] (Cyclic.filteredFlights s) !! 0%nat = Some flight
    ∧ Cyclic.showFinalFlight s
      = ConsoleLog (LogFinalResult (metadata flight)) (Ret Cyclic.obj)
    ∧ ∀ answers w,
        runNode env (Cyclic.showFinalFlight s) answers w
          = (Finished Cyclic.obj (logged (LogFinalResult (metadata flight)) w), answers).
Proof.
  intros Hreach.
  assert (Hone : length (default [] (Cyclic.filteredFlights s)) = 1%nat).
  { inversion Hreach as [input c Hstart|sid slot s0 c0 answers store w s' c' answers' store' w' _ Hstep];
      subst.
    - by cbn in Hstart.
    - apply superstep_merges in Hstep as (u & _ & Hnext).
      by apply nextCursor_showFinalFlight in Hnext as [_ ?]. }
  destruct (Cyclic.filteredFlights s) as [[|flight [|? ?]]|] eqn:Hf; try done.
  exists flight. split; [done|]. split; [done|]. split.
  - unfold Cyclic.showFinalFlight. by rewrite Hf.
  - intros answers w. apply runNode_showFinalFlight. by rewrite Hf.
Qed.

(** ** The theorems at the recorded session *)

Lemma single_candidate_completes_witness :
  (∅ : gmap string (Engine.Checkpoint Linear.SupportState)) !! Linear.thread_id = None
  ∧ vectorStore Scenario.single (Some Linear.userQuestion) 5 = [Scenario.haneda]
  ∧ Engine.outcome <$>
      Engine.invoke Scenario.single Linear.workflow (3 + 0)
        (Linear.obj_input Linear.userQuestion) Linear.thread_id ∅ newWorld
    = Some (Engine.Completed
              {| Linear.input := Some Linear.userQuestion;
                 Linear.candidates := Some [Scenario.haneda];
                 Linear.userChoice := None;
                 Linear.selected := Some Scenario.haneda;
                 Linear.final :=
                   Some (Linear.formatFlightDetails (metadata Scenario.haneda)) |}).
Proof.
  split; [reflexivity|]. split; [reflexivity|].
  destruct (single_candidate_completes Scenario.single 0 Linear.thread_id ∅ newWorld
              Linear.userQuestion Scenario.haneda (lookup_empty _) eq_refl) as [H _].
  rewrite H. reflexivity.
Defined.

Lemma absent_channels_are_kept_witness :
  Cyclic.channel Cyclic.FilteredFlights (Cyclic.obj_userChoice "3") = None
  ∧ Cyclic.channel Cyclic.FilteredFlights
      (Engine.merge Scenario.retrieved (Cyclic.obj_userChoice "3"))
    = Cyclic.channel Cyclic.FilteredFlights Scenario.retrieved.
Proof.
  split; [reflexivity|].
  exact (proj1 (proj1 absent_channels_are_kept Cyclic.FilteredFlights Scenario.retrieved
                  (Cyclic.obj_userChoice "3")) eq_refl).
Defined.

Lemma show_ask_filter_cycle_witness :
  (<[Cyclic.thread_id := Scenario.asked]> ∅ : gmap string _) !! Cyclic.thread_id
    = Some Scenario.asked
  ∧ Engine.cursor Scenario.asked = "requestChoice"
  ∧ Engine.pending Scenario.asked
    = Some ({| question := Cyclic.refineQuestion |},
            fun v => Ret (Cyclic.obj_userChoice v))
  ∧ (∀ v, (fun v => Ret (Cyclic.obj_userChoice v)) v = Ret (Cyclic.obj_userChoice v))
  ∧ ∃ r,
      Engine.resume Scenario.env Cyclic.workflow (5 + 0)
        {| Engine.sessionId := Cyclic.thread_id;
           Engine.value := "I'm looking for flights to Japan" |}
        (<[Cyclic.thread_id := Scenario.asked]> ∅) (enter "requestChoice" newWorld)
        = Some r
      ∧ Engine.outcome r = Engine.Suspended {| question := Cyclic.refineQuestion |}.
Proof.
  assert (Hck : (<[Cyclic.thread_id := Scenario.asked]> ∅ : gmap string _)
                  !! Cyclic.thread_id = Some Scenario.asked)
    by apply lookup_insert_eq.
  split; [exact Hck|]. split; [reflexivity|]. split; [reflexivity|].
  split; [reflexivity|].
  destruct (proj1 (proj2 (proj2 (proj2 (proj2 show_ask_filter_cycle))))
              Scenario.env 0%nat Cyclic.thread_id
              (<[Cyclic.thread_id := Scenario.asked]> ∅) (enter "requestChoice" newWorld)
              Scenario.asked {| question := Cyclic.refineQuestion |}
              (fun v => Ret (Cyclic.obj_userChoice v))
              "I'm looking for flights to Japan" Hck eq_refl eq_refl
              (fun v => eq_refl))
    as (r & Hr & _ & Hmany).
  exists r. split; [exact Hr|].
  apply Hmany. vm_compute. lia.
Defined.

Lemma showFinalFlight_has_one_flight_witness :
  Cyclic.reachable Scenario.single Scenario.found "showFinalFlight"
  ∧ ∃ flight,
      Cyclic.filteredFlights Scenario.found = Some [flight]
      ∧ Cyclic.showFinalFlight Scenario.found
        = ConsoleLog (LogFinalResult (metadata flight)) (Ret Cyclic.obj).
Proof.
  assert (Hreach : Cyclic.reachable Scenario.single Scenario.found "showFinalFlight").
  { eapply (Cyclic.reachable_step Scenario.single Cyclic.thread_id None
              Scenario.found "showFlights" [] ∅ newWorld Scenario.found "showFinalFlight").
    - eapply (Cyclic.reachable_step Scenario.single Cyclic.thread_id None
                (Cyclic.obj_input Cyclic.userQuestion) "initialize" [] ∅ newWorld
                Scenario.found "showFlights").
      + exact (Cyclic.reachable_start Scenario.single
                 (Cyclic.obj_input Cyclic.userQuestion) "initialize" eq_refl).
      + reflexivity.
    - reflexivity. }
  split; [exact Hreach|].
  destruct (showFinalFlight_has_one_flight Scenario.single Scenario.found Hreach)
    as (flight & Hf & _ & Hshow & _).
  by exists flight.
Defined.

(** * Further properties of the sources *)

(** ** The number shown beside a flight *)

Lemma allDigits_uint d : Js.allDigits (NilEmpty.string_of_uint d) = true.
Proof. induction d; simpl; [done|by rewrite IHd..]. Qed.

Lemma decimalFrom_uint_acc d acc :
  Js.decimalFrom (Zpos acc) (NilEmpty.string_of_uint d) = Zpos (Pos.of_uint_acc d acc).
Proof.
  revert acc. induction d; intros acc; cbn [NilEmpty.string_of_uint Js.decimalFrom
    Pos.of_uint_acc]; [done|..];
    match goal with
    | |- Js.decimalFrom ?z _ = Zpos (Pos.of_uint_acc _ ?a) =>
        replace z with (Zpos a) by (vm_compute Js.codeUnit; lia)
    end; apply IHd.
Qed.

Lemma decimalFrom_uint d :
  Js.decimalFrom 0 (NilEmpty.string_of_uint d) = Z.of_N (Pos.of_uint d).
Proof.
  induction d; cbn [NilEmpty.string_of_uint Js.decimalFrom Pos.of_uint]; [done|..];
    match goal with
    | |- Js.decimalFrom ?z _ = Z.of_N (Pos.of_uint _) =>
        change z with 0; exact IHd
    | |- Js.decimalFrom ?z _ = Z.of_N (Npos (Pos.of_uint_acc _ ?a)) =>
        change z with (Zpos a); apply decimalFrom_uint_acc
    end.
Qed.

(** The decimal rendering of a positive integer is matched by [/^\d+$/]
    and denotes that integer. *)
Lemma numberToString_positive p :
  Js.numberRegex (Js.numberToString (Zpos p)) = true
  ∧ Js.decimalValue (Js.numberToString (Zpos p)) = Zpos p.
Proof.
  assert (Hv : Js.decimalValue (Js.numberToString (Zpos p)) = Zpos p).
  { unfold Js.decimalValue, Js.numberToString.
    by rewrite decimalFrom_uint, DecimalPos.Unsigned.of_to. }
  split; [|done].
  unfold Js.numberToString in *.
  pose proof (allDigits_uint (Pos.to_uint p)) as Hd.
  destruct (NilEmpty.string_of_uint (Pos.to_uint p)); [done|].
  exact Hd.
Qed.

Lemma flightLines_title flights i j flight :
  flights !! i = Some flight ->
  LogFlightTitle (j + i + 1)%nat (metadata flight) ∈ Cyclic.flightLines j flights.
Proof.
  revert i j. induction flights as [|f rest IH]; intros i j Hi; [done|].
  destruct i as [|i]; simpl in *.
  - injection Hi as ->. rewrite Nat.add_0_r. apply elem_of_cons. by left.
  - do 3 (apply elem_of_cons; right).
    replace (j + S i + 1)%nat with (S j + i + 1)%nat by lia. by apply IH.
Qed.

(** X1. The number [showFlights] writes before a flight selects that
    flight: when more than one flight is shown, the flight at index [i] is
    written with the number [i + 1], and a reply that is the decimal
    rendering of that number makes [disambiguateSelection] return that
    flight alone, by a handler that holds no call of the chat model. *)
Theorem number_shown_selects_flight env state answers w i flight :
  let flights := default [] (Cyclic.filteredFlights state) in
  let reply := Js.numberToString (Z.of_nat (i + 1)) in
  flights !! i = Some flight ->
  length flights ≠ 1%nat ->
  Cyclic.userChoice state = Some reply ->
  (∃ w', runNode env (Cyclic.showFlights state) answers w
           = (Finished (Cyclic.obj_filteredFlights flights) w', answers)
         ∧ LogFlightTitle (i + 1)%nat (metadata flight) ∈ console w')
  ∧ Cyclic.disambiguateSelection state
    = ConsoleLog (LogSelectedNumber reply) (Ret (Cyclic.obj_filteredFlights [flight])).
Proof.
  intros flights reply Hi Hlen Hu. split.
  - eexists. split; [apply runNode_showFlights|].
    fold flights. unfold Cyclic.showFlightsLines. rewrite decide_False by done.
    unfold loggedAll. cbn [console]. apply elem_of_app. right.
    apply elem_of_cons. right. by apply (flightLines_title flights i 0%nat).
  - assert (Hpos : Z.of_nat (i + 1) = Zpos (Pos.of_nat (i + 1))) by lia.
    unfold reply in *. rewrite Hpos in *.
    destruct (numberToString_positive (Pos.of_nat (i + 1))) as [Hre Hval].
    apply lookup_lt_Some in Hi as Hlt.
    destruct (disambiguateSelection_by_number state _ Hu Hre) as (f & Hf & Htree).
    { rewrite Hval. fold flights. lia. }
    rewrite Hval in Hf. fold flights in Hf.
    replace (Z.to_nat (Zpos (Pos.of_nat (i + 1)) - 1)) with i in Hf by lia.
    congruence.
Qed.

(** X2. A reply that is a number out of range, zero or above the number of
    flights, is not an error and selects nothing by itself:
    [disambiguateSelection] hands it to the chat model, as it does a reply
    that is no number, and keeps the flights whose numbers the chat model
    names. *)
Theorem number_out_of_range_asks_llm state u :
  let flights := default [] (Cyclic.filteredFlights state) in
  Cyclic.userChoice state = Some u ->
  Js.numberRegex u = true ->
  Js.decimalValue u = 0 ∨ Z.of_nat (length flights) < Js.decimalValue u ->
  Cyclic.disambiguateSelection state
    = LlmInvoke u flights (fun content =>
        let kept := omap (Js.index flights) (Cyclic.selectedNumbers content flights) in
        ConsoleLog (LogFiltered (length kept)) (Ret (Cyclic.obj_filteredFlights kept))).
Proof.
  intros flights Hu Hre Hout.
  assert (Horelse : Js.orElse (Some u) "" = u) by (by destruct u).
  unfold Cyclic.disambiguateSelection. fold flights.
  rewrite Hu, Horelse, Hre, parseInt_numberRegex by done.
  assert (Hr : Js.inRange (length flights) (Js.pred (Some (Js.decimalValue u))) = false).
  { simpl. destruct Hout as [->|Hbig].
    - reflexivity.
    - apply andb_false_intro2. apply Z.ltb_ge. lia. }
  by rewrite Hr.
Qed.

(** ** What [disambiguateSelection] keeps *)

(** X3. [disambiguateSelection] never throws and never pauses: for every
    state, answer and reply of the chat model it finishes with an update of
    [filteredFlights] alone, every flight of which is one of the flights
    it was given; it calls the chat model at most once. *)
Theorem disambiguateSelection_keeps_given_flights env state answers w :
  ∃ kept w',
    runNode env (Cyclic.disambiguateSelection state) answers w
      = (Finished (Cyclic.obj_filteredFlights kept) w', answers)
    ∧ (∀ flight, flight ∈ kept -> flight ∈ default [] (Cyclic.filteredFlights state))
    ∧ (llmCalls w' = llmCalls w ∨ llmCalls w' = S (llmCalls w))
    ∧ entered w' = entered w.
Proof.
  eexists _, _. split; [apply runNode_disambiguateSelection|].
  split; [intros flight; apply selection_drawn|].
  split; [|apply selection_entered].
  unfold Cyclic.selection. destruct (_ && _); simpl; auto.
Qed.

Lemma trimEnd_ones n : Js.trimEnd (ones n) = ones n.
Proof.
  induction n as [|n IH]; [done|].
  cbn [ones Js.trimEnd]. rewrite IH. by destruct n.
Qed.

Lemma trim_ones n : Js.trim (ones n) = ones n.
Proof.
  unfold Js.trim.
  replace (Js.trimStart (ones n)) with (ones n) by (by destruct n).
  apply trimEnd_ones.
Qed.

Lemma split_ones n : Js.split ","%char (ones n) = replicate (S n) "1".
Proof.
  induction n as [|n IH]; [done|].
  cbn [ones]. cbn [Js.split].
  change (Ascii.eqb "1" ",") with false. change (Ascii.eqb "," ",") with true.
  cbn iota. by rewrite IH.
Qed.

Lemma selectedNumbers_ones n first rest :
  omap (Js.index (first :: rest)) (Cyclic.selectedNumbers (ones n) (first :: rest))
    = replicate (S n) first.
Proof.
  unfold Cyclic.selectedNumbers. rewrite trim_ones, split_ones.
  generalize (S n). intros m. induction m as [|m IH]; [done|].
  cbn [replicate fmap list_fmap]. rewrite filter_cons.
  change (Js.pred (Js.parseInt (Js.trim "1") (Some 10))) with (Some 0).
  rewrite decide_True by (simpl; destruct (length rest); done).
  cbn [omap list_omap]. change (Js.index (first :: rest) (Some 0)) with (Some first).
  cbn iota beta. by rewrite IH.
Qed.

(** X4. [disambiguateSelection] does not remove repetitions and does not
    bound what it returns by what it was given: to an answer that is no
    number, a reply of the chat model that names the first flight [n + 1]
    times makes it return that flight [n + 1] times, whatever the number
    of flights. *)
Theorem reply_can_repeat_a_flight env state answers w first rest n :
  Cyclic.filteredFlights state = Some (first :: rest) ->
  Js.numberRegex (Js.orElse (Cyclic.userChoice state) "") = false ->
  llm env (llmCalls w) (Js.orElse (Cyclic.userChoice state) "") (first :: rest) = ones n ->
  runNode env (Cyclic.disambiguateSelection state) answers w
    = (Finished (Cyclic.obj_filteredFlights (replicate (S n) first))
         (logged (LogFiltered (S n)) (called w)), answers).
Proof.
  intros Hf Hre Hllm.
  rewrite runNode_disambiguateSelection. unfold Cyclic.selection.
  rewrite Hf, Hre. cbn [default andb fst snd id]. rewrite Hllm.
  by rewrite selectedNumbers_ones, length_replicate.
Qed.

(** ** The loop of [main] in [src/main.ts] *)

(** The first call of a new session for which one flight was retrieved
    completes at once. *)
Lemma cyclic_invoke_completes env fuel sid store w q flight :
  store !! sid = None ->
  vectorStore env (Some q) 10 = [flight] ->
  ∃ r,
    Engine.invoke env Cyclic.workflow (4 + fuel) (Cyclic.obj_input q) sid store w = Some r
    ∧ Engine.outcome r
      = Engine.Completed
          {| Cyclic.input := Some q; Cyclic.filteredFlights := Some [flight];
             Cyclic.options := None; Cyclic.selectedCountry := None;
             Cyclic.selectedCity := None; Cyclic.selectedAirport := None;
             Cyclic.userChoice := None |}.
Proof.
  intros Hs Hv. eexists. split.
  - unfold Engine.invoke. rewrite Hs.
    change (Engine.assoc Engine.START (Engine.edges Cyclic.workflow))
      with (Some "initialize").
    change (4 + fuel)%nat with (S (S (S (S fuel)))). cbv iota beta.
    superstep_finishes ltac:(apply runNode_initialize).
    cyclic_state. rewrite Hv.
    superstep_routes ltac:(apply runNode_showFlights) ltac:(apply nextCursor_showFlights).
    cyclic_state. cbn [default id length]. rewrite decide_True by done.
    superstep_finishes ltac:(by apply (runNode_showFinalFlight env _ flight)).
    cyclic_state.
    by rewrite run_S, superstep_end.
  - reflexivity.
Qed.

Lemma merge_userChoice_flights (s : Cyclic.SupportState) v :
  Cyclic.filteredFlights (Engine.merge s (Cyclic.obj_userChoice v))
    = Cyclic.filteredFlights s.
Proof. by destruct s as [? [] ? ? ? ? ?]. Qed.

Lemma merge_filteredFlights (s : Cyclic.SupportState) flights :
  Cyclic.filteredFlights (Engine.merge s (Cyclic.obj_filteredFlights flights))
    = Some flights.
Proof. done. Qed.

(** One more line of the operator, for a session that waits. *)
Lemma mainLoop_step env fuel line rest n r P p :
  Engine.outcome r = Engine.Suspended p ->
  Session.waiting P r ->
  ∃ ck r2,
    Engine.checkpoints r !! Cyclic.thread_id = Some ck ∧ P (Engine.state ck)
    ∧ Cyclic.mainLoop env (5 + fuel) (line :: rest) n r
      = Cyclic.mainLoop env (5 + fuel) rest (S n) r2
    ∧ let s1 := Engine.merge (Engine.state ck) (Cyclic.obj_userChoice (Js.trim line)) in
      let picked := Cyclic.selection env s1
                      (enter "disambiguateSelection" (logged LogPaused (Engine.world r))) in
      llmCalls (Engine.world r2) = llmCalls picked.2
      ∧ (length picked.1 = 1%nat ->
           Engine.outcome r2
           = Engine.Completed (Engine.merge s1 (Cyclic.obj_filteredFlights picked.1)))
      ∧ (length picked.1 ≠ 1%nat ->
           Engine.outcome r2 = Engine.Suspended {| question := Cyclic.refineQuestion |}
           ∧ Session.waiting
               (fun s => s = Engine.merge s1 (Cyclic.obj_filteredFlights picked.1)) r2).
Proof.
  intros Hout (ck & p0 & k & Hck & Hc & Hp & Hk & HP).
  destruct (cyclic_resume_refines env fuel Cyclic.thread_id (Engine.checkpoints r)
              (logged LogPaused (Engine.world r)) ck p0 k (Js.trim line) Hck Hc Hp Hk)
    as (r2 & Hresume & Hllm & Hone & Hmany).
  exists ck, r2. split; [done|]. split; [done|]. split.
  - cbn [Cyclic.mainLoop]. rewrite Hout. cbv zeta. by rewrite Hresume.
  - cbv zeta. split; [done|]. split.
    + intros H1. by destruct (Hone H1).
    + intros Hn. destruct (Hmany Hn) as (Ho & _ & k' & Hk' & Hck').
      split; [done|]. eexists _, _, k'. split; [exact Hck'|]. by repeat split.
Qed.

Lemma mainLoop_sound env fuel retrieved stdin n r :
  Session.sound retrieved r ->
  ∃ r' n',
    Cyclic.mainLoop env (5 + fuel) stdin n r = Some (r', n')
    ∧ Session.sound retrieved r'
    ∧ (n <= n' <= n + length stdin)%nat
    ∧ ((∃ p, Engine.outcome r' = Engine.Suspended p) -> n' = (n + length stdin)%nat).
Proof.
  revert n r. induction stdin as [|line rest IH]; intros n r Hsound.
  - exists r, n. split; [simpl; by destruct (Engine.outcome r)|].
    split; [done|]. simpl. split; [lia|]. intros _. lia.
  - pose proof Hsound as Hs. unfold Session.sound in Hs.
    destruct (Engine.outcome r) as [s|p|e] eqn:Hout; [| |done].
    + exists r, n. split; [by cbn [Cyclic.mainLoop]; rewrite Hout|].
      split; [done|]. split; [simpl; lia|]. intros [p Hp]. congruence.
    + destruct (mainLoop_step env fuel line rest n r _ p Hout Hs)
        as (ck & r2 & Hck & Hdrawn & Hloop & _ & Hone & Hmany).
      cbv zeta in Hone, Hmany.
      set (s1 := Engine.merge (Engine.state ck) (Cyclic.obj_userChoice (Js.trim line))) in *.
      set (picked := Cyclic.selection env s1 _) in *.
      assert (Hpicked : ∀ flight, flight ∈ picked.1 -> flight ∈ retrieved).
      { intros flight Hin. apply Hdrawn. apply selection_drawn in Hin.
        unfold s1 in Hin. by rewrite merge_userChoice_flights in Hin. }
      assert (Hsound2 : Session.sound retrieved r2).
      { unfold Session.sound.
        destruct (decide (length picked.1 = 1%nat)) as [H1|Hn].
        - rewrite (Hone H1). rewrite merge_filteredFlights.
          destruct picked.1 as [|flight [|? ?]] eqn:Hp; try done.
          exists flight. split; [done|]. apply Hpicked. apply elem_of_cons. by left.
        - destruct (Hmany Hn) as [Ho (ck' & p' & k' & Hck' & Hc' & Hp' & Hk' & Heq)].
          rewrite Ho. exists ck', p', k'. repeat split; try done.
          intros flight. rewrite Heq, merge_filteredFlights. apply Hpicked. }
      destruct (IH (S n) r2 Hsound2) as (r' & n' & Hrest & Hs' & Hle & Hsusp).
      exists r', n'. split; [by rewrite Hloop|]. split; [done|].
      simpl. split; [lia|]. intros Hp'. rewrite (Hsusp Hp'). lia.
Qed.

(** The calls [main] of [src/main.ts] makes after the ingestion: whatever
    the vector store returns, the operator types and the chat model
    replies, none of them fails.  When they end, [filteredFlights] holds
    exactly one flight, one of those the vector store returned for the
    question; otherwise the session waits at [requestChoice] with flights
    drawn from them, every line typed having been used for one resume
    call. *)
Lemma cyclic_main_sound env fuel stdin :
  ∃ r resumes,
    Cyclic.main env (5 + fuel) stdin = Some (r, resumes)
    ∧ Session.sound (vectorStore env (Some Cyclic.userQuestion) 10) r
    ∧ (resumes <= length stdin)%nat
    ∧ ((∃ p, Engine.outcome r = Engine.Suspended p) -> resumes = length stdin).
Proof.
  unfold Cyclic.main.
  set (retrieved := vectorStore env (Some Cyclic.userQuestion) 10).
  set (w := logged (LogSearching Cyclic.userQuestion) newWorld).
  assert (∃ r0, Engine.invoke env Cyclic.workflow (5 + fuel)
                  (Cyclic.obj_input Cyclic.userQuestion) Cyclic.thread_id ∅ w = Some r0
                ∧ Session.sound retrieved r0) as (r0 & Hinvoke & Hsound).
  { destruct (decide (length retrieved = 1%nat)) as [H1|Hn].
    - destruct retrieved as [|flight [|? ?]] eqn:Hr; try done.
      destruct (cyclic_invoke_completes env (S fuel) Cyclic.thread_id ∅ w
                  Cyclic.userQuestion flight (lookup_empty _) Hr) as (r0 & Hr0 & Hout).
      exists r0. split; [exact Hr0|]. unfold Session.sound. rewrite Hout.
      exists flight. split; [done|]. apply elem_of_cons. by left.
    - destruct (cyclic_invoke_suspends env (S (S fuel)) Cyclic.thread_id ∅ w
                  Cyclic.userQuestion (lookup_empty _) Hn)
        as (k & w1 & Hk & _ & _ & Hr0).
      eexists. split; [exact Hr0|]. unfold Session.sound. cbn [Engine.outcome].
      eexists _, _, k. split; [apply lookup_insert_eq|].
      split; [reflexivity|]. split; [reflexivity|]. split; [exact Hk|].
      by intros flight Hin. }
  rewrite Hinvoke. cbn [mbind option_bind].
  destruct (mainLoop_sound env fuel retrieved stdin 0%nat r0 Hsound)
    as (r & n & Hloop & Hs & Hle & Hsusp).
  exists r, n. split; [done|]. split; [done|]. split; [simpl in Hle; lia|].
  intros Hp. by rewrite (Hsusp Hp).
Qed.

Lemma selectedNumbers_nil content : Cyclic.selectedNumbers content [] = [].
Proof.
  unfold Cyclic.selectedNumbers.
  induction (_ <$> Js.split _ _) as [|i l IH]; [done|].
  rewrite filter_cons, IH. cbn [length]. by rewrite inRange_nil.
Qed.

Lemma selection_noFlight env s w :
  Session.noFlight s ->
  Cyclic.selection env s w = ([], logged (LogFiltered 0) (called w)).
Proof.
  unfold Session.noFlight, Cyclic.selection. intros ->.
  cbn [length]. rewrite inRange_nil, andb_false_r.
  by rewrite selectedNumbers_nil.
Qed.

Lemma mainLoop_noFlight env fuel stdin n r p :
  Engine.outcome r = Engine.Suspended p ->
  Session.waiting Session.noFlight r ->
  ∃ r' p',
    Cyclic.mainLoop env (5 + fuel) stdin n r = Some (r', (n + length stdin)%nat)
    ∧ Engine.outcome r' = Engine.Suspended p'
    ∧ Session.waiting Session.noFlight r'
    ∧ llmCalls (Engine.world r') = (llmCalls (Engine.world r) + length stdin)%nat.
Proof.
  revert n r p. induction stdin as [|line rest IH]; intros n r p Hout Hwait.
  - exists r, p. split; [by simpl; rewrite Hout, Nat.add_0_r|].
    split; [done|]. split; [done|]. simpl. lia.
  - destruct (mainLoop_step env fuel line rest n r _ p Hout Hwait)
      as (ck & r2 & Hck & Hnone & Hloop & Hllm & _ & Hmany).
    cbv zeta in Hllm, Hmany.
    rewrite selection_noFlight in Hllm, Hmany
      by (unfold Session.noFlight; by rewrite merge_userChoice_flights).
    destruct Hmany as [Hout2 (ck' & p' & k' & Hck' & Hc' & Hp' & Hk' & Heq)]; [done|].
    assert (Hwait2 : Session.waiting Session.noFlight r2).
    { exists ck', p', k'. repeat split; try done. by rewrite Heq. }
    destruct (IH (S n) r2 _ Hout2 Hwait2) as (r' & p2 & Hrest & Hout' & Hwait' & Hcalls).
    exists r', p2. split.
    { rewrite Hloop, Hrest. do 2 f_equal. simpl. lia. }
    split; [done|]. split; [done|].
    rewrite Hcalls, Hllm. simpl. lia.
Qed.

(** X6. Without a flight the loop of [main] cannot end.  Once
    [filteredFlights] is empty, [disambiguateSelection] keeps it empty
    whatever the operator types and the chat model replies (a number typed
    is out of range and goes to the chat model too), and [showFlights]
    routes back to [requestChoice]: every line is answered by one more
    call of the chat model and one more pause.  This is so from the start
    when the vector store returns no flight for the question. *)
Theorem no_flight_is_a_dead_end env fuel stdin :
  (∀ n r p,
     Engine.outcome r = Engine.Suspended p ->
     Session.waiting Session.noFlight r ->
     ∃ r' p',
       Cyclic.mainLoop env (5 + fuel) stdin n r = Some (r', (n + length stdin)%nat)
       ∧ Engine.outcome r' = Engine.Suspended p'
       ∧ Session.waiting Session.noFlight r'
       ∧ llmCalls (Engine.world r') = (llmCalls (Engine.world r) + length stdin)%nat)
  ∧ (vectorStore env (Some Cyclic.userQuestion) 10 = [] ->
     ∃ r p,
       Cyclic.main env (5 + fuel) stdin = Some (r, length stdin)
       ∧ Engine.outcome r = Engine.Suspended p
       ∧ Session.waiting Session.noFlight r
       ∧ llmCalls (Engine.world r) = length stdin).
Proof.
  split; [intros n r p; apply mainLoop_noFlight|].
  intros Hnone. unfold Cyclic.main.
  destruct (cyclic_invoke_suspends env (S (S fuel)) Cyclic.thread_id ∅
              (logged (LogSearching Cyclic.userQuestion) newWorld)
              Cyclic.userQuestion (lookup_empty _))
    as (k & w1 & Hk & _ & Hcalls & Hinvoke); [by rewrite Hnone|].
  rewrite Hnone in Hinvoke.
  change (3 + S (S fuel))%nat with (5 + fuel)%nat in Hinvoke.
  match type of Hinvoke with _ = Some ?x => set (r0 := x) in * end.
  rewrite Hinvoke. cbn [mbind option_bind].
  assert (Hwait0 : Session.waiting Session.noFlight r0).
  { eexists _, _, k. split; [apply lookup_insert_eq|]. by repeat split. }
  destruct (mainLoop_noFlight env fuel stdin 0%nat r0 _ eq_refl Hwait0)
    as (r & p & Hloop & Hout & Hwait & Hllm).
  exists r, p. split; [exact Hloop|]. split; [done|]. split; [done|].
  rewrite Hllm. unfold r0. cbn [Engine.world]. rewrite Hcalls. simpl. lia.
Qed.

(** ** The linear workflows: the answer *)

(** X7. With at least one candidate [disambiguateAndAnswer] never throws:
    it calls the chat model once and selects the candidate whose number the
    reply starts with when that number is between 1 and the number of
    candidates, and the first candidate otherwise (a reply that is no
    number, zero, negative or too large).  The final answer is the
    description of the selected candidate. *)
Theorem disambiguateAndAnswer_picks_or_defaults env s first rest answers w :
  Linear.candidates s = Some (first :: rest) ->
  let content :=
    llm env (llmCalls w) (Js.orElse (Linear.userChoice s) "") (first :: rest) in
  let number := Js.parseInt content (Some 10) in
  ∃ flight,
    runNode env (Linear.disambiguateAndAnswer s) answers w
      = (Finished (Linear.obj_selected_final flight
                     (Linear.formatFlightDetails (metadata flight)))
           (called w), answers)
    ∧ flight ∈ first :: rest
    ∧ (∀ z, number = Some z -> 1 <= z <= Z.of_nat (length (first :: rest)) ->
            (first :: rest) !! Z.to_nat (z - 1) = Some flight)
    ∧ (number = None
       ∨ (∃ z, number = Some z ∧ (z < 1 ∨ Z.of_nat (length (first :: rest)) < z)) ->
       flight = first).
Proof.
  intros Hc content number.
  unfold Linear.disambiguateAndAnswer. rewrite Hc.
  cbn [default id mbind node_bind nodeBind llmInvoke runNode].
  fold content. fold number. unfold Linear.selectedFlight.
  destruct (Js.inRange (length (first :: rest)) (Js.pred number)) eqn:Hr.
  - destruct (index_inRange (first :: rest) _ Hr) as (flight & Hf & Hin).
    rewrite Hf. exists flight. split; [done|]. split; [done|].
    destruct number as [z|]; [|done]. simpl in Hr, Hf.
    apply andb_prop in Hr as [H0%Z.leb_le Hlt%Z.ltb_lt].
    destruct (Z.leb_spec 0 (z - 1)); [|lia].
    split.
    + by intros ? [= <-] _.
    + intros [?|(z' & [= <-] & Hout)]; [done|]. cbn [length] in *. lia.
  - exists first. split; [done|]. split; [apply elem_of_cons; by left|].
    split; [|done].
    intros z -> Hz. simpl in Hr.
    apply andb_false_iff in Hr as [H%Z.leb_gt|H%Z.ltb_ge]; simpl in *; lia.
Qed.

(** The resumed call of a session paused at [requestUserChoice] with at
    least one candidate completes. *)
Lemma linear_resume_completes env fuel sid store w ck p k v first rest :
  store !! sid = Some ck ->
  Engine.cursor ck = "requestUserChoice" ->
  Engine.pending ck = Some (p, k) ->
  (∀ v, k v = Ret (Linear.obj_userChoice v)) ->
  Linear.candidates (Engine.state ck) = Some (first :: rest) ->
  ∃ r flight,
    Engine.resume env Linear.workflow (3 + fuel)
      {| Engine.sessionId := sid; Engine.value := v |} store w = Some r
    ∧ Engine.outcome r
      = Engine.Completed
          (Engine.merge (Engine.merge (Engine.state ck) (Linear.obj_userChoice v))
             (Linear.obj_selected_final flight
                (Linear.formatFlightDetails (metadata flight))))
    ∧ flight ∈ first :: rest
    ∧ llmCalls (Engine.world r) = S (llmCalls w).
Proof.
  intros Hck Hc Hp Hk Hcand.
  set (s1 := Engine.merge (Engine.state ck) (Linear.obj_userChoice v)).
  assert (Hcand1 : Linear.candidates s1 = Some (first :: rest)).
  { unfold s1. destruct (Engine.state ck). simpl in *. by rewrite Hcand. }
  destruct (disambiguateAndAnswer_selects env s1 first rest []
              (enter "disambiguateAndAnswer" w) Hcand1) as (flight & Hrun & Hin).
  eexists _, flight. split.
  { unfold Engine.resume. cbn [Engine.sessionId Engine.value]. rewrite Hck, Hp, Hc, Hk.
    change (3 + fuel)%nat with (S (S (S fuel))).
    superstep_finishes ltac:(reflexivity).
    fold s1.
    superstep_finishes ltac:(exact Hrun).
    by rewrite run_S, superstep_end. }
  split; [reflexivity|]. split; [exact Hin|reflexivity].
Qed.

(** The first call of a new session on the linear graph, when the
    candidates kept are not exactly one: the checkpoint it leaves, with its
    resume slot. *)
Lemma linear_invoke_asks env fuel sid store w q :
  store !! sid = None ->
  let candidates := take 2 (vectorStore env (Some q) 5) in
  length candidates ≠ 1%nat ->
  ∃ k w1,
    (∀ v, k v = Ret (Linear.obj_userChoice v))
    ∧ Engine.invoke env Linear.workflow (4 + fuel) (Linear.obj_input q) sid store w
      = Some {| Engine.outcome :=
                  Engine.Suspended {| question := "Which flight do you prefer?:" |};
                Engine.checkpoints :=
                  <[sid := {| Engine.state :=
                                {| Linear.input := Some q;
                                   Linear.candidates := Some candidates;
                                   Linear.userChoice := None; Linear.selected := None;
                                   Linear.final := None |};
                              Engine.cursor := "requestUserChoice";
                              Engine.pending :=
                                Some ({| question := "Which flight do you prefer?:" |}, k)
                           |}]> store;
                Engine.world := w1 |}.
Proof.
  intros Hs candidates Hlen. eexists _, _. split; cycle 1.
  - unfold Engine.invoke. rewrite Hs.
    change (Engine.assoc Engine.START (Engine.edges Linear.workflow))
      with (Some "retrieveFlights").
    change (4 + fuel)%nat with (S (S (S (S fuel)))). cbv iota beta.
    superstep_finishes ltac:(apply runNode_retrieveFlights).
    linear_state. fold candidates.
    superstep_finishes ltac:(by rewrite evaluateResults_other).
    linear_state.
    superstep_finishes ltac:(reflexivity).
    linear_state.
    superstep_pauses. by rewrite !insert_insert_eq.
  - done.
Qed.

(** X8. With two results or more the linear workflow asks once and ends.
    The first call of a new session pauses with the question of
    [requestUserChoice], and the resumed call completes whatever the answer
    and the reply of the chat model: [candidates] holds the first two
    results, [userChoice] the answer, [selected] one of the two candidates
    and [final] its description. *)
Theorem linear_session_ends_after_one_answer env fuel sid store w q v :
  store !! sid = None ->
  let candidates := take 2 (vectorStore env (Some q) 5) in
  (2 <= length (vectorStore env (Some q) 5))%nat ->
  ∃ r1 r2 flight,
    Engine.invoke env Linear.workflow (4 + fuel) (Linear.obj_input q) sid store w = Some r1
    ∧ Engine.outcome r1 = Engine.Suspended {| question := "Which flight do you prefer?:" |}
    ∧ Engine.resume env Linear.workflow (3 + fuel)
        {| Engine.sessionId := sid; Engine.value := v |}
        (Engine.checkpoints r1) (Engine.world r1) = Some r2
    ∧ Engine.outcome r2
      = Engine.Completed
          {| Linear.input := Some q; Linear.candidates := Some candidates;
             Linear.userChoice := Some v; Linear.selected := Some flight;
             Linear.final := Some (Linear.formatFlightDetails (metadata flight)) |}
    ∧ length candidates = 2%nat
    ∧ flight ∈ candidates.
Proof.
  intros Hs candidates Hlen.
  assert (Hlen2 : length candidates = 2%nat)
    by (unfold candidates; rewrite length_take; lia).
  destruct (linear_invoke_asks env fuel sid store w q Hs)
    as (k & w1 & Hk & Hinvoke); [fold candidates; lia|].
  fold candidates in Hinvoke.
  destruct candidates as [|first rest] eqn:Hcand; [done|].
  match type of Hinvoke with _ = Some ?x => set (r1 := x) in * end.
  destruct (linear_resume_completes env fuel sid (Engine.checkpoints r1) w1
              _ _ k v first rest (lookup_insert_eq _ _ _) eq_refl eq_refl
              Hk eq_refl)
    as (r2 & flight & Hresume & Hout & Hin & _).
  exists r1, r2, flight. split; [exact Hinvoke|]. split; [reflexivity|].
  split; [exact Hresume|]. split; [exact Hout|]. by split.
Qed.

(** ** Nodes that only show *)

Lemma linear_merge_same (s : Linear.SupportState) : Engine.merge s s = s.
Proof. by destruct s as [[] [] [] [] []]. Qed.

Lemma cyclic_merge_obj (s : Cyclic.SupportState) : Engine.merge s Cyclic.obj = s.
Proof. by destruct s. Qed.

(** X9. The nodes that show flights change no flight.  [showResults]
    returns the state it was given and [showFinalFlight] an empty update:
    merged, they leave the state as it was.  [showFlights] returns
    [filteredFlights] as it read it: the flights and every other channel
    are unchanged (an unset [filteredFlights] becomes the empty list).
    None of them calls the chat model, pauses or throws. *)
Theorem showing_changes_no_flight env answers w :
  (∀ s, ∃ w',
     runNode env (Linear.showResults s) answers w = (Finished s w', answers)
     ∧ Engine.merge s s = s
     ∧ llmCalls w' = llmCalls w)
  ∧ (∀ s, ∃ update w',
       runNode env (Cyclic.showFinalFlight s) answers w = (Finished update w', answers)
       ∧ Engine.merge s update = s
       ∧ llmCalls w' = llmCalls w)
  ∧ (∀ s, ∃ update w',
       runNode env (Cyclic.showFlights s) answers w = (Finished update w', answers)
       ∧ default [] (Cyclic.filteredFlights (Engine.merge s update))
         = default [] (Cyclic.filteredFlights s)
       ∧ (∀ ch, ch ≠ Cyclic.FilteredFlights ->
                Cyclic.channel ch (Engine.merge s update) = Cyclic.channel ch s)
       ∧ llmCalls w' = llmCalls w).
Proof.
  split; [|split].
  - intros s. eexists. split; [reflexivity|]. split; [apply linear_merge_same|done].
  - intros s. unfold Cyclic.showFinalFlight.
    destruct (default [] (Cyclic.filteredFlights s) !! 0%nat);
      (eexists _, _; split; [reflexivity|]; split; [apply cyclic_merge_obj|done]).
  - intros s. eexists _, _. split; [apply runNode_showFlights|].
    split; [done|]. split; [|done].
    intros ch Hch. apply cyclic_merge_frame. by destruct ch.
Qed.

(** ** [src/main.js] and [src/unnamed/part_000] read the reply alike *)

Lemma trimEnd_shape c s :
  Js.trimEnd (String c s) = EmptyString
  ∨ Js.trimEnd (String c s) = String c (Js.trimEnd s).
Proof.
  cbn [Js.trimEnd]. destruct (Js.trimEnd s); [|by right].
  destruct (Js.isWhiteSpace c); auto.
Qed.

Lemma trimEnd_cons c s :
  Js.isWhiteSpace c = false -> Js.trimEnd (String c s) = String c (Js.trimEnd s).
Proof.
  intros Hc. cbn [Js.trimEnd]. destruct (Js.trimEnd s); [|done]. by rewrite Hc.
Qed.

Lemma trimStart_head s :
  match Js.trimStart s with
  | EmptyString => True
  | String c _ => Js.isWhiteSpace c = false
  end.
Proof.
  induction s as [|c s IH]; [done|].
  cbn [Js.trimStart]. by destruct (Js.isWhiteSpace c) eqn:Hc.
Qed.

Lemma digitValue_not_space c d : Js.digitValue c = Some d -> Js.isWhiteSpace c = false.
Proof. destruct c as [[] [] [] [] [] [] [] []]; by vm_compute. Qed.

Lemma radixDigit_not_space R c d : Js.radixDigit R c = Some d -> Js.isWhiteSpace c = false.
Proof.
  unfold Js.radixDigit. destruct (Js.digitValue c) as [d'|] eqn:Hd; [|done].
  intros _. by eapply digitValue_not_space.
Qed.

(** Trailing white space is not read by [parseInt]. *)
Lemma parseDigits_trimEnd R acc s :
  Js.parseDigits R acc (Js.trimEnd s) = Js.parseDigits R acc s.
Proof.
  revert acc. induction s as [|c s IH]; intros acc; [done|].
  destruct (Js.radixDigit R c) as [d|] eqn:Hd.
  - rewrite (trimEnd_cons c s (radixDigit_not_space R c d Hd)).
    cbn [Js.parseDigits]. rewrite Hd. apply IH.
  - destruct (trimEnd_shape c s) as [-> | ->]; cbn [Js.parseDigits]; by rewrite ?Hd.
Qed.

Lemma stripSign_trimEnd c s :
  Js.isWhiteSpace c = false ->
  Js.stripSign (Js.trimEnd (String c s))
    = ((Js.stripSign (String c s)).1, Js.trimEnd (Js.stripSign (String c s)).2).
Proof.
  intros Hc. rewrite (trimEnd_cons c s Hc).
  destruct c as [[] [] [] [] [] [] [] []]; try discriminate Hc;
    cbn [Js.stripSign fst snd]; try reflexivity;
    by rewrite trimEnd_cons.
Qed.

Lemma stripHexPrefix_spec c c2 r :
  Js.stripHexPrefix (String c (String c2 r))
    = if Ascii.eqb c "0" && (Ascii.eqb c2 "x" || Ascii.eqb c2 "X")
      then Some r else None.
Proof.
  destruct c as [[] [] [] [] [] [] [] []]; try reflexivity.
  destruct c2 as [[] [] [] [] [] [] [] []]; reflexivity.
Qed.

Lemma stripHexPrefix_single c : Js.stripHexPrefix (String c EmptyString) = None.
Proof. by destruct c as [[] [] [] [] [] [] [] []]. Qed.

Lemma stripHexPrefix_trimEnd body :
  Js.stripHexPrefix body = None -> Js.stripHexPrefix (Js.trimEnd body) = None.
Proof.
  destruct body as [|c [|c2 r]]; [done| |].
  - intros _. destruct (trimEnd_shape c EmptyString) as [-> | ->]; [done|].
    apply stripHexPrefix_single.
  - rewrite stripHexPrefix_spec. intros Hhex.
    destruct (trimEnd_shape c (String c2 r)) as [-> | ->]; [done|].
    destruct (trimEnd_shape c2 r) as [-> | ->]; [apply stripHexPrefix_single|].
    rewrite stripHexPrefix_spec. by destruct (_ && _).
Qed.

(** [parseInt(content.trim())] of [src/main.js] and
    [Number.parseInt(content, 10)] of [src/unnamed/part_000] agree on a
    reply that does not start, after white space and a sign, with [0x] or
    [0X]. *)
Lemma parseInt_js_ts content :
  Js.stripHexPrefix (Js.stripSign (Js.trimStart content)).2 = None ->
  Js.parseInt (Js.trim content) None = Js.parseInt content (Some 10).
Proof.
  intros Hhex. unfold Js.parseInt, Js.trim.
  pose proof (trimStart_head content) as Hhead.
  destruct (Js.trimStart content) as [|c s] eqn:Hx; [done|].
  assert (Hstart : Js.trimStart (Js.trimEnd (String c s)) = Js.trimEnd (String c s)).
  { rewrite (trimEnd_cons c s Hhead). cbn [Js.trimStart]. by rewrite Hhead. }
  rewrite Hstart, (stripSign_trimEnd c s Hhead).
  destruct (Js.stripSign (String c s)) as [sign body]. cbn [fst snd] in *.
  change (default 0 None) with 0. change (default 0 (Some 10)) with 10.
  cbn [Z.eqb orb Z.ltb Z.compare Pos.compare Pos.compare_cont].
  rewrite (stripHexPrefix_trimEnd body Hhex). cbv iota.
  by rewrite parseDigits_trimEnd.
Qed.

(** X10. [src/main.js] and [src/unnamed/part_000] select the same flight
    unless the reply is written in hexadecimal.  When the reply of the chat
    model does not start, after white space and a sign, with [0x] or [0X],
    the two versions of [disambiguateAndAnswer] do the same.  On the reply
    "0x2" with two candidates or more they differ: [src/main.js] reads 2
    and selects the second candidate, [src/unnamed/part_000] reads 0 and
    falls back to the first. *)
Theorem mainjs_agrees_unless_hexadecimal env s answers w :
  let content :=
    llm env (llmCalls w) (Js.orElse (Linear.userChoice s) "")
      (default [] (Linear.candidates s)) in
  (Js.stripHexPrefix (Js.stripSign (Js.trimStart content)).2 = None ->
   runNode env (MainJs.disambiguateAndAnswer s) answers w
     = runNode env (Linear.disambiguateAndAnswer s) answers w)
  ∧ (∀ first second rest,
       Linear.candidates s = Some (first :: second :: rest) ->
       content = "0x2" ->
       runNode env (MainJs.disambiguateAndAnswer s) answers w
         = (Finished (Linear.obj_selected_final second
                        (flightDetails "    " (metadata second))) (called w), answers)
       ∧ runNode env (Linear.disambiguateAndAnswer s) answers w
         = (Finished (Linear.obj_selected_final first
                        (Linear.formatFlightDetails (metadata first))) (called w),
            answers)).
Proof.
  intros content. split.
  - intros Hhex.
    unfold MainJs.disambiguateAndAnswer, Linear.disambiguateAndAnswer.
    cbn [mbind node_bind nodeBind llmInvoke runNode]. fold content.
    by rewrite (parseInt_js_ts content Hhex).
  - intros first second rest Hc Hreply.
    unfold MainJs.disambiguateAndAnswer, Linear.disambiguateAndAnswer.
    subst content. rewrite Hc in *.
    cbn [default id] in Hreply.
    cbn [mbind node_bind nodeBind llmInvoke runNode default id]. rewrite Hreply.
    split.
    + change (Js.pred (Js.parseInt (Js.trim "0x2") None)) with (Some 1).
      unfold Linear.selectedFlight.
      assert (Hr : Js.inRange (length (first :: second :: rest)) (Some 1) = true).
      { unfold Js.inRange. apply andb_true_intro. split; [done|].
        apply Z.ltb_lt. cbn [length]. lia. }
      by rewrite Hr.
    + change (Js.pred (Js.parseInt "0x2" (Some 10))) with (Some (-1)).
      reflexivity.
Qed.

(** ** The ingestion *)

Section IngestionFacts.
Import Ingestion.
Context {Cluster : Type} (es : Elastic Cluster).
Context (fs : string -> option (list RawDocument)).

Lemma ingestData_skip c ls n :
  indicesExists es VECTOR_INDEX c = Some true ->
  count es VECTOR_INDEX c = Some n ->
  (0 < n)%nat ->
  ingestData es fs (c, ls) = (Some (), (c, ls ++ [AlreadyContains n])).
Proof.
  intros He Hc Hn.
  assert (Hlt : (0 <? n)%nat = true) by by apply Nat.ltb_lt.
  unfold ingestData, mbind, io_bind, ioBind, ask, say, mret, io_ret, ioRet.
  simpl. rewrite !He. simpl. rewrite !He. simpl. rewrite !Hc. simpl. by rewrite !Hlt.
Qed.

(** X11. [ingestData] does not touch an index that holds documents: when
    the index exists and its count is positive, no call changes the
    cluster; [dataIngestion.ts] writes that the ingestion is skipped, with
    the count, and [src/main.js] writes nothing.  The dataset is not read. *)
Theorem ingestData_skips_a_populated_index c ls n fs' :
  indicesExists es VECTOR_INDEX c = Some true ->
  count es VECTOR_INDEX c = Some n ->
  (0 < n)%nat ->
  ingestData es fs (c, ls) = (Some (), (c, ls ++ [AlreadyContains n]))
  ∧ ingestDataJs es fs (c, ls) = (Some (), (c, ls))
  ∧ ingestData es fs' (c, ls) = ingestData es fs (c, ls).
Proof.
  intros He Hc Hn.
  assert (Hlt : (0 <? n)%nat = true) by by apply Nat.ltb_lt.
  unfold ingestData, ingestDataJs, mbind, io_bind, ioBind, ask, say, mret, io_ret, ioRet.
  simpl. rewrite !He. simpl. rewrite !He. simpl. rewrite !Hc. simpl. by rewrite !Hlt.
Qed.

(** X12. A dataset that cannot be read is ingested as no document.  On an
    index that exists and is empty, [ingestData] gives the vector store the
    documents of the dataset, one for each entry and in their order, and
    none when the file is missing or is not the JSON expected: the failure
    of [loadDataset] is not the failure of [ingestData], which then writes
    that it ingested 0 documents.  An entry gives its [pageContent] when it
    has one, even empty, else its [text], else the empty string. *)
Theorem ingestData_reads_dataset_or_nothing c ls :
  indicesExists es VECTOR_INDEX c = Some true ->
  count es VECTOR_INDEX c = Some 0%nat ->
  ingestData es fs (c, ls)
    = match addDocuments es VECTOR_INDEX (initialDocs fs) c with
      | Some c' =>
          (Some (), (c', ls ++ [IngestingDataset; Ingested (length (initialDocs fs))]))
      | None => (None, (c, ls ++ [IngestingDataset]))
      end
  ∧ (fs datasetPath = None -> initialDocs fs = [])
  ∧ (∀ data, fs datasetPath = Some data ->
       length (initialDocs fs) = length data
       ∧ ∀ i d, data !! i = Some d ->
           ∃ doc, initialDocs fs !! i = Some doc
             ∧ metadata doc = default emptyMetadata (rawMetadata d)
             ∧ pageContent doc
               = match rawPageContent d, rawText d with
                 | Some content, _ => content
                 | None, Some text => text
                 | None, None => ""
                 end).
Proof.
  intros He Hc. split; [|split].
  - unfold ingestData, mbind, io_bind, ioBind, ask, say, tell, mret, io_ret, ioRet.
    simpl. rewrite !He. simpl. rewrite !He. simpl. rewrite !Hc. simpl.
    destruct (addDocuments es VECTOR_INDEX (initialDocs fs) c); [|done].
    simpl. by rewrite <- app_assoc.
  - intros Hnone. unfold initialDocs, loadDataset. by rewrite Hnone.
  - intros data Hdata. unfold initialDocs, loadDataset. rewrite Hdata.
    cbn [default id]. split; [apply length_fmap|].
    intros i d Hd. exists (toDocument d). split; [by rewrite list_lookup_fmap, Hd|].
    split; [done|]. unfold toDocument, nullish. cbn [pageContent].
    by destruct (rawPageContent d), (rawText d).
Qed.

(** The count of the index after the part of [ingestData] that follows the
    creation of the index, on cluster [c0] where the index exists. *)
Ltac ingested_count Hrun Hadd c0 He0 :=
  let n0 := fresh "n" in
  let Hc0 := fresh "Hcount" in
  let c' := fresh "c" in
  let Ha := fresh "Ha" in
  destruct (count _ _ c0) as [n0|] eqn:Hc0; [|done];
  destruct (Nat.ltb_spec 0 n0); simpl in Hrun;
  [ injection Hrun as <- _; by exists n0
  | destruct (addDocuments _ _ _ c0) as [c'|] eqn:Ha; simpl in Hrun; [|done];
    injection Hrun as <- _;
    destruct (Hadd c0 c' _ n0 Ha He0 Hc0) as [? ?];
    eexists; split; [|done]; lia ].

(** X13. Running [ingestData] again ingests nothing more.  On a cluster
    where a created index exists and is empty, and where added documents
    raise the count of an existing index by their number: after a run of
    [ingestData] that did not fail, with a dataset of at least one entry, a
    second run leaves the cluster as the first left it and only writes
    that the ingestion is skipped. *)
Theorem ingestData_again_ingests_nothing c ls c1 ls1 :
  createLaw es -> addLaw es ->
  initialDocs fs ≠ [] ->
  ingestData es fs (c, ls) = (Some (), (c1, ls1)) ->
  ∃ n, (0 < n)%nat
       ∧ count es VECTOR_INDEX c1 = Some n
       ∧ ingestData es fs (c1, ls1) = (Some (), (c1, ls1 ++ [AlreadyContains n])).
Proof.
  intros Hcreate Hadd Hdocs Hrun.
  assert (Hdone : ∃ n, (0 < n)%nat
                       ∧ indicesExists es VECTOR_INDEX c1 = Some true
                       ∧ count es VECTOR_INDEX c1 = Some n).
  { assert (Hlen : (0 < length (initialDocs fs))%nat)
      by (destruct (initialDocs fs); [done|simpl; lia]).
    unfold ingestData, mbind, io_bind, ioBind, ask, say, tell, mret, io_ret, ioRet in Hrun.
    simpl in Hrun.
    destruct (indicesExists es VECTOR_INDEX c) as [[|]|] eqn:He; [| |done].
    - simpl in Hrun. rewrite He in Hrun. simpl in Hrun.
      ingested_count Hrun Hadd c He.
    - simpl in Hrun.
      destruct (indicesCreate es VECTOR_INDEX vectorMappings c) as [c0|] eqn:Hc0;
        [|done].
      simpl in Hrun. destruct (Hcreate c c0 Hc0) as [He0 Hcount0].
      rewrite He0 in Hrun. simpl in Hrun.
      ingested_count Hrun Hadd c0 He0. }
  destruct Hdone as (n & Hn & He1 & Hc1).
  exists n. split; [done|]. split; [done|]. by apply ingestData_skip.
Qed.

End IngestionFacts.

(** ** Examples of the further properties *)

Lemma memory_createLaw : Ingestion.createLaw Ingestion.memory.
Proof.
  intros c c'. cbn [Ingestion.memory Ingestion.indicesCreate Ingestion.indicesExists
                    Ingestion.count].
  destruct (c !! Ingestion.VECTOR_INDEX) eqn:Hc; [done|].
  intros [= <-]. rewrite lookup_insert_eq. split; [|done].
  f_equal; by apply bool_decide_eq_true.
Qed.

Lemma memory_addLaw : Ingestion.addLaw Ingestion.memory.
Proof.
  intros c c' docs n. cbn [Ingestion.memory Ingestion.addDocuments
                            Ingestion.indicesExists Ingestion.count].
  intros [= <-] _ Hn. rewrite lookup_insert_eq.
  split; [f_equal; by apply bool_decide_eq_true|].
  destruct (c !! Ingestion.VECTOR_INDEX) as [l|]; [|done].
  injection Hn as <-. cbn [default id fmap option_fmap option_map].
  by rewrite length_app.
Qed.

Lemma number_shown_selects_flight_witness :
  default [] (Cyclic.filteredFlights (Sample.answered "3")) !! 2%nat
    = Some (Scenario.flight "MDE -> PVG (AndeanSky)" "AndeanSky" "Shanghai" "China"
              "Pudong International" "PVG" 1450 "25h 50m" "2025-11-28")
  ∧ length (default [] (Cyclic.filteredFlights (Sample.answered "3"))) ≠ 1%nat
  ∧ Cyclic.userChoice (Sample.answered "3")
    = Some (Js.numberToString (Z.of_nat (2 + 1)))
  ∧ Cyclic.disambiguateSelection (Sample.answered "3")
    = ConsoleLog (LogSelectedNumber "3")
        (Ret (Cyclic.obj_filteredFlights
                [Scenario.flight "MDE -> PVG (AndeanSky)" "AndeanSky" "Shanghai" "China"
                   "Pudong International" "PVG" 1450 "25h 50m" "2025-11-28"])).
Proof.
  split; [reflexivity|]. split; [by vm_compute|]. split; [reflexivity|].
  exact (proj2 (number_shown_selects_flight Scenario.env (Sample.answered "3") []
                  newWorld 2%nat _ eq_refl ltac:(by vm_compute) eq_refl)).
Defined.

Lemma number_out_of_range_asks_llm_witness :
  Cyclic.userChoice (Sample.answered "11") = Some "11"
  ∧ Js.numberRegex "11" = true
  ∧ (Js.decimalValue "11" = 0
     ∨ Z.of_nat (length (default [] (Cyclic.filteredFlights (Sample.answered "11"))))
       < Js.decimalValue "11")
  ∧ ∃ k, Cyclic.disambiguateSelection (Sample.answered "11")
         = LlmInvoke "11" Scenario.flights k.
Proof.
  assert (Hout : Js.decimalValue "11" = 0
                 ∨ Z.of_nat (length (default [] (Cyclic.filteredFlights
                                                   (Sample.answered "11"))))
                   < Js.decimalValue "11")
    by (right; vm_compute; reflexivity).
  split; [reflexivity|]. split; [reflexivity|]. split; [exact Hout|].
  eexists.
  exact (number_out_of_range_asks_llm (Sample.answered "11") "11" eq_refl eq_refl Hout).
Defined.

Lemma reply_can_repeat_a_flight_witness :
  Js.numberRegex "Show me only the Tokyo options" = false
  ∧ ∃ first w',
      Scenario.flights !! 0%nat = Some first
      ∧ runNode Sample.repeating
          (Cyclic.disambiguateSelection (Sample.answered "Show me only the Tokyo options"))
          [] newWorld
        = (Finished (Cyclic.obj_filteredFlights [first; first; first]) w', []).
Proof.
  split; [reflexivity|].
  eexists _, _. split; [reflexivity|].
  exact (reply_can_repeat_a_flight Sample.repeating
           (Sample.answered "Show me only the Tokyo options") [] newWorld
           _ _ 2%nat eq_refl eq_refl eq_refl).
Defined.

Lemma disambiguateAndAnswer_picks_or_defaults_witness :
  Linear.candidates Sample.pair = Some (take 2 Scenario.flights)
  ∧ ∃ flight w',
      runNode Scenario.env (Linear.disambiguateAndAnswer Sample.pair) [] newWorld
        = (Finished (Linear.obj_selected_final flight
                       (Linear.formatFlightDetails (metadata flight))) w', [])
      ∧ flight ∈ take 2 Scenario.flights.
Proof.
  split; [reflexivity|].
  destruct (disambiguateAndAnswer_picks_or_defaults Scenario.env Sample.pair _ _ []
              newWorld eq_refl) as (flight & Hrun & Hin & _).
  by exists flight, (called newWorld).
Defined.

Lemma linear_session_ends_after_one_answer_witness :
  (∅ : gmap string (Engine.Checkpoint Linear.SupportState)) !! Linear.thread_id = None
  ∧ (2 <= length (vectorStore Scenario.env (Some Linear.userQuestion) 5))%nat
  ∧ ∃ r1 r2 flight,
      Engine.invoke Scenario.env Linear.workflow (4 + 0)
        (Linear.obj_input Linear.userQuestion) Linear.thread_id ∅ newWorld = Some r1
      ∧ Engine.resume Scenario.env Linear.workflow (3 + 0)
          {| Engine.sessionId := Linear.thread_id; Engine.value := "the second one" |}
          (Engine.checkpoints r1) (Engine.world r1) = Some r2
      ∧ ∃ s, Engine.outcome r2 = Engine.Completed s
             ∧ Linear.userChoice s = Some "the second one"
             ∧ Linear.selected s = Some flight.
Proof.
  assert (Hlen : (2 <= length (vectorStore Scenario.env (Some Linear.userQuestion) 5))%nat)
    by (vm_compute; lia).
  split; [reflexivity|]. split; [exact Hlen|].
  destruct (linear_session_ends_after_one_answer Scenario.env 0%nat Linear.thread_id ∅
              newWorld Linear.userQuestion "the second one" (lookup_empty _) Hlen)
    as (r1 & r2 & flight & Hr1 & _ & Hr2 & Hout & _).
  exists r1, r2, flight. split; [exact Hr1|]. split; [exact Hr2|].
  eexists. split; [exact Hout|]. split; reflexivity.
Defined.

Lemma ingestData_skips_a_populated_index_witness :
  Ingestion.indicesExists Ingestion.memory Ingestion.VECTOR_INDEX Sample.populated
    = Some true
  ∧ Ingestion.count Ingestion.memory Ingestion.VECTOR_INDEX Sample.populated = Some 1%nat
  ∧ (0 < 1)%nat
  ∧ Ingestion.ingestData Ingestion.memory Ingestion.sampleFiles (Sample.populated, [])
    = (Some (), (Sample.populated, [Ingestion.AlreadyContains 1])).
Proof.
  split; [reflexivity|]. split; [reflexivity|]. split; [lia|].
  exact (proj1 (ingestData_skips_a_populated_index Ingestion.memory Ingestion.sampleFiles
                  Sample.populated [] 1%nat (fun _ => None) eq_refl eq_refl
                  ltac:(lia))).
Defined.

Lemma ingestData_reads_dataset_or_nothing_witness :
  Ingestion.indicesExists Ingestion.memory Ingestion.VECTOR_INDEX Sample.created
    = Some true
  ∧ Ingestion.count Ingestion.memory Ingestion.VECTOR_INDEX Sample.created = Some 0%nat
  ∧ Ingestion.ingestData Ingestion.memory (fun _ => None) (Sample.created, [])
    = (Some (), (<[Ingestion.VECTOR_INDEX := []]> Sample.created,
                 [Ingestion.IngestingDataset; Ingestion.Ingested 0])).
Proof.
  split; [reflexivity|]. split; [reflexivity|].
  exact (proj1 (ingestData_reads_dataset_or_nothing Ingestion.memory (fun _ => None)
                  Sample.created [] eq_refl eq_refl)).
Defined.

Lemma ingestData_again_ingests_nothing_witness :
  Ingestion.createLaw Ingestion.memory
  ∧ Ingestion.addLaw Ingestion.memory
  ∧ Ingestion.initialDocs Ingestion.sampleFiles ≠ []
  ∧ ∃ c1 ls1 n,
      Ingestion.ingestData Ingestion.memory Ingestion.sampleFiles (∅, []) = (Some (), (c1, ls1))
      ∧ (0 < n)%nat
      ∧ Ingestion.ingestData Ingestion.memory Ingestion.sampleFiles (c1, ls1)
        = (Some (), (c1, ls1 ++ [Ingestion.AlreadyContains n])).
Proof.
  assert (Hdocs : Ingestion.initialDocs Ingestion.sampleFiles ≠ []) by (by vm_compute).
  split; [exact memory_createLaw|]. split; [exact memory_addLaw|].
  split; [exact Hdocs|].
  eexists _, _.
  assert (Hrun : Ingestion.ingestData Ingestion.memory Ingestion.sampleFiles (∅, [])
                 = (Some (), ((Ingestion.ingestData Ingestion.memory Ingestion.sampleFiles
                                 (∅, [])).2.1,
                              (Ingestion.ingestData Ingestion.memory Ingestion.sampleFiles
                                 (∅, [])).2.2)))
    by reflexivity.
  destruct (ingestData_again_ingests_nothing Ingestion.memory Ingestion.sampleFiles
              ∅ [] _ _ memory_createLaw memory_addLaw Hdocs Hrun) as (n & Hn & _ & Hagain).
  exists n. split; [exact Hrun|]. split; [exact Hn|exact Hagain].
Defined.

(** * Sessions suspended at the question *)

(** ** The answer reaches the state *)

(** The resumed call of a session paused at [requestUserChoice] with at
    least one candidate: the answer is merged into [userChoice], the chat
    model is asked about it, and the call completes. *)
Lemma linear_resume_answers env fuel sid store w ck p k v first rest :
  store !! sid = Some ck ->
  Engine.cursor ck = "requestUserChoice" ->
  Engine.pending ck = Some (p, k) ->
  (∀ v, k v = Ret (Linear.obj_userChoice v)) ->
  Linear.candidates (Engine.state ck) = Some (first :: rest) ->
  let number := Js.parseInt (llm env (llmCalls w) v (first :: rest)) (Some 10) in
  ∃ r flight,
    Engine.resume env Linear.workflow (3 + fuel)
      {| Engine.sessionId := sid; Engine.value := v |} store w = Some r
    ∧ Engine.outcome r
      = Engine.Completed
          (Engine.merge (Engine.merge (Engine.state ck) (Linear.obj_userChoice v))
             (Linear.obj_selected_final flight
                (Linear.formatFlightDetails (metadata flight))))
    ∧ Linear.selectedFlight (Js.pred number) (first :: rest) = Some flight
    ∧ Engine.world r = called (enter "disambiguateAndAnswer" w).
Proof.
  intros Hck Hc Hp Hk Hcand number.
  set (s1 := Engine.merge (Engine.state ck) (Linear.obj_userChoice v)).
  assert (Hcand1 : Linear.candidates s1 = Some (first :: rest)).
  { unfold s1. destruct (Engine.state ck). simpl in *. by rewrite Hcand. }
  assert (Hchoice : Js.orElse (Linear.userChoice s1) "" = v) by (by destruct v).
  assert (Hsome : ∃ flight,
            Linear.selectedFlight (Js.pred number) (first :: rest) = Some flight).
  { unfold Linear.selectedFlight.
    destruct (Js.inRange (length (first :: rest)) (Js.pred number)) eqn:Hr.
    - destruct (index_inRange (first :: rest) _ Hr) as (x & Hx & _). by exists x.
    - by exists first. }
  destruct Hsome as [flight Hflight].
  assert (Hrun : runNode env (Linear.disambiguateAndAnswer s1) []
                   (enter "disambiguateAndAnswer" w)
                 = (Finished (Linear.obj_selected_final flight
                                (Linear.formatFlightDetails (metadata flight)))
                      (called (enter "disambiguateAndAnswer" w)), [])).
  { unfold Linear.disambiguateAndAnswer. rewrite Hcand1, Hchoice.
    cbn [default id mbind node_bind nodeBind llmInvoke runNode].
    change (llmCalls (enter "disambiguateAndAnswer" w)) with (llmCalls w).
    fold number. by rewrite Hflight. }
  eexists _, flight. split.
  { unfold Engine.resume. cbn [Engine.sessionId Engine.value]. rewrite Hck, Hp, Hc, Hk.
    change (3 + fuel)%nat with (S (S (S fuel))).
    superstep_finishes ltac:(reflexivity).
    fold s1.
    superstep_finishes ltac:(exact Hrun).
    by rewrite run_S, superstep_end. }
  split; [reflexivity|]. split; [exact Hflight|reflexivity].
Qed.

(** C1. Suspending and resuming is transparent.  In any graph, take a
    session whose superstep at cursor [c] pauses at an [interrupt], leaving
    the payload [p] and the resume slot [k] in its checkpoint.  Resuming it
    with [v] gives the outcome and the world (chat model calls, console,
    nodes entered) of the run in which that [interrupt] returned [v] at
    once, for every fuel; unless the call fails, the checkpoints agree as
    well.

    [requestChoice] of [src/main.ts] pauses with the state untouched in the
    checkpoint; with its [interrupt] returning [v] at once it returns the
    update that sets [userChoice] to [v].  The resumed call returns what
    the run that never paused returns: the state it leaves has [v] in
    [userChoice] and the flights [disambiguateSelection] selects on reading
    [v] there, and [requestChoice] is entered once, before
    [disambiguateSelection] and [showFlights].

    So does [requestUserChoice] of [src/unnamed/part_000]: outcome and
    world are those of the run that never paused, and with a candidate the
    call completes with [v] in [userChoice] and the candidate the chat
    model, asked about [v], selects; [requestUserChoice] is entered once,
    before [disambiguateAndAnswer]. *)
Theorem resume_is_synchronous_return :
  (∀ (State : Type) (C : Engine.Channels State) (env : Collaborators)
     (g : Engine.StateGraph State) fuel sid slot s c t w w0 p k w1 rest store v,
     String.eqb c Engine.END = false ->
     Engine.treeAt g slot s c w = Some (t, w0) ->
     runNode env t [] w0 = (Paused p k w1, rest) ->
     let suspended :=
       <[sid := {| Engine.state := s; Engine.cursor := c;
                   Engine.pending := Some (p, k) |}]> store in
     let resumed :=
       Engine.resume env g fuel {| Engine.sessionId := sid; Engine.value := v |}
         suspended w1 in
     let synchronous := Engine.run env g fuel sid slot s c [v] store w in
     Engine.run env g (S fuel) sid slot s c [] store w
       = Some {| Engine.outcome := Engine.Suspended p;
                 Engine.checkpoints := suspended; Engine.world := w1 |}
     ∧ Engine.outcome <$> resumed = Engine.outcome <$> synchronous
     ∧ Engine.world <$> resumed = Engine.world <$> synchronous
     ∧ (∀ r, resumed = Some r -> (∀ e, Engine.outcome r ≠ Engine.Failed e) ->
             synchronous = Some r))
  ∧ (∀ env fuel sid store w s v,
       let p := {| question := Cyclic.refineQuestion |} in
       let w1 := enter "requestChoice" w in
       let s1 := Engine.merge s (Cyclic.obj_userChoice v) in
       let flights := (Cyclic.selection env s1 (enter "disambiguateSelection" w1)).1 in
       let s2 := Engine.merge s1 (Cyclic.obj_filteredFlights flights) in
       ∃ k r,
         Engine.run env Cyclic.workflow (S fuel) sid None s "requestChoice" [] store w
           = Some {| Engine.outcome := Engine.Suspended p;
                     Engine.checkpoints :=
                       <[sid := {| Engine.state := s; Engine.cursor := "requestChoice";
                                   Engine.pending := Some (p, k) |}]> store;
                     Engine.world := w1 |}
         ∧ runNode env (Cyclic.requestChoice s) [v] w1
           = (Finished (Cyclic.obj_userChoice v) w1, [])
         ∧ Engine.resume env Cyclic.workflow (5 + fuel)
             {| Engine.sessionId := sid; Engine.value := v |}
             (<[sid := {| Engine.state := s; Engine.cursor := "requestChoice";
                          Engine.pending := Some (p, k) |}]> store) w1 = Some r
         ∧ Engine.run env Cyclic.workflow (5 + fuel) sid None s "requestChoice" [v]
             store w = Some r
         ∧ Engine.state <$> Engine.checkpoints r !! sid = Some s2
         ∧ Cyclic.userChoice s2 = Some v
         ∧ Cyclic.filteredFlights s2 = Some flights
         ∧ (Engine.outcome r = Engine.Completed s2
            ∨ Engine.outcome r = Engine.Suspended p)
         ∧ entered (Engine.world r)
           = entered w ++ ["requestChoice"; "disambiguateSelection"; "showFlights";
                           if decide (length flights = 1%nat)
                           then "showFinalFlight" else "requestChoice"])
  ∧ (∀ env fuel sid store w s v,
       let p := {| question := "Which flight do you prefer?:" |} in
       let w1 := enter "requestUserChoice" w in
       ∃ k,
         let suspended :=
           <[sid := {| Engine.state := s; Engine.cursor := "requestUserChoice";
                       Engine.pending := Some (p, k) |}]> store in
         let resumed :=
           Engine.resume env Linear.workflow (3 + fuel)
             {| Engine.sessionId := sid; Engine.value := v |} suspended w1 in
         let synchronous :=
           Engine.run env Linear.workflow (3 + fuel) sid None s "requestUserChoice" [v]
             store w in
         Engine.run env Linear.workflow (S fuel) sid None s "requestUserChoice" [] store w
           = Some {| Engine.outcome := Engine.Suspended p;
                     Engine.checkpoints := suspended; Engine.world := w1 |}
         ∧ runNode env (Linear.requestUserChoice s) [v] w1
           = (Finished (Linear.obj_userChoice v) w1, [])
         ∧ Engine.outcome <$> resumed = Engine.outcome <$> synchronous
         ∧ Engine.world <$> resumed = Engine.world <$> synchronous
         ∧ (∀ first rest,
              Linear.candidates s = Some (first :: rest) ->
              ∃ r flight final,
                resumed = Some r
                ∧ synchronous = Some r
                ∧ Engine.outcome r = Engine.Completed final
                ∧ Linear.userChoice final = Some v
                ∧ Linear.selected final = Some flight
                ∧ Linear.selectedFlight
                    (Js.pred (Js.parseInt (llm env (llmCalls w) v (first :: rest))
                                (Some 10)))
                    (first :: rest) = Some flight
                ∧ entered (Engine.world r)
                  = entered w ++ ["requestUserChoice"; "disambiguateAndAnswer"])).
Proof.
  split; [|split].
  - intros State C env g fuel sid slot s c t w w0 p k w1 rest store v.
    apply resume_at_slot.
  - intros env fuel sid store w s v p w1 s1 flights s2.
    set (k := fun v : string => Ret (Cyclic.obj_userChoice v)).
    set (ck := {| Engine.state := s; Engine.cursor := "requestChoice";
                  Engine.pending := Some (p, k) |}).
    destruct (resume_at_slot env Cyclic.workflow (5 + fuel) sid None s "requestChoice"
                (Cyclic.requestChoice s) w w1 p k w1 [] store v
                eq_refl eq_refl eq_refl) as (_ & _ & _ & Hsame).
    destruct (resume_at_slot env Cyclic.workflow fuel sid None s "requestChoice"
                (Cyclic.requestChoice s) w w1 p k w1 [] store v
                eq_refl eq_refl eq_refl) as (Hpause & _).
    destruct (cyclic_resume_refines env fuel sid (<[sid := ck]> store) w1 ck p k v
                (lookup_insert_eq _ _ _) eq_refl eq_refl (fun _ => eq_refl))
      as (r & Hresume & _ & Hone & Hmany).
    fold s1 flights s2 in Hone, Hmany.
    exists k, r. split; [exact Hpause|]. split; [reflexivity|].
    split; [exact Hresume|].
    assert (Hchoice : Cyclic.userChoice s2 = Some v) by reflexivity.
    destruct (decide (length flights = 1%nat)) as [H1|Hn].
    + destruct (Hone H1) as [Hout Hentered].
      split; [apply Hsame; [exact Hresume|by rewrite Hout]|].
      pose proof (resume_completed _ _ _ _ _ _ _ _ Hresume Hout) as Hend.
      cbn [Engine.sessionId] in Hend.
      split; [by rewrite Hend|].
      split; [exact Hchoice|]. split; [reflexivity|]. split; [by left|].
      rewrite Hentered. unfold w1, enter. cbn [entered]. by rewrite <- app_assoc.
    + destruct (Hmany Hn) as (Hout & Hentered & k' & _ & Hck').
      split; [apply Hsame; [exact Hresume|by rewrite Hout]|].
      split; [by rewrite Hck'|].
      split; [exact Hchoice|]. split; [reflexivity|]. split; [by right|].
      rewrite Hentered. unfold w1, enter. cbn [entered]. by rewrite <- app_assoc.
  - intros env fuel sid store w s v p w1.
    set (k := fun v : string => Ret (Linear.obj_userChoice v)).
    set (ck := {| Engine.state := s; Engine.cursor := "requestUserChoice";
                  Engine.pending := Some (p, k) |}).
    exists k. intros suspended resumed synchronous.
    destruct (resume_at_slot env Linear.workflow (3 + fuel) sid None s "requestUserChoice"
                (Linear.requestUserChoice s) w w1 p k w1 [] store v
                eq_refl eq_refl eq_refl) as (_ & Hout & Hworld & Hsame).
    destruct (resume_at_slot env Linear.workflow fuel sid None s "requestUserChoice"
                (Linear.requestUserChoice s) w w1 p k w1 [] store v
                eq_refl eq_refl eq_refl) as (Hpause & _).
    split; [exact Hpause|]. split; [reflexivity|].
    split; [exact Hout|]. split; [exact Hworld|].
    intros first rest Hcand.
    destruct (linear_resume_answers env fuel sid suspended w1 ck p k v first rest
                (lookup_insert_eq _ _ _) eq_refl eq_refl (fun _ => eq_refl) Hcand)
      as (r & flight & Hresume & Hcompleted & Hflight & Hw).
    exists r, flight. eexists.
    split; [exact Hresume|].
    split; [apply Hsame; [exact Hresume|by rewrite Hcompleted]|].
    split; [exact Hcompleted|]. split; [reflexivity|]. split; [reflexivity|].
    split; [exact Hflight|].
    rewrite Hw. unfold w1, called, enter. cbn [entered]. by rewrite <- app_assoc.
Qed.

Lemma resume_is_synchronous_return_witness :
  (String.eqb "requestChoice" Engine.END = false
   ∧ Engine.treeAt Cyclic.workflow None Scenario.retrieved "requestChoice" newWorld
     = Some (Cyclic.requestChoice Scenario.retrieved, enter "requestChoice" newWorld)
   ∧ runNode Scenario.env (Cyclic.requestChoice Scenario.retrieved) []
       (enter "requestChoice" newWorld)
     = (Paused {| question := Cyclic.refineQuestion |}
          (fun v => Ret (Cyclic.obj_userChoice v)) (enter "requestChoice" newWorld), [])
   ∧ Engine.outcome <$>
       Engine.resume Scenario.env Cyclic.workflow 5
         {| Engine.sessionId := Cyclic.thread_id;
            Engine.value := "I'm looking for flights to Japan" |}
         (<[Cyclic.thread_id := Scenario.asked]> ∅) (enter "requestChoice" newWorld)
     = Engine.outcome <$>
         Engine.run Scenario.env Cyclic.workflow 5 Cyclic.thread_id None
           Scenario.retrieved "requestChoice" ["I'm looking for flights to Japan"]
           ∅ newWorld)
  ∧ (∃ k r s2,
       Engine.resume Scenario.env Cyclic.workflow (5 + 0)
         {| Engine.sessionId := Cyclic.thread_id;
            Engine.value := "I'm looking for flights to Japan" |}
         (<[Cyclic.thread_id :=
              {| Engine.state := Scenario.retrieved; Engine.cursor := "requestChoice";
                 Engine.pending := Some ({| question := Cyclic.refineQuestion |}, k) |}]> ∅)
         (enter "requestChoice" newWorld) = Some r
       ∧ Engine.run Scenario.env Cyclic.workflow (5 + 0) Cyclic.thread_id None
           Scenario.retrieved "requestChoice" ["I'm looking for flights to Japan"]
           ∅ newWorld = Some r
       ∧ Engine.state <$> Engine.checkpoints r !! Cyclic.thread_id = Some s2
       ∧ Cyclic.userChoice s2 = Some "I'm looking for flights to Japan"
       ∧ length <$> Cyclic.filteredFlights s2 = Some 5%nat)
  ∧ (Linear.candidates Sample.pair = Some (take 2 Scenario.flights)
     ∧ ∃ k r flight final,
         Engine.resume Scenario.env Linear.workflow (3 + 0)
           {| Engine.sessionId := Linear.thread_id; Engine.value := "the first, please" |}
           (<[Linear.thread_id :=
                {| Engine.state := Sample.pair; Engine.cursor := "requestUserChoice";
                   Engine.pending :=
                     Some ({| question := "Which flight do you prefer?:" |}, k) |}]> ∅)
           (enter "requestUserChoice" newWorld) = Some r
         ∧ Engine.run Scenario.env Linear.workflow (3 + 0) Linear.thread_id None
             Sample.pair "requestUserChoice" ["the first, please"] ∅ newWorld = Some r
         ∧ Engine.outcome r = Engine.Completed final
         ∧ Linear.userChoice final = Some "the first, please"
         ∧ Linear.selected final = Some flight
         ∧ Scenario.flights !! 0%nat = Some flight).
Proof.
  destruct resume_is_synchronous_return as (Hgraph & Hcyclic & Hlinear).
  split; [|split].
  - split; [reflexivity|]. split; [reflexivity|]. split; [reflexivity|].
    exact (proj1 (proj2 (Hgraph _ _ Scenario.env Cyclic.workflow 5%nat
                           Cyclic.thread_id None Scenario.retrieved "requestChoice"
                           (Cyclic.requestChoice Scenario.retrieved) newWorld
                           (enter "requestChoice" newWorld)
                           {| question := Cyclic.refineQuestion |}
                           (fun v => Ret (Cyclic.obj_userChoice v))
                           (enter "requestChoice" newWorld) [] ∅
                           "I'm looking for flights to Japan" eq_refl eq_refl eq_refl))).
  - destruct (Hcyclic Scenario.env 0%nat Cyclic.thread_id ∅ newWorld Scenario.retrieved
                "I'm looking for flights to Japan")
      as (k & r & _ & _ & Hresume & Hrun & Hstate & Hchoice & Hflights & _).
    exists k, r. eexists.
    split; [exact Hresume|]. split; [exact Hrun|]. split; [exact Hstate|].
    split; [exact Hchoice|]. rewrite Hflights. by vm_compute.
  - split; [reflexivity|].
    destruct (Hlinear Scenario.env 0%nat Linear.thread_id ∅ newWorld Sample.pair
                "the first, please") as (k & _ & _ & _ & _ & Hcand).
    destruct (Hcand _ _ eq_refl)
      as (r & flight & final & Hresume & Hrun & Hout & Hchoice & Hselected & Hflight & _).
    exists k, r, flight, final.
    split; [exact Hresume|]. split; [exact Hrun|]. split; [exact Hout|].
    split; [exact Hchoice|]. split; [exact Hselected|].
    rewrite <- Hflight. by vm_compute.
Defined.

(** ** The answer "3" *)

(** What [selectedFlight] picks from a list that is not empty. *)
Lemma selectedFlight_picks number first rest flight :
  Linear.selectedFlight (Js.pred number) (first :: rest) = Some flight ->
  flight ∈ first :: rest
  ∧ (∀ z, number = Some z -> 1 <= z <= Z.of_nat (length (first :: rest)) ->
          (first :: rest) !! Z.to_nat (z - 1) = Some flight)
  ∧ (number = None
     ∨ (∃ z, number = Some z ∧ (z < 1 ∨ Z.of_nat (length (first :: rest)) < z)) ->
     flight = first).
Proof.
  unfold Linear.selectedFlight.
  destruct (Js.inRange (length (first :: rest)) (Js.pred number)) eqn:Hr.
  - intros Hf. destruct (index_inRange (first :: rest) _ Hr) as (x & Hx & Hin).
    rewrite Hx in Hf. injection Hf as <-. split; [exact Hin|].
    destruct number as [z|]; [|done]. simpl in Hr, Hx.
    apply andb_prop in Hr as [H0%Z.leb_le Hlt%Z.ltb_lt].
    destruct (Z.leb_spec 0 (z - 1)); [|lia].
    split.
    + by intros ? [= <-] _.
    + intros [?|(z' & [= <-] & Hout)]; [done|]. cbn [length] in *. lia.
  - intros [= <-]. split; [apply elem_of_cons; by left|].
    split; [|done].
    intros z -> Hz. simpl in Hr.
    apply andb_false_iff in Hr as [H%Z.leb_gt|H%Z.ltb_ge]; simpl in *; lia.
Qed.

(** C5. The answer "3" selects the third flight in [src/main.ts].  There,
    with at least three flights retrieved, the first call of a new session
    pauses with the question of [requestChoice], and resuming with "3"
    completes the session with exactly the third flight in
    [filteredFlights], the chat model not being called; the same holds of
    every session paused at [requestChoice] whose state holds at least
    three flights; in general a reply matched by [/^\d+$/] whose number [k]
    is between 1 and the number of flights makes [disambiguateSelection]
    return the flight of index [k - 1], by a handler that holds no call of
    the chat model.

    In [src/unnamed/part_000] the answer is not read as a number: a session
    paused at [requestUserChoice] with a candidate, resumed with "3",
    completes after one call of the chat model, asked about "3", with the
    candidate whose number the reply of the chat model starts with, and
    with the first candidate when the reply is no number of a candidate.
    With three results or more for the question, the first call pauses
    with the first two results as candidates, and the call resumed with "3"
    completes with one of these two. *)
Theorem third_flight_selected :
  (∀ env fuel sid store w q,
     store !! sid = None ->
     (3 <= length (vectorStore env (Some q) 10))%nat ->
     ∃ third r1 r2,
       vectorStore env (Some q) 10 !! 2%nat = Some third
       ∧ Engine.invoke env Cyclic.workflow (3 + fuel) (Cyclic.obj_input q) sid store w
         = Some r1
       ∧ Engine.outcome r1 = Engine.Suspended {| question := Cyclic.refineQuestion |}
       ∧ Engine.resume env Cyclic.workflow (5 + fuel)
           {| Engine.sessionId := sid; Engine.value := "3" |}
           (Engine.checkpoints r1) (Engine.world r1) = Some r2
       ∧ Engine.outcome r2
         = Engine.Completed
             {| Cyclic.input := Some q; Cyclic.filteredFlights := Some [third];
                Cyclic.options := None; Cyclic.selectedCountry := None;
                Cyclic.selectedCity := None; Cyclic.selectedAirport := None;
                Cyclic.userChoice := Some "3" |}
       ∧ llmCalls (Engine.world r2) = llmCalls w)
  ∧ (∀ env fuel sid store w ck p k,
       store !! sid = Some ck ->
       Engine.cursor ck = "requestChoice" ->
       Engine.pending ck = Some (p, k) ->
       (∀ v, k v = Ret (Cyclic.obj_userChoice v)) ->
       (3 <= length (default [] (Cyclic.filteredFlights (Engine.state ck))))%nat ->
       ∃ third r,
         default [] (Cyclic.filteredFlights (Engine.state ck)) !! 2%nat = Some third
         ∧ Engine.resume env Cyclic.workflow (5 + fuel)
             {| Engine.sessionId := sid; Engine.value := "3" |} store w = Some r
         ∧ Engine.outcome r
           = Engine.Completed
               (Engine.merge (Engine.merge (Engine.state ck) (Cyclic.obj_userChoice "3"))
                  (Cyclic.obj_filteredFlights [third]))
         ∧ llmCalls (Engine.world r) = llmCalls w)
  ∧ (∀ state u,
       Cyclic.userChoice state = Some u ->
       Js.numberRegex u = true ->
       1 <= Js.decimalValue u
         <= Z.of_nat (length (default [] (Cyclic.filteredFlights state))) ->
       ∃ flight,
         default [] (Cyclic.filteredFlights state) !! Z.to_nat (Js.decimalValue u - 1)
           = Some flight
         ∧ Cyclic.disambiguateSelection state
           = ConsoleLog (LogSelectedNumber u)
               (Ret (Cyclic.obj_filteredFlights [flight])))
  ∧ (∀ env fuel sid store w ck p k first rest,
       store !! sid = Some ck ->
       Engine.cursor ck = "requestUserChoice" ->
       Engine.pending ck = Some (p, k) ->
       (∀ v, k v = Ret (Linear.obj_userChoice v)) ->
       Linear.candidates (Engine.state ck) = Some (first :: rest) ->
       let number := Js.parseInt (llm env (llmCalls w) "3" (first :: rest)) (Some 10) in
       ∃ r flight,
         Engine.resume env Linear.workflow (3 + fuel)
           {| Engine.sessionId := sid; Engine.value := "3" |} store w = Some r
         ∧ Engine.outcome r
           = Engine.Completed
               (Engine.merge (Engine.merge (Engine.state ck) (Linear.obj_userChoice "3"))
                  (Linear.obj_selected_final flight
                     (Linear.formatFlightDetails (metadata flight))))
         ∧ llmCalls (Engine.world r) = S (llmCalls w)
         ∧ (∀ z, number = Some z -> 1 <= z <= Z.of_nat (length (first :: rest)) ->
                 (first :: rest) !! Z.to_nat (z - 1) = Some flight)
         ∧ (number = None
            ∨ (∃ z, number = Some z ∧ (z < 1 ∨ Z.of_nat (length (first :: rest)) < z)) ->
            flight = first))
  ∧ (∀ env fuel sid store w q,
       store !! sid = None ->
       (3 <= length (vectorStore env (Some q) 5))%nat ->
       ∃ first second r1 r2 flight,
         vectorStore env (Some q) 5 !! 0%nat = Some first
         ∧ vectorStore env (Some q) 5 !! 1%nat = Some second
         ∧ Engine.invoke env Linear.workflow (4 + fuel) (Linear.obj_input q) sid store w
           = Some r1
         ∧ Engine.outcome r1
           = Engine.Suspended {| question := "Which flight do you prefer?:" |}
         ∧ Engine.resume env Linear.workflow (3 + fuel)
             {| Engine.sessionId := sid; Engine.value := "3" |}
             (Engine.checkpoints r1) (Engine.world r1) = Some r2
         ∧ Engine.outcome r2
           = Engine.Completed
               {| Linear.input := Some q; Linear.candidates := Some [first; second];
                  Linear.userChoice := Some "3"; Linear.selected := Some flight;
                  Linear.final := Some (Linear.formatFlightDetails (metadata flight)) |}
         ∧ (flight = first ∨ flight = second)).
Proof.
  destruct cyclic_third_flight as (Hnew & Hpaused & Hnumber).
  split; [exact Hnew|]. split; [exact Hpaused|]. split; [exact Hnumber|].
  assert (Hlinear : ∀ env fuel sid store w ck p k first rest,
       store !! sid = Some ck ->
       Engine.cursor ck = "requestUserChoice" ->
       Engine.pending ck = Some (p, k) ->
       (∀ v, k v = Ret (Linear.obj_userChoice v)) ->
       Linear.candidates (Engine.state ck) = Some (first :: rest) ->
       let number := Js.parseInt (llm env (llmCalls w) "3" (first :: rest)) (Some 10) in
       ∃ r flight,
         Engine.resume env Linear.workflow (3 + fuel)
           {| Engine.sessionId := sid; Engine.value := "3" |} store w = Some r
         ∧ Engine.outcome r
           = Engine.Completed
               (Engine.merge (Engine.merge (Engine.state ck) (Linear.obj_userChoice "3"))
                  (Linear.obj_selected_final flight
                     (Linear.formatFlightDetails (metadata flight))))
         ∧ llmCalls (Engine.world r) = S (llmCalls w)
         ∧ (∀ z, number = Some z -> 1 <= z <= Z.of_nat (length (first :: rest)) ->
                 (first :: rest) !! Z.to_nat (z - 1) = Some flight)
         ∧ (number = None
            ∨ (∃ z, number = Some z ∧ (z < 1 ∨ Z.of_nat (length (first :: rest)) < z)) ->
            flight = first)).
  { intros env fuel sid store w ck p k first rest Hck Hc Hp Hk Hcand number.
    destruct (linear_resume_answers env fuel sid store w ck p k "3" first rest
                Hck Hc Hp Hk Hcand) as (r & flight & Hresume & Hout & Hflight & Hw).
    destruct (selectedFlight_picks _ first rest flight Hflight) as (_ & Hin & Hdefault).
    exists r, flight. split; [exact Hresume|]. split; [exact Hout|].
    split; [by rewrite Hw|]. split; [exact Hin|exact Hdefault]. }
  split; [exact Hlinear|].
  intros env fuel sid store w q Hs Hlen.
  destruct (vectorStore env (Some q) 5) as [|first [|second [|third results]]] eqn:Hv;
    [simpl in Hlen; lia..|].
  destruct (linear_invoke_asks env fuel sid store w q Hs) as (k & w1 & Hk & Hinvoke);
    [by rewrite Hv|].
  rewrite Hv in Hinvoke. change (take 2 (first :: second :: third :: results))
    with [first; second] in Hinvoke.
  set (ck := {| Engine.state := _; Engine.cursor := "requestUserChoice";
                Engine.pending := Some (_, k) |}) in Hinvoke.
  destruct (linear_resume_answers env fuel sid (<[sid := ck]> store) w1 ck _ k "3"
              first [second] (lookup_insert_eq _ _ _) eq_refl eq_refl Hk eq_refl)
    as (r2 & flight & Hresume & Hout & Hflight & _).
  destruct (selectedFlight_picks _ first [second] flight Hflight) as (Hin & _).
  exists first, second. eexists _, r2, flight.
  split; [reflexivity|]. split; [reflexivity|]. split; [exact Hinvoke|].
  split; [reflexivity|]. split; [exact Hresume|]. split; [exact Hout|].
  apply elem_of_cons in Hin as [?|Hin]; [by left|].
  apply list_elem_of_singleton in Hin. by right.
Qed.

(** In the linear workflow "3" does not select the third flight.  Five
    results for the question, and a chat model that replies 3: the first
    call pauses, and the call resumed with "3" completes with the first
    result selected, not the third.  A session paused with three candidates
    in its state, the chat model of the recorded session (its first reply
    starts with 1): resumed with "3" it completes with the first candidate
    selected, not the third. *)
Lemma third_flight_selected_counterexample :
  (∃ first third r1 r2 final,
     length (vectorStore Sample.third (Some Linear.userQuestion) 5) = 5%nat
     ∧ vectorStore Sample.third (Some Linear.userQuestion) 5 !! 0%nat = Some first
     ∧ vectorStore Sample.third (Some Linear.userQuestion) 5 !! 2%nat = Some third
     ∧ Engine.invoke Sample.third Linear.workflow 4
         (Linear.obj_input Linear.userQuestion) Linear.thread_id ∅ newWorld = Some r1
     ∧ Engine.outcome r1
       = Engine.Suspended {| question := "Which flight do you prefer?:" |}
     ∧ Engine.resume Sample.third Linear.workflow 3
         {| Engine.sessionId := Linear.thread_id; Engine.value := "3" |}
         (Engine.checkpoints r1) (Engine.world r1) = Some r2
     ∧ Engine.outcome r2 = Engine.Completed final
     ∧ Linear.selected final = Some first
     ∧ Linear.selected final ≠ Some third)
  ∧ (∃ first third r final,
       (3 <= length (default [] (Linear.candidates (Engine.state Sample.three))))%nat
       ∧ default [] (Linear.candidates (Engine.state Sample.three)) !! 0%nat = Some first
       ∧ default [] (Linear.candidates (Engine.state Sample.three)) !! 2%nat = Some third
       ∧ Engine.resume Scenario.env Linear.workflow 3
           {| Engine.sessionId := Linear.thread_id; Engine.value := "3" |}
           (<[Linear.thread_id := Sample.three]> ∅) newWorld = Some r
       ∧ Engine.outcome r = Engine.Completed final
       ∧ Linear.selected final = Some first
       ∧ Linear.selected final ≠ Some third).
Proof.
  split.
  - eexists _, _, _, _, _.
    split; [reflexivity|]. split; [reflexivity|]. split; [reflexivity|].
    split; [by vm_compute|]. split; [reflexivity|].
    split; [by vm_compute|]. split; [reflexivity|].
    split; [reflexivity|]. by vm_compute.
  - eexists _, _, _, _.
    split; [vm_compute; lia|]. split; [reflexivity|]. split; [reflexivity|].
    split; [by vm_compute|]. split; [reflexivity|].
    split; [reflexivity|]. by vm_compute.
Qed.

Lemma third_flight_selected_witness :
  ((∅ : gmap string (Engine.Checkpoint Cyclic.SupportState)) !! Cyclic.thread_id = None
   ∧ (3 <= length (vectorStore Scenario.env (Some Cyclic.userQuestion) 10))%nat
   ∧ ∃ r1 r2,
       Engine.invoke Scenario.env Cyclic.workflow (3 + 0)
         (Cyclic.obj_input Cyclic.userQuestion) Cyclic.thread_id ∅ newWorld = Some r1
       ∧ Engine.outcome r1 = Engine.Suspended {| question := Cyclic.refineQuestion |}
       ∧ Engine.resume Scenario.env Cyclic.workflow (5 + 0)
           {| Engine.sessionId := Cyclic.thread_id; Engine.value := "3" |}
           (Engine.checkpoints r1) (Engine.world r1) = Some r2
       ∧ Engine.outcome r2
         = Engine.Completed
             {| Cyclic.input := Some Cyclic.userQuestion;
                Cyclic.filteredFlights :=
                  Some [Scenario.flight "MDE -> PVG (AndeanSky)" "AndeanSky" "Shanghai"
                          "China" "Pudong International" "PVG" 1450 "25h 50m"
                          "2025-11-28"];
                Cyclic.options := None; Cyclic.selectedCountry := None;
                Cyclic.selectedCity := None; Cyclic.selectedAirport := None;
                Cyclic.userChoice := Some "3" |}
       ∧ llmCalls (Engine.world r2) = 0%nat)
  ∧ ((<[Linear.thread_id := Sample.three]> ∅ : gmap string _) !! Linear.thread_id
       = Some Sample.three
     ∧ Linear.candidates (Engine.state Sample.three) = Some (take 3 Scenario.flights)
     ∧ Js.parseInt (llm Sample.third 0 "3" (take 3 Scenario.flights)) (Some 10) = Some 3
     ∧ ∃ r flight final,
         Engine.resume Sample.third Linear.workflow (3 + 0)
           {| Engine.sessionId := Linear.thread_id; Engine.value := "3" |}
           (<[Linear.thread_id := Sample.three]> ∅) newWorld = Some r
         ∧ Engine.outcome r = Engine.Completed final
         ∧ Linear.selected final = Some flight
         ∧ Scenario.flights !! 2%nat = Some flight
         ∧ llmCalls (Engine.world r) = 1%nat).
Proof.
  destruct third_flight_selected as (Hnew & _ & _ & Hlinear & _).
  split.
  - assert (Hlen : (3 <= length (vectorStore Scenario.env (Some Cyclic.userQuestion) 10))%nat)
      by (vm_compute; lia).
    split; [reflexivity|]. split; [exact Hlen|].
    destruct (Hnew Scenario.env 0%nat Cyclic.thread_id ∅ newWorld Cyclic.userQuestion
                (lookup_empty _) Hlen)
      as (third & r1 & r2 & Hthird & Hinvoke & Hpause & Hresume & Hout & Hllm).
    exists r1, r2. split; [exact Hinvoke|]. split; [exact Hpause|].
    split; [exact Hresume|]. split; [|exact Hllm].
    rewrite Hout. vm_compute in Hthird. by injection Hthird as <-.
  - assert (Hck : (<[Linear.thread_id := Sample.three]> ∅ : gmap string _)
                    !! Linear.thread_id = Some Sample.three)
      by apply lookup_insert_eq.
    split; [exact Hck|]. split; [reflexivity|]. split; [reflexivity|].
    destruct (Hlinear Sample.third 0%nat Linear.thread_id
                (<[Linear.thread_id := Sample.three]> ∅) newWorld Sample.three _ _ _ _
                Hck eq_refl eq_refl (fun _ => eq_refl) eq_refl)
      as (r & flight & Hresume & Hout & Hllm & Hnumber & _).
    exists r, flight. eexists.
    split; [exact Hresume|]. split; [exact Hout|]. split; [reflexivity|].
    split; [|exact Hllm].
    rewrite <- (Hnumber 3 eq_refl ltac:(vm_compute; split; discriminate)).
    reflexivity.
Defined.

(** ** The same command twice *)

(** A second resume with the same command is accepted when the first
    paused again.  The recorded session paused at [requestChoice] with ten
    flights: resumed with its first line it pauses again, five flights
    being left, after one call of the chat model; resumed again with the
    same command it is not rejected: it pauses once more, two flights
    being left, after a second call of the chat model. *)
Lemma misuse_is_rejected_counterexample :
  ∃ r1 r2 ck1 ck2,
    Engine.resume Scenario.env Cyclic.workflow 5
      {| Engine.sessionId := Cyclic.thread_id;
         Engine.value := "I'm looking for flights to Japan" |}
      (<[Cyclic.thread_id := Scenario.asked]> ∅) (enter "requestChoice" newWorld)
      = Some r1
    ∧ Engine.outcome r1 = Engine.Suspended {| question := Cyclic.refineQuestion |}
    ∧ Engine.checkpoints r1 !! Cyclic.thread_id = Some ck1
    ∧ length <$> Cyclic.filteredFlights (Engine.state ck1) = Some 5%nat
    ∧ llmCalls (Engine.world r1) = 1%nat
    ∧ Engine.resume Scenario.env Cyclic.workflow 5
        {| Engine.sessionId := Cyclic.thread_id;
           Engine.value := "I'm looking for flights to Japan" |}
        (Engine.checkpoints r1) (Engine.world r1)
      = Some r2
    ∧ Engine.outcome r2 = Engine.Suspended {| question := Cyclic.refineQuestion |}
    ∧ Engine.outcome r2 ≠ Engine.Failed Engine.NoPendingInterruptError
    ∧ Engine.checkpoints r2 !! Cyclic.thread_id = Some ck2
    ∧ length <$> Cyclic.filteredFlights (Engine.state ck2) = Some 2%nat
    ∧ llmCalls (Engine.world r2) = 2%nat.
Proof.
  eexists _, _, _, _.
  split; [by vm_compute|]. split; [reflexivity|].
  split; [reflexivity|]. split; [reflexivity|]. split; [reflexivity|].
  split; [by vm_compute|]. split; [reflexivity|]. split; [discriminate|].
  split; [reflexivity|]. split; reflexivity.
Qed.

Lemma misuse_is_rejected_witness :
  (∃ store : gmap string (Engine.Checkpoint Cyclic.SupportState),
     store !! Cyclic.thread_id
       = Some {| Engine.state := Scenario.found; Engine.cursor := Engine.END;
                 Engine.pending := None |}
     ∧ Engine.resume Scenario.env Cyclic.workflow 5
         {| Engine.sessionId := Cyclic.thread_id; Engine.value := "3" |} store newWorld
       = Some {| Engine.outcome := Engine.Failed Engine.NoPendingInterruptError;
                 Engine.checkpoints := store; Engine.world := newWorld |})
  ∧ (∃ r final,
       Engine.resume Scenario.env Cyclic.workflow 5
         {| Engine.sessionId := Cyclic.thread_id; Engine.value := "10" |}
         (<[Cyclic.thread_id := Scenario.asked]> ∅) (enter "requestChoice" newWorld)
         = Some r
       ∧ Engine.outcome r = Engine.Completed final
       ∧ Cyclic.filteredFlights final = Some [Scenario.haneda]
       ∧ Engine.resume Scenario.env Cyclic.workflow 5
           {| Engine.sessionId := Cyclic.thread_id; Engine.value := "10" |}
           (Engine.checkpoints r) (Engine.world r)
         = Some {| Engine.outcome := Engine.Failed Engine.NoPendingInterruptError;
                   Engine.checkpoints := Engine.checkpoints r;
                   Engine.world := Engine.world r |})
  ∧ ((<[Cyclic.thread_id := Scenario.asked]> ∅ : gmap string _) !! Cyclic.thread_id
       = Some Scenario.asked
     ∧ Engine.pending Scenario.asked
       = Some ({| question := Cyclic.refineQuestion |},
               fun v => Ret (Cyclic.obj_userChoice v))
     ∧ Engine.invoke Scenario.env Cyclic.workflow 5
         (Cyclic.obj_input Cyclic.userQuestion) Cyclic.thread_id
         (<[Cyclic.thread_id := Scenario.asked]> ∅) (enter "requestChoice" newWorld)
       = Some {| Engine.outcome := Engine.Failed Engine.ResumeRequiredError;
                 Engine.checkpoints := <[Cyclic.thread_id := Scenario.asked]> ∅;
                 Engine.world := enter "requestChoice" newWorld |})
  ∧ (∃ r r',
       Engine.resume Scenario.env Cyclic.workflow 5
         {| Engine.sessionId := Cyclic.thread_id;
            Engine.value := "I'm looking for flights to Japan" |}
         (<[Cyclic.thread_id := Scenario.asked]> ∅) (enter "requestChoice" newWorld)
         = Some r
       ∧ Engine.outcome r = Engine.Suspended {| question := Cyclic.refineQuestion |}
       ∧ Engine.resume Scenario.env Cyclic.workflow 5
           {| Engine.sessionId := Cyclic.thread_id;
              Engine.value := "I'm looking for flights to Japan" |}
           (Engine.checkpoints r) (Engine.world r)
         = Some r'
       ∧ Engine.outcome r' ≠ Engine.Failed Engine.NoPendingInterruptError).
Proof.
  destruct (misuse_is_rejected Scenario.env Cyclic.workflow)
    as (Hnone & Htwice & Hinvoke & Hagain).
  assert (Hck : (<[Cyclic.thread_id := Scenario.asked]> ∅ : gmap string _)
                  !! Cyclic.thread_id = Some Scenario.asked)
    by apply lookup_insert_eq.
  split; [|split; [|split]].
  - set (ended := {| Engine.state := Scenario.found; Engine.cursor := Engine.END;
                     Engine.pending := None |}).
    exists (<[Cyclic.thread_id := ended]> ∅).
    assert (Hended : (<[Cyclic.thread_id := ended]> ∅ : gmap string _)
                       !! Cyclic.thread_id = Some ended)
      by apply lookup_insert_eq.
    split; [exact Hended|].
    apply Hnone. cbn [Engine.sessionId]. intros ck H. rewrite Hended in H.
    by injection H as <-.
  - assert (Hfirst : ∃ r,
              Engine.resume Scenario.env Cyclic.workflow 5
                {| Engine.sessionId := Cyclic.thread_id; Engine.value := "10" |}
                (<[Cyclic.thread_id := Scenario.asked]> ∅)
                (enter "requestChoice" newWorld) = Some r
              ∧ Engine.outcome r
                = Engine.Completed
                    (Engine.merge (Engine.merge Scenario.retrieved
                                     (Cyclic.obj_userChoice "10"))
                       (Cyclic.obj_filteredFlights [Scenario.haneda])))
      by (eexists; split; [by vm_compute|reflexivity]).
    destruct Hfirst as (r & Hr & Hout).
    exists r. eexists. split; [exact Hr|]. split; [exact Hout|].
    split; [reflexivity|]. exact (Htwice 5%nat 5%nat _ _ _ r _ Hr Hout).
  - split; [exact Hck|]. split; [reflexivity|].
    exact (Hinvoke 5%nat (Cyclic.obj_input Cyclic.userQuestion) Cyclic.thread_id _
             (enter "requestChoice" newWorld) Scenario.asked _ Hck eq_refl).
  - assert (Hfirst : ∃ r,
              Engine.resume Scenario.env Cyclic.workflow 5
                {| Engine.sessionId := Cyclic.thread_id;
                   Engine.value := "I'm looking for flights to Japan" |}
                (<[Cyclic.thread_id := Scenario.asked]> ∅)
                (enter "requestChoice" newWorld) = Some r
              ∧ Engine.outcome r
                = Engine.Suspended {| question := Cyclic.refineQuestion |}
              ∧ is_Some (Engine.resume Scenario.env Cyclic.workflow 5
                           {| Engine.sessionId := Cyclic.thread_id;
                              Engine.value := "I'm looking for flights to Japan" |}
                           (Engine.checkpoints r) (Engine.world r)))
      by (eexists; split; [by vm_compute|split; [reflexivity|vm_compute; by eexists]]).
    destruct Hfirst as (r & Hr & Hout & [r' Hr']).
    destruct (Hagain 5%nat 5%nat _ _ _ r _ Hr Hout) as (ck & k & _ & _ & _ & Hnot).
    exists r, r'. split; [exact Hr|]. split; [exact Hout|].
    split; [exact Hr'|exact (Hnot r' Hr')].
Defined.

(** * [main] of [src/main.ts] from its first statement *)

(** X5. [main] of [src/main.ts] fails when [ingestData] does, and not
    after.  When [ingestData] rejects, as it does when the cluster does
    not answer whether the index exists, [main] rejects before it
    searches.  When [ingestData] returns, then whatever [saveGraphImage]
    meets, the vector store returns, the operator types and the chat model
    replies, none of the calls of the session fails: when [main] ends,
    [filteredFlights] holds exactly one flight, one of those the vector
    store returned for the question; otherwise it waits at
    [requestChoice] with flights drawn from them, every line typed having
    been used for one resume call. *)
Theorem main_ends_on_a_retrieved_flight {Cluster} (es : Ingestion.Elastic Cluster)
    fs drawing env fuel stdin (cluster : Cluster) :
  (∀ cluster' lines,
     Ingestion.ingestData es fs (cluster, []) = (None, (cluster', lines)) ->
     Program.main es fs drawing env (5 + fuel) stdin cluster
       = Program.IngestionRejected cluster' lines)
  ∧ (Ingestion.indicesExists es Ingestion.VECTOR_INDEX cluster = None ->
     Program.main es fs drawing env (5 + fuel) stdin cluster
       = Program.IngestionRejected cluster [])
  ∧ (∀ cluster' lines,
       Ingestion.ingestData es fs (cluster, []) = (Some (), (cluster', lines)) ->
       ∃ r resumes,
         Program.main es fs drawing env (5 + fuel) stdin cluster
           = Program.Searched cluster' lines (Program.saveGraphImage drawing)
               (Some (r, resumes))
         ∧ Session.sound (vectorStore env (Some Cyclic.userQuestion) 10) r
         ∧ (resumes <= length stdin)%nat
         ∧ ((∃ p, Engine.outcome r = Engine.Suspended p) -> resumes = length stdin)).
Proof.
  split; [|split].
  - intros cluster' lines Hingest. unfold Program.main. by rewrite Hingest.
  - intros Hexists. unfold Program.main.
    assert (Hingest : Ingestion.ingestData es fs (cluster, []) = (None, (cluster, []))).
    { unfold Ingestion.ingestData, mbind, Ingestion.io_bind, Ingestion.ioBind,
        Ingestion.ask.
      simpl. by rewrite Hexists. }
    by rewrite Hingest.
  - intros cluster' lines Hingest.
    destruct (cyclic_main_sound env fuel stdin) as (r & resumes & Hmain & Hsound & Hle & Hall).
    exists r, resumes. split; [|done].
    unfold Program.main. by rewrite Hingest, Hmain.
Qed.


Lemma main_ends_on_a_retrieved_flight_witness :
  (Ingestion.indicesExists Sample.unreachable Ingestion.VECTOR_INDEX () = None
   ∧ Program.main Sample.unreachable Ingestion.sampleFiles None Scenario.env (5 + 0)
       Scenario.lines ()
     = Program.IngestionRejected () [])
  ∧ (∃ cluster' lines r,
       Ingestion.ingestData Ingestion.memory Ingestion.sampleFiles (∅, [])
         = (Some (), (cluster', lines))
       ∧ lines = [Ingestion.CreatingVectorIndex; Ingestion.IngestingDataset;
                  Ingestion.Ingested 2]
       ∧ Program.main Ingestion.memory Ingestion.sampleFiles None Scenario.env (5 + 0)
           Scenario.lines ∅
         = Program.Searched cluster' lines
             (Program.GraphSaved "./workflow_graph.png") (Some (r, 3%nat))
       ∧ ∃ final,
           Engine.outcome r = Engine.Completed final
           ∧ Cyclic.filteredFlights final = Some [Scenario.haneda]).
Proof.
  split.
  - split; [reflexivity|].
    exact (proj1 (proj2 (main_ends_on_a_retrieved_flight Sample.unreachable
                           Ingestion.sampleFiles None Scenario.env 0%nat
                           Scenario.lines ())) eq_refl).
  - assert (Hingest :
              Ingestion.ingestData Ingestion.memory Ingestion.sampleFiles (∅, [])
              = (Some (),
                 ((Ingestion.ingestData Ingestion.memory Ingestion.sampleFiles
                     (∅, [])).2.1,
                  (Ingestion.ingestData Ingestion.memory Ingestion.sampleFiles
                     (∅, [])).2.2)))
      by reflexivity.
    pose proof (main_ends_on_a_retrieved_flight Ingestion.memory Ingestion.sampleFiles
                  None Scenario.env 0%nat Scenario.lines ∅) as H.
    destruct H as (_ & _ & H). specialize (H _ _ Hingest).
    destruct H as (r & resumes & Hmain & _).
    assert (Hrecorded : Cyclic.main Scenario.env (5 + 0) Scenario.lines
                        = Some (r, resumes)).
    { assert (Hsession : ∀ (c c' : gmap string (list Document)) l l' g g' s s',
                Program.Searched c l g s = Program.Searched c' l' g' s' -> s = s')
        by (intros; congruence).
      unfold Program.main in Hmain. rewrite Hingest in Hmain.
      exact (Hsession _ _ _ _ _ _ _ _ Hmain). }
    assert (Hcomputed :
              (fun '(r, resumes) => (Engine.outcome r, resumes))
                <$> Cyclic.main Scenario.env (5 + 0) Scenario.lines
              = Some (Engine.Completed
                        {| Cyclic.input := Some Cyclic.userQuestion;
                           Cyclic.filteredFlights := Some [Scenario.haneda];
                           Cyclic.options := None; Cyclic.selectedCountry := None;
                           Cyclic.selectedCity := None; Cyclic.selectedAirport := None;
                           Cyclic.userChoice := Some "I'll take the Haneda flight" |},
                      3%nat))
      by (by vm_compute).
    rewrite Hrecorded in Hcomputed. cbn [fmap option_fmap option_map] in Hcomputed.
    injection Hcomputed as Hout Hresumes. subst resumes.
    eexists _, _, r. split; [exact Hingest|]. split; [reflexivity|].
    split; [exact Hmain|].
    eexists. split; [exact Hout|reflexivity].
Defined.
